(** * esxi-mcp-server: a shallow embedding of the orchestration layer

    The development follows the package layout of [esxi_mcp_server]:
    - [Py]: the fragment of Python the code relies on (truthiness, exceptions,
      the result of a call that may raise or keep looping);
    - [Vim]: the remote inventory as the code reads it through pyVmomi
      (datacenters, datastores, hosts, virtual machines, snapshot trees, tasks);
    - [VMwareManager]: [vmware_manager.py];
    - [Tools]: [tools.py];
    - [McpServer]: [mcp_server.py].
    The statements proved about them come last. *)

From Stdlib Require Import ZArith QArith Qround Lqa Ascii String List Lia DecimalString.
From stdpp Require Import base option list strings gmap.

#[local] Set Warnings "-register-all".

Local Open Scope string_scope.
Local Open Scope Z_scope.
Local Open Scope list_scope.

(* ===================================================================== *)
(** * Python fragment                                                     *)
(* ===================================================================== *)

Module Py.

(** Exceptions, by class.  [Exception], [ValueError] and [TypeError] carry
    their message; a [MethodFault] is the error payload of a remote task,
    raised as it is by [raise task.info.error]. *)
Inductive exc : Type :=
| Exception (msg : string)
| ValueError (msg : string)
| TypeError (msg : string)
| ZeroDivisionError (msg : string)
| MethodFault (payload : string).

(** What a call does: it returns, it raises, or (for the polling loops,
    which are run with a bound on the number of iterations) it is still
    inside its loop when the bound is reached. *)
Inductive outcome (A : Type) : Type :=
| Returned (a : A)
| Raised (e : exc)
| Spinning.
Arguments Returned {A} a.
Arguments Raised {A} e.
Arguments Spinning {A}.

(** [if s:] for [s : Optional[str]]: [None] and the empty string are false. *)
Definition truthy (s : option string) : bool :=
  match s with
  | None => false
  | Some s => negb (String.eqb s "")
  end.

(** [if xs:] for a list. *)
Definition nonempty {A} (xs : list A) : bool :=
  match xs with [] => false | _ :: _ => true end.

(** [if s:] as a binder: the string when it is set and not empty. *)
Definition if_set (s : option string) : option string :=
  match s with
  | Some s => if String.eqb s "" then None else Some s
  | None => None
  end.

(** [next((x for x in xs if cond(x)), None)].  [select x] is [Some] when the
    condition of the generator holds for [x]; an [isinstance] test in the
    condition shows in the type of what is selected. *)
Fixpoint next_or_None {A B} (select : A -> option B) (xs : list A) : option B :=
  match xs with
  | [] => None
  | x :: xs' =>
      match select x with
      | Some b => Some b
      | None => next_or_None select xs'
      end
  end.

(** [max(xs, key=key)] for a non-empty list [x :: xs]: the running maximum
    is replaced only by an item whose key is strictly greater, so of
    several maximal items the first one is returned. *)
Fixpoint max_by {A} (key : A -> Z) (best : A) (xs : list A) : A :=
  match xs with
  | [] => best
  | x :: xs' => max_by key (if key best <? key x then x else best) xs'
  end.

(** [str(n)] for an [int]. *)
Definition str_int (n : Z) : string :=
  DecimalString.NilZero.string_of_int (Z.to_int n).

#[export] Instance outcome_ret : MRet outcome := fun A a => Returned a.

#[export] Instance outcome_bind : MBind outcome := fun A B f m =>
  match m with
  | Returned a => f a
  | Raised e => Raised e
  | Spinning => Spinning
  end.

(** ** Calls with effects

    A call runs in a state of type [S] (the manager object and the remote
    side it talks to) and ends in an [outcome] and a new state. *)
Definition M (S A : Type) : Type := S -> outcome A * S.

#[export] Instance M_ret {S} : MRet (M S) := fun A a s => (Returned a, s).

#[export] Instance M_bind {S} : MBind (M S) := fun A B f m s =>
  match m s with
  | (Returned a, s') => f a s'
  | (Raised e, s') => (Raised e, s')
  | (Spinning, s') => (Spinning, s')
  end.

Definition raise {S A} (e : exc) : M S A := fun s => (Raised e, s).
Definition spin {S A} : M S A := fun s => (Spinning, s).
Definition get {S} : M S S := fun s => (Returned s, s).
Definition modify {S} (f : S -> S) : M S unit := fun s => (Returned tt, f s).

End Py.

(* ===================================================================== *)
(** * The remote inventory                                                *)
(* ===================================================================== *)

Module Vim.
Import Py.

(** [vim.VirtualMachine.PowerState] *)
Inductive PowerState : Type := poweredOff | poweredOn | suspended.

Definition PowerState_eqb (a b : PowerState) : bool :=
  match a, b with
  | poweredOff, poweredOff | poweredOn, poweredOn | suspended, suspended => true
  | _, _ => false
  end.

Definition str_PowerState (s : PowerState) : string :=
  match s with
  | poweredOff => "poweredOff"
  | poweredOn => "poweredOn"
  | suspended => "suspended"
  end.

(** [vim.vm.SnapshotTree]: one node of a virtual machine's snapshot tree.
    [snapshot] is the reference to the snapshot object the node stands for;
    [createTime] is kept as its [str()] rendering. *)
Inductive SnapshotTree : Type :=
| SnapshotTreeNode (snapshot : string) (name : string) (description : string)
                   (createTime : string) (state : PowerState)
                   (childSnapshotList : list SnapshotTree).

Definition snapshot (t : SnapshotTree) : string :=
  match t with SnapshotTreeNode r _ _ _ _ _ => r end.
Definition name (t : SnapshotTree) : string :=
  match t with SnapshotTreeNode _ n _ _ _ _ => n end.
Definition description (t : SnapshotTree) : string :=
  match t with SnapshotTreeNode _ _ d _ _ _ => d end.
Definition createTime (t : SnapshotTree) : string :=
  match t with SnapshotTreeNode _ _ _ c _ _ => c end.
Definition state (t : SnapshotTree) : PowerState :=
  match t with SnapshotTreeNode _ _ _ _ s _ => s end.
Definition childSnapshotList (t : SnapshotTree) : list SnapshotTree :=
  match t with SnapshotTreeNode _ _ _ _ _ c => c end.

(** ** Tasks *)

(** [vim.TaskInfo.State] *)
Inductive TaskInfoState : Type := queued | running | success | error.

Definition TaskInfoState_eqb (a b : TaskInfoState) : bool :=
  match a, b with
  | queued, queued | running, running | success, success | error, error => true
  | _, _ => false
  end.

Definition str_TaskInfoState (s : TaskInfoState) : string :=
  match s with
  | queued => "queued"
  | running => "running"
  | success => "success"
  | error => "error"
  end.

(** A task handle.  [task.info.state] is a remote property, fetched anew
    each time the expression is evaluated: [info_state n] is what the
    [n]-th evaluation through this handle sees.  [info_result] is
    [str(task.info.result)] when the result is set, [info_error] the fault
    of a failed task. *)
Record Task : Type := {
  info_state : nat -> TaskInfoState;
  info_result : option string;
  info_error : option string
}.

(** ** Inventory *)

Record ResourcePool : Type := { rp_name : string }.

(** A [vim.ComputeResource]; [cr_isCluster] tells a
    [vim.ClusterComputeResource] (a subclass) from a standalone host. *)
Record ComputeResource : Type := {
  cr_name : string;
  cr_isCluster : bool;
  cr_resourcePool : ResourcePool
}.

(** [datacenter.hostFolder.childEntity]: compute resources and sub-folders. *)
Inductive hostFolderChild : Type :=
| HostFolder_ComputeResource (cr : ComputeResource)
| HostFolder_Folder (name : string).

Record Datastore : Type := {
  ds_name : string;
  ds_summary_freeSpace : Z
}.

(** [datacenter.datastoreFolder.childEntity]: datastores, and storage pods
    or sub-folders, which are not instances of [vim.Datastore]. *)
Inductive datastoreFolderChild : Type :=
| DatastoreFolder_Datastore (ds : Datastore)
| DatastoreFolder_Other (name : string).

(** The class of an entity of [datacenter.networkFolder.childEntity].
    [vim.dvs.DistributedVirtualPortgroup] is a subclass of [vim.Network]. *)
Inductive NetworkClass : Type :=
| class_Network
| class_DistributedVirtualPortgroup (key : string) (switchUuid : string)
| class_Other.

Record Network : Type := {
  net_name : string;
  net_class : NetworkClass
}.

Definition isinstance_Network (net : Network) : bool :=
  match net_class net with
  | class_Network | class_DistributedVirtualPortgroup _ _ => true
  | class_Other => false
  end.

Record Datacenter : Type := {
  dc_name : string;
  hostFolder_childEntity : list hostFolderChild;
  datastoreFolder_childEntity : list datastoreFolderChild;
  networkFolder_childEntity : list Network;
  vmFolder : string
}.

(** [content.rootFolder.childEntity]: datacenters and folders. *)
Inductive rootFolderChild : Type :=
| RootFolder_Datacenter (dc : Datacenter)
| RootFolder_Folder (name : string).

(** A virtual machine, with the properties the manager reads.
    [vm_snapshot] is [vm.snapshot.rootSnapshotList], [None] when
    [vm.snapshot] is unset; [vm_parent_Folder] is [vm.parent] when that is
    a [vim.Folder]. *)
Record VirtualMachine : Type := {
  vm_name : string;
  vm_runtime_powerState : PowerState;
  vm_snapshot : option (list SnapshotTree);
  vm_parent_Folder : option string;
  vm_resourcePool : option ResourcePool
}.

Record HostCpuInfo : Type := { numCpuCores : Z; hz : Z }.
Record HostHardwareInfo : Type := { cpuInfo : option HostCpuInfo; memorySize : Z }.

(** [host.summary.quickStats]; each counter is optional in the API and
    reads as [None] when unset. *)
Record HostQuickStats : Type := {
  overallCpuUsage : option Z;
  overallMemoryUsage : option Z;
  uptime : option Z
}.

Record HostSystem : Type := {
  host_name : string;
  host_summary_quickStats : option HostQuickStats;
  host_hardware : option HostHardwareInfo
}.

(** ** Requests that start a task *)

Inductive NicBacking : Type :=
| NetworkBackingInfo (network : Network) (deviceName : string)
| DistributedVirtualPortBackingInfo (portgroupKey : string) (switchUuid : string).

Inductive VirtualDevice : Type :=
| ParaVirtualSCSIController (label summary : string) (busNumber key : Z)
| VirtualDisk (capacityInKB : Z) (label summary : string) (diskMode : string)
              (thinProvisioned : bool) (datastore : Datastore)
              (controllerKey unitNumber : Z)
| VirtualVmxnet3 (label summary : string) (backing : option NicBacking)
                 (startConnected allowGuestControl : bool).

(** [vim.vm.device.VirtualDeviceSpec]; the operation is always [add]. *)
Record VirtualDeviceSpec : Type := {
  fileOperation_create : bool;
  device : VirtualDevice
}.

Record ConfigSpec : Type := {
  cs_name : string;
  cs_memoryMB : Z;
  cs_numCPUs : Z;
  cs_guestId : string;
  cs_annotation : option string;
  cs_deviceChange : list VirtualDeviceSpec
}.

(** The remote methods that return a task, with their arguments. *)
Inductive TaskRequest : Type :=
| CreateVM_Task (folder : string) (config : ConfigSpec) (pool : ResourcePool)
| Clone (vm : VirtualMachine) (folder : string) (name : string)
        (pool : ResourcePool) (datastore : Datastore)
| Destroy_Task (vm : VirtualMachine)
| PowerOnVM_Task (vm : VirtualMachine)
| PowerOffVM_Task (vm : VirtualMachine)
| CreateSnapshot (vm : VirtualMachine) (name description : string) (memory quiesce : bool)
| RemoveSnapshot_Task (snapshot : string) (removeChildren : bool)
| RevertToSnapshot_Task (snapshot : string)
| RemoveAllSnapshots (vm : VirtualMachine).

(** ** The remote side

    The control plane is opaque.  The model keeps what the manager reads
    from it (the inventory), what the manager does to it (the requests it
    has received, in order, and the number of container views that are
    open), and [task_of]: the handle the control plane returns for a
    request, that is, how it will run it. *)
Record Remote : Type := {
  rootFolder_childEntity : list rootFolderChild;
  view_VirtualMachine : list VirtualMachine;
  view_HostSystem : list HostSystem;
  task_of : TaskRequest -> Task;
  submitted : list TaskRequest;
  views : nat
}.

Definition set_submitted (f : list TaskRequest -> list TaskRequest) (r : Remote) : Remote :=
  {| rootFolder_childEntity := rootFolder_childEntity r;
     view_VirtualMachine := view_VirtualMachine r;
     view_HostSystem := view_HostSystem r;
     task_of := task_of r;
     submitted := f (submitted r);
     views := views r |}.

Definition set_views (f : nat -> nat) (r : Remote) : Remote :=
  {| rootFolder_childEntity := rootFolder_childEntity r;
     view_VirtualMachine := view_VirtualMachine r;
     view_HostSystem := view_HostSystem r;
     task_of := task_of r;
     submitted := submitted r;
     views := f (views r) |}.

(** [pyVim.connect.SmartConnect(host, user, pwd, sslContext)]: the session
    to the control plane at [host], or the exception the attempt raises.
    [unverified] tells whether the SSL context passed has certificate and
    host name checks switched off. *)
Record Endpoint : Type := {
  SmartConnect : forall (host user pwd : string) (unverified : bool), exc + Remote
}.

End Vim.

(* ===================================================================== *)
(** * vmware_manager.py                                                   *)
(* ===================================================================== *)

Module VMwareManager.
Import Py Vim.

(** Modelled from the spec: the configuration record ([config.py] is not
    among the sources).  Each field is one the sources read; the named
    targets are optional. *)
Record Config : Type := {
  vcenter_host : string;
  vcenter_user : string;
  vcenter_password : string;
  insecure : bool;
  datacenter : option string;
  cluster : option string;
  datastore : option string;
  network : option string;
  api_key : option string
}.

(** The manager object after [__init__]. *)
Record Self : Type := {
  config : Config;
  datacenter_obj : Datacenter;
  resource_pool : ResourcePool;
  datastore_obj : Datastore;
  network_obj : option Network;
  authenticated : bool
}.

(** The manager and the remote side it holds a session to. *)
Record World : Type := { self : Self; remote : Remote }.

Definition set_remote (f : Remote -> Remote) (w : World) : World :=
  {| self := self w; remote := f (remote w) |}.

Definition set_authenticated (b : bool) (w : World) : World :=
  {| self := {| config := config (self w);
                datacenter_obj := datacenter_obj (self w);
                resource_pool := resource_pool (self w);
                datastore_obj := datastore_obj (self w);
                network_obj := network_obj (self w);
                authenticated := b |};
     remote := remote w |}.

(** ** [_connect_vcenter]

    The function is a sequence of five blocks, each of which either sets
    a field of the manager or raises; they are given in the order of the
    source and chained in [_connect_vcenter]. *)

Definition connect (config : Config) (endpoint : Endpoint) : outcome Remote :=
  let attempt :=
    if insecure config
    then SmartConnect endpoint (vcenter_host config) (vcenter_user config)
                      (vcenter_password config) true
    else SmartConnect endpoint (vcenter_host config) (vcenter_user config)
                      (vcenter_password config) false in
  match attempt with
  | inl e => Raised e
  | inr si => Returned si
  end.

Definition select_Datacenter (cond : Datacenter -> bool) (e : rootFolderChild)
  : option Datacenter :=
  match e with
  | RootFolder_Datacenter dc => if cond dc then Some dc else None
  | RootFolder_Folder _ => None
  end.

Definition resolve_datacenter (config : Config) (content : Remote) : outcome Datacenter :=
  datacenter_obj ←
    match if_set (datacenter config) with
    | Some name =>
        match next_or_None (select_Datacenter (fun dc => String.eqb (dc_name dc) name))
                           (rootFolder_childEntity content) with
        | None => Raised (Exception ("Datacenter " +:+ name +:+ " not found"))
        | Some dc => Returned (Some dc)
        end
    | None =>
        Returned (next_or_None (select_Datacenter (fun _ => true))
                               (rootFolder_childEntity content))
    end;
  match datacenter_obj with
  | None => Raised (Exception "No datacenter object found")
  | Some dc => Returned dc
  end.

Definition select_ComputeResource (cond : ComputeResource -> bool) (e : hostFolderChild)
  : option ComputeResource :=
  match e with
  | HostFolder_ComputeResource cr => if cond cr then Some cr else None
  | HostFolder_Folder _ => None
  end.

Definition resolve_resource_pool (config : Config) (datacenter_obj : Datacenter)
  : outcome ResourcePool :=
  compute_resource ←
    match if_set (cluster config) with
    | Some name =>
        match next_or_None
                (select_ComputeResource
                   (fun folder => cr_isCluster folder && String.eqb (cr_name folder) name))
                (hostFolder_childEntity datacenter_obj) with
        | None => Raised (Exception ("Cluster " +:+ name +:+ " not found"))
        | Some cr => Returned (Some cr)
        end
    | None =>
        Returned (next_or_None (select_ComputeResource (fun _ => true))
                               (hostFolder_childEntity datacenter_obj))
    end;
  match compute_resource with
  | None => Raised (Exception "No compute resource (cluster or host) found")
  | Some cr => Returned (cr_resourcePool cr)
  end.

Definition select_Datastore (cond : Datastore -> bool) (e : datastoreFolderChild)
  : option Datastore :=
  match e with
  | DatastoreFolder_Datastore ds => if cond ds then Some ds else None
  | DatastoreFolder_Other _ => None
  end.

Definition resolve_datastore (config : Config) (datacenter_obj : Datacenter)
  : outcome Datastore :=
  match if_set (datastore config) with
  | Some name =>
      match next_or_None (select_Datastore (fun ds => String.eqb (ds_name ds) name))
                         (datastoreFolder_childEntity datacenter_obj) with
      | None => Raised (Exception ("Datastore " +:+ name +:+ " not found"))
      | Some ds => Returned ds
      end
  | None =>
      let datastores :=
        omap (select_Datastore (fun _ => true)) (datastoreFolder_childEntity datacenter_obj) in
      match datastores with
      | [] => Raised (Exception "No available datastore found in the datacenter")
      | ds :: rest => Returned (max_by ds_summary_freeSpace ds rest)
      end
  end.

Definition select_named_Network (name : string) (net : Network) : option Network :=
  if String.eqb (net_name net) name then Some net else None.

Definition resolve_network (config : Config) (datacenter_obj : Datacenter)
  : outcome (option Network) :=
  match if_set (network config) with
  | Some name =>
      let networks := networkFolder_childEntity datacenter_obj in
      match next_or_None (select_named_Network name) networks with
      | None => Raised (Exception ("Network " +:+ name +:+ " not found"))
      | Some net => Returned (Some net)
      end
  | None => Returned None
  end.

(** [authenticated] is the value [__init__] gave the flag before the call. *)
Definition _connect_vcenter (config : Config) (authenticated : bool) (endpoint : Endpoint)
  : outcome World :=
  content ← connect config endpoint;
  datacenter_obj ← resolve_datacenter config content;
  resource_pool ← resolve_resource_pool config datacenter_obj;
  datastore_obj ← resolve_datastore config datacenter_obj;
  network_obj ← resolve_network config datacenter_obj;
  mret {| self := {| config := config;
                     datacenter_obj := datacenter_obj;
                     resource_pool := resource_pool;
                     datastore_obj := datastore_obj;
                     network_obj := network_obj;
                     authenticated := authenticated |};
          remote := content |}.

Definition __init__ (config : Config) (endpoint : Endpoint) : outcome World :=
  _connect_vcenter config false endpoint.

(** ** Snapshot navigation *)

(** The body of the [for] loop of [_find_snapshot_by_name] for one
    snapshot, with the recursive call on its children unfolded into the
    inner loop; [None] means the loop goes on to the next snapshot. *)
Fixpoint _find_snapshot_by_name_visit (name : string) (snapshot : SnapshotTree)
  : option SnapshotTree :=
  if String.eqb (Vim.name snapshot) name then Some snapshot
  else
    (fix loop (snapshots : list SnapshotTree) : option SnapshotTree :=
       match snapshots with
       | [] => None
       | child :: rest =>
           match _find_snapshot_by_name_visit name child with
           | Some result => Some result
           | None => loop rest
           end
       end) (childSnapshotList snapshot).

Fixpoint _find_snapshot_by_name (snapshots : list SnapshotTree) (name : string)
  : option SnapshotTree :=
  match snapshots with
  | [] => None
  | snapshot :: rest =>
      match _find_snapshot_by_name_visit name snapshot with
      | Some result => Some result
      | None => _find_snapshot_by_name rest name
      end
  end.

(** One entry of the list [list_snapshots] returns. *)
Record snap_info : Type := SnapInfo {
  si_name : string;
  si_description : string;
  si_create_time : string;
  si_state : string;
  si_level : Z
}.

Definition snap_info_of (snapshot : SnapshotTree) (level : Z) : snap_info :=
  {| si_name := Vim.name snapshot;
     si_description := description snapshot;
     si_create_time := createTime snapshot;
     si_state := str_PowerState (state snapshot);
     si_level := level |}.

(** [_collect_snapshots] appends to the list it is given; the embedding
    returns the list after the appends.  As above, the loop body for one
    snapshot comes first. *)
Fixpoint _collect_snapshots_visit (level : Z) (snapshot : SnapshotTree)
    (result : list snap_info) : list snap_info :=
  let result := result ++ [snap_info_of snapshot level] in
  (fix loop (snapshots : list SnapshotTree) (result : list snap_info) : list snap_info :=
     match snapshots with
     | [] => result
     | child :: rest => loop rest (_collect_snapshots_visit (level + 1) child result)
     end) (childSnapshotList snapshot) result.

Fixpoint _collect_snapshots (snapshots : list SnapshotTree) (result : list snap_info)
    (level : Z) : list snap_info :=
  match snapshots with
  | [] => result
  | snapshot :: rest =>
      _collect_snapshots rest (_collect_snapshots_visit level snapshot result) level
  end.

(** ** Remote calls *)

(** [content.viewManager.CreateContainerView(content.rootFolder, [cls], True)]
    and [container.Destroy()]. *)
Definition CreateContainerView {A} (view : Remote -> list A) : M World (list A) :=
  fun w => (Returned (view (remote w)), set_remote (set_views S) w).

Definition Destroy : M World unit := modify (set_remote (set_views Nat.pred)).

(** A method that returns a task: the request reaches the control plane,
    which hands back the handle. *)
Definition submit (request : TaskRequest) : M World Task :=
  fun w => (Returned (task_of (remote w) request),
            set_remote (set_submitted (fun l => l ++ [request])) w).

Definition find_vm (name : string) : M World (option VirtualMachine) :=
  container ← CreateContainerView view_VirtualMachine;
  let vm_obj :=
    next_or_None (fun vm => if String.eqb (vm_name vm) name then Some vm else None)
                 container in
  Destroy;;
  mret vm_obj.

Definition find_host (name : string) : M World (option HostSystem) :=
  container ← CreateContainerView view_HostSystem;
  let host_obj :=
    next_or_None (fun host => if String.eqb (host_name host) name then Some host else None)
                 container in
  Destroy;;
  mret host_obj.

(** ** Waiting for a task inside a handler *)

Definition terminal (s : TaskInfoState) : bool :=
  TaskInfoState_eqb s success || TaskInfoState_eqb s error.

(** [while task.info.state not in [success, error]: continue], where
    [reads] evaluations of [task.info.state] have been made so far and the
    condition is tested at most [fuel] times.  The result is the number of
    evaluations made when the loop is left, [None] when it is not left
    within [fuel] tests. *)
Fixpoint busy_wait (fuel : nat) (task : Task) (reads : nat) : option nat :=
  match fuel with
  | O => None
  | S fuel' =>
      if terminal (info_state task reads) then Some (S reads)
      else busy_wait fuel' task (S reads)
  end.

(** [raise task.info.error] *)
Definition raise_task_error {A} (task : Task) : M World A :=
  match info_error task with
  | Some fault => raise (MethodFault fault)
  | None => raise (TypeError "exceptions must derive from BaseException")
  end.

(** The lines every handler has after it obtained [task]:
    [[
      while task.info.state not in [success, error]:
          continue
      if task.info.state == error:
          raise task.info.error
    ]]
    (The [try ... except] around them in some handlers logs and re-raises.) *)
Definition wait_in_handler (fuel : nat) (task : Task) : M World unit :=
  match busy_wait fuel task 0 with
  | None => spin
  | Some reads =>
      if TaskInfoState_eqb (info_state task reads) error
      then raise_task_error task
      else mret tt
  end.

(** ** Creating, cloning and deleting virtual machines *)

(** The first block of [create_vm] and [create_vm_custom]: the datastore
    and the network of the call, by name when one is passed, the manager's
    own otherwise. *)
Definition datastore_and_network (datastore network : option string)
  : M World (Datastore * option Network) :=
  w ← get;
  datastore_obj ←
    match if_set datastore with
    | Some datastore =>
        match next_or_None (select_Datastore (fun ds => String.eqb (ds_name ds) datastore))
                           (datastoreFolder_childEntity (datacenter_obj (self w))) with
        | None => raise (Exception ("Specified datastore " +:+ datastore +:+ " not found"))
        | Some ds => mret ds
        end
    | None => mret (datastore_obj (self w))
    end;
  network_obj ←
    match if_set network with
    | Some network =>
        let networks := networkFolder_childEntity (datacenter_obj (self w)) in
        match next_or_None (select_named_Network network) networks with
        | None => raise (Exception ("Specified network " +:+ network +:+ " not found"))
        | Some net => mret (Some net)
        end
    | None => mret (network_obj (self w))
    end;
  mret (datastore_obj, network_obj).

(** The device list both functions build: a controller, a disk attached
    to it, and an adapter when there is a network. *)
Definition device_specs (disk_size_gb : Z) (thin_provisioned : bool)
    (datastore_obj : Datastore) (network_obj : option Network) : list VirtualDeviceSpec :=
  let controller_key := -101 in
  let controller_spec :=
    {| fileOperation_create := false;
       device := ParaVirtualSCSIController "SCSI Controller" "ParaVirtual SCSI Controller"
                                           0 controller_key |} in
  let disk_spec :=
    {| fileOperation_create := true;
       device := VirtualDisk (1024 * 1024 * disk_size_gb) "Hard Disk 1"
                             (str_int disk_size_gb +:+ " GB disk") "persistent"
                             thin_provisioned datastore_obj controller_key 0 |} in
  [controller_spec; disk_spec] ++
  match network_obj with
  | Some network_obj =>
      let backing :=
        if isinstance_Network network_obj
        then Some (NetworkBackingInfo network_obj (net_name network_obj))
        else match net_class network_obj with
             | class_DistributedVirtualPortgroup port_key dvs_uuid =>
                 Some (DistributedVirtualPortBackingInfo port_key dvs_uuid)
             | _ => None
             end in
      [ {| fileOperation_create := false;
           device := VirtualVmxnet3 "Network Adapter 1" (net_name network_obj)
                                    backing true true |} ]
  | None => []
  end.

Definition create_vm (fuel : nat) (name : string) (cpus memory_mb : Z)
    (datastore network : option string) : M World string :=
  '(datastore_obj, network_obj) ← datastore_and_network datastore network;
  w ← get;
  let vm_spec :=
    {| cs_name := name; cs_memoryMB := memory_mb; cs_numCPUs := cpus;
       cs_guestId := "otherGuest"; cs_annotation := None;
       cs_deviceChange := device_specs 10 true datastore_obj network_obj |} in
  let vm_folder := vmFolder (datacenter_obj (self w)) in
  task ← submit (CreateVM_Task vm_folder vm_spec (resource_pool (self w)));
  wait_in_handler fuel task;;
  mret ("VM '" +:+ name +:+ "' created.").

Definition clone_vm (fuel : nat) (template_name new_name : string) : M World string :=
  template_vm ← find_vm template_name;
  match template_vm with
  | None => raise (Exception ("Template virtual machine " +:+ template_name +:+ " not found"))
  | Some template_vm =>
      w ← get;
      let vm_folder :=
        match vm_parent_Folder template_vm with
        | Some folder => folder
        | None => vmFolder (datacenter_obj (self w))
        end in
      let resource_pool :=
        match vm_resourcePool template_vm with
        | Some pool => pool
        | None => resource_pool (self w)
        end in
      task ← submit (Clone template_vm vm_folder new_name resource_pool
                           (datastore_obj (self w)));
      wait_in_handler fuel task;;
      mret ("VM '" +:+ new_name +:+ "' cloned from '" +:+ template_name +:+ "'.")
  end.

Definition create_vm_custom (fuel : nat) (name : string) (cpus memory_mb disk_size_gb : Z)
    (guest_id : string) (datastore network : option string) (thin_provisioned : bool)
    (annotation : option string) : M World string :=
  '(datastore_obj, network_obj) ← datastore_and_network datastore network;
  w ← get;
  let vm_spec :=
    {| cs_name := name; cs_memoryMB := memory_mb; cs_numCPUs := cpus;
       cs_guestId := guest_id; cs_annotation := if_set annotation;
       cs_deviceChange :=
         device_specs disk_size_gb thin_provisioned datastore_obj network_obj |} in
  let vm_folder := vmFolder (datacenter_obj (self w)) in
  task ← submit (CreateVM_Task vm_folder vm_spec (resource_pool (self w)));
  wait_in_handler fuel task;;
  mret ("Custom VM '" +:+ name +:+ "' created with " +:+ str_int cpus +:+ " CPUs, "
        +:+ str_int memory_mb +:+ "MB RAM, and " +:+ str_int disk_size_gb +:+ "GB disk.").

Definition delete_vm (fuel : nat) (name : string) : M World string :=
  vm ← find_vm name;
  match vm with
  | None => raise (Exception ("Virtual machine " +:+ name +:+ " not found"))
  | Some vm =>
      task ← submit (Destroy_Task vm);
      wait_in_handler fuel task;;
      mret ("VM '" +:+ name +:+ "' deleted.")
  end.

(** ** Power *)

Definition power_on_vm (fuel : nat) (name : string) : M World string :=
  vm ← find_vm name;
  match vm with
  | None => raise (Exception ("Virtual machine " +:+ name +:+ " not found"))
  | Some vm =>
      if PowerState_eqb (vm_runtime_powerState vm) poweredOn
      then mret ("VM '" +:+ name +:+ "' is already powered on.")
      else
        task ← submit (PowerOnVM_Task vm);
        wait_in_handler fuel task;;
        mret ("VM '" +:+ name +:+ "' powered on.")
  end.

Definition power_off_vm (fuel : nat) (name : string) : M World string :=
  vm ← find_vm name;
  match vm with
  | None => raise (Exception ("Virtual machine " +:+ name +:+ " not found"))
  | Some vm =>
      if PowerState_eqb (vm_runtime_powerState vm) poweredOff
      then mret ("VM '" +:+ name +:+ "' is already powered off.")
      else
        task ← submit (PowerOffVM_Task vm);
        wait_in_handler fuel task;;
        mret ("VM '" +:+ name +:+ "' powered off.")
  end.

(** ** Host telemetry

    Python's [float] is not modelled: the three float operations the
    function uses are parameters.  [int_truediv a b] is [a / b] for two
    [int]s with [b] not zero, [float_mul x n] is [x * n] and
    [round_ndigits x n] is [round(x, n)]. *)
Section Telemetry.
Context {float : Type}.
Variable int_truediv : Z -> Z -> float.
Variable float_mul : float -> Z -> float.
Variable round_ndigits : float -> Z -> float.

(** A value of the [stats] dictionary. *)
Inductive stat : Type :=
| stat_None
| stat_int (n : Z)
| stat_float (x : float).

Definition stat_of (counter : option Z) : stat :=
  match counter with
  | Some n => stat_int n
  | None => stat_None
  end.

(** [a / b] where [a] is an [int] or [None] and [b] is an [int]: a
    [TypeError] when [a] is [None], a [ZeroDivisionError] when [b] is
    zero. *)
Definition truediv (a : option Z) (b : Z) : outcome float :=
  match a with
  | Some a =>
      if b =? 0 then Raised (ZeroDivisionError "division by zero")
      else Returned (int_truediv a b)
  | None =>
      Raised (TypeError "unsupported operand type(s) for /: 'NoneType' and 'int'")
  end.

(** [round((usage / total * 100), 2) if total > 0 else 0], the expression
    of both percentages. *)
Definition usage_percent (usage : option Z) (total : Z) : outcome stat :=
  if 0 <? total then
    quotient ← truediv usage total;
    mret (stat_float (round_ndigits (float_mul quotient 100) 2))
  else mret (stat_int 0).

Definition lift {A} (o : outcome A) : M World A := fun w => (o, w).

(** The values [get_host_performance] computes before it fills the
    dictionary; each is named as the variable or the key it is assigned to. *)
Definition cpu_usage_mhz (host : HostSystem) : option Z :=
  match host_summary_quickStats host with
  | Some qs => overallCpuUsage qs
  | None => Some 0
  end.

Definition memory_usage_mb (host : HostSystem) : option Z :=
  match host_summary_quickStats host with
  | Some qs => overallMemoryUsage qs
  | None => Some 0
  end.

Definition uptime_seconds (host : HostSystem) : option Z :=
  match host_summary_quickStats host with
  | Some qs => uptime qs
  | None => Some 0
  end.

Definition total_cpu_mhz (hardware : HostHardwareInfo) : Z :=
  match cpuInfo hardware with
  | Some cpuInfo => numCpuCores cpuInfo * (hz cpuInfo / 1000000)
  | None => 0
  end.

Definition total_memory_mb (hardware : HostHardwareInfo) : Z :=
  if memorySize hardware =? 0 then 0 else memorySize hardware / 1024 ^ 2.

Definition get_host_performance (host_name : string) : M World (gmap string stat) :=
  host ← find_host host_name;
  match host with
  | None => raise (Exception ("Host " +:+ host_name +:+ " not found"))
  | Some host =>
      let stats : gmap string stat :=
        <["uptime_seconds" := stat_of (uptime_seconds host)]>
        (<["memory_usage_mb" := stat_of (memory_usage_mb host)]>
        (<["cpu_usage_mhz" := stat_of (cpu_usage_mhz host)]> ∅)) in
      match host_hardware host with
      | Some hardware =>
          cpu_usage_percent ←
            lift (usage_percent (cpu_usage_mhz host) (total_cpu_mhz hardware));
          memory_usage_percent ←
            lift (usage_percent (memory_usage_mb host) (total_memory_mb hardware));
          mret (<["memory_usage_percent" := memory_usage_percent]>
                (<["memory_total_mb" := stat_int (total_memory_mb hardware)]>
                (<["cpu_usage_percent" := cpu_usage_percent]>
                (<["cpu_total_mhz" := stat_int (total_cpu_mhz hardware)]> stats))))
      | None => mret stats
      end
  end.

End Telemetry.
Arguments stat : clear implicits.

(** ** [wait_for_task]

    The function reads the clock and sleeps; [clock n] is what the [n]-th
    call of [time.time()] made by the function returns (the first one is
    [start_time]), one [time.sleep(1)] lying between two consecutive calls
    inside the loop.  The dictionaries are maps from keys to strings, or
    to [None]. *)

Definition default_timeout : Z := 300.

Fixpoint wait_for_task_loop (fuel : nat) (task : Task) (clock : nat -> Q)
    (start_time : Q) (timeout : Z) (reads ticks : nat)
  : outcome (gmap string (option string)) :=
  match fuel with
  | O => Spinning
  | S fuel' =>
      if terminal (info_state task reads) then
        if TaskInfoState_eqb (info_state task (S reads)) success then
          Returned (<["status" := Some "success"]>
                    (<["message" := Some "Task completed successfully"]>
                    (<["result" := info_result task]> ∅)))
        else
          Returned (<["status" := Some "error"]>
                    (<["message" := Some (default "Unknown error" (info_error task))]>
                    (<["error" := info_error task]> ∅)))
      else if Qlt_le_dec (inject_Z timeout) (clock ticks - start_time) then
        Returned (<["status" := Some "timeout"]>
                  (<["message" :=
                       Some ("Task timed out after " +:+ str_int timeout +:+ " seconds")]>
                  (<["task_state" :=
                       Some (str_TaskInfoState (info_state task (S reads)))]> ∅)))
      else wait_for_task_loop fuel' task clock start_time timeout (S reads) (S ticks)
  end.

Definition wait_for_task (fuel : nat) (task : Task) (clock : nat -> Q) (timeout : Z)
  : outcome (gmap string (option string)) :=
  let start_time := clock O in
  wait_for_task_loop fuel task clock start_time timeout 0 1.

(** ** Snapshots *)

Definition create_snapshot (fuel : nat) (vm_name snapshot_name description : string)
    (memory quiesce : bool) : M World string :=
  vm ← find_vm vm_name;
  match vm with
  | None => raise (Exception ("VM " +:+ vm_name +:+ " not found"))
  | Some vm =>
      task ← submit (CreateSnapshot vm snapshot_name description memory quiesce);
      wait_in_handler fuel task;;
      mret ("Snapshot '" +:+ snapshot_name +:+ "' created successfully for VM '"
            +:+ vm_name +:+ "'")
  end.

Definition remove_snapshot (fuel : nat) (vm_name snapshot_name : string)
    (remove_children : bool) : M World string :=
  vm ← find_vm vm_name;
  match vm with
  | None => raise (Exception ("VM " +:+ vm_name +:+ " not found"))
  | Some vm =>
      match vm_snapshot vm with
      | None => raise (Exception ("VM " +:+ vm_name +:+ " has no snapshots"))
      | Some rootSnapshotList =>
          match _find_snapshot_by_name rootSnapshotList snapshot_name with
          | None => raise (Exception ("Snapshot '" +:+ snapshot_name +:+ "' not found on VM '"
                                      +:+ vm_name +:+ "'"))
          | Some snapshot =>
              task ← submit (RemoveSnapshot_Task (Vim.snapshot snapshot) remove_children);
              wait_in_handler fuel task;;
              mret ("Snapshot '" +:+ snapshot_name +:+ "' removed successfully from VM '"
                    +:+ vm_name +:+ "'")
          end
      end
  end.

Definition revert_snapshot (fuel : nat) (vm_name snapshot_name : string) : M World string :=
  vm ← find_vm vm_name;
  match vm with
  | None => raise (Exception ("VM " +:+ vm_name +:+ " not found"))
  | Some vm =>
      match vm_snapshot vm with
      | None => raise (Exception ("VM " +:+ vm_name +:+ " has no snapshots"))
      | Some rootSnapshotList =>
          match _find_snapshot_by_name rootSnapshotList snapshot_name with
          | None => raise (Exception ("Snapshot '" +:+ snapshot_name +:+ "' not found on VM '"
                                      +:+ vm_name +:+ "'"))
          | Some snapshot =>
              task ← submit (RevertToSnapshot_Task (Vim.snapshot snapshot));
              wait_in_handler fuel task;;
              mret ("VM '" +:+ vm_name +:+ "' reverted successfully to snapshot '"
                    +:+ snapshot_name +:+ "'")
          end
      end
  end.

Definition list_snapshots (vm_name : string) : M World (list snap_info) :=
  vm ← find_vm vm_name;
  match vm with
  | None => raise (Exception ("VM " +:+ vm_name +:+ " not found"))
  | Some vm =>
      match vm_snapshot vm with
      | None => mret []
      | Some rootSnapshotList =>
          let snapshots := [] in
          mret (_collect_snapshots rootSnapshotList snapshots 0)
      end
  end.

Definition remove_all_snapshots (fuel : nat) (vm_name : string) : M World string :=
  vm ← find_vm vm_name;
  match vm with
  | None => raise (Exception ("VM " +:+ vm_name +:+ " not found"))
  | Some vm =>
      match vm_snapshot vm with
      | None => mret ("VM '" +:+ vm_name +:+ "' has no snapshots to remove")
      | Some _ =>
          task ← submit (RemoveAllSnapshots vm);
          wait_in_handler fuel task;;
          mret ("All snapshots removed successfully from VM '" +:+ vm_name +:+ "'")
      end
  end.

(** ** Listings and host counters *)

(** [for vm in container.view: vm_list.append(vm.name)] *)
Definition list_vms : M World (list string) :=
  container ← CreateContainerView view_VirtualMachine;
  let vm_list := fold_left (fun vm_list vm => vm_list ++ [vm_name vm]) container [] in
  Destroy;;
  mret vm_list.

Definition list_hosts : M World (list string) :=
  container ← CreateContainerView view_HostSystem;
  let hosts := fold_left (fun hosts host => hosts ++ [host_name host]) container [] in
  Destroy;;
  mret hosts.

(** The values of the [metrics] dictionary are the counters as the host
    has them: an [int], or [None] when unset. *)
Definition get_host_performance_metrics (host_name : string)
  : M World (gmap string (option Z)) :=
  host ← find_host host_name;
  match host with
  | None => raise (Exception ("Host " +:+ host_name +:+ " not found"))
  | Some host =>
      mret (<["uptime_seconds" := uptime_seconds host]>
            (<["memory_usage_mb" := memory_usage_mb host]>
            (<["cpu_usage_mhz" := cpu_usage_mhz host]> ∅)))
  end.

(** ** [execute_program_in_vm]

    The guest operations are calls to the remote side that the inventory
    above does not hold; the function is given them.  [vm.guest] is taken
    to be set on every virtual machine, its [toolsStatus] may be unset. *)

(** [vim.vm.guest.NamePasswordAuthentication] and
    [vim.vm.guest.ProcessManager.ProgramSpec]; [arguments] is [None] when
    the specification is built without it. *)
Record NamePasswordAuthentication : Type := { username : string; password : string }.
Record ProgramSpec : Type := { programPath : string; arguments : option string }.

(** An item of the reply of [ListProcessesInGuest]; [exitCode] is unset
    while the process runs. *)
Record ProcessInfo : Type := { exitCode : option Z }.

(** A value of the dictionary the function returns. *)
Inductive entry : Type :=
| entry_int (n : Z)
| entry_str (s : string)
| entry_bool (b : bool).

Section GuestOperations.

(** [vm.guest.toolsStatus] *)
Variable toolsStatus : VirtualMachine -> option string.

(** [process_manager.StartProgramInGuest(vm, creds, program_spec)]: the
    pid, or the fault the call raises. *)
Variable StartProgramInGuest :
  VirtualMachine -> NamePasswordAuthentication -> ProgramSpec -> string + Z.

(** [process_manager.ListProcessesInGuest(vm, creds, [pid])]: the reply to
    the call that comes after [n] earlier ones of this run, or the fault it
    raises. *)
Variable ListProcessesInGuest :
  nat -> VirtualMachine -> NamePasswordAuthentication -> list Z -> string + list ProcessInfo.

Definition max_wait : Z := 30.

(** The [while wait_count < max_wait] loop and the [return] after it, with
    the condition tested at most [fuel] times; [calls] is the number of
    [ListProcessesInGuest] calls made so far. *)
Fixpoint poll_processes (fuel : nat) (vm : VirtualMachine)
    (creds : NamePasswordAuthentication) (pid : Z) (wait_count : Z) (calls : nat)
  : outcome (gmap string entry) :=
  match fuel with
  | O => Spinning
  | S fuel' =>
      if wait_count <? max_wait then
        match ListProcessesInGuest calls vm creds [pid] with
        | inl fault => Raised (MethodFault fault)
        | inr processes =>
            match processes with
            | process :: _ =>
                match exitCode process with
                | Some exit_code =>
                    Returned (<["success" := entry_bool (exit_code =? 0)]>
                              (<["status" := entry_str "completed"]>
                              (<["exit_code" := entry_int exit_code]>
                              (<["pid" := entry_int pid]> ∅))))
                | None => poll_processes fuel' vm creds pid (wait_count + 1) (S calls)
                end
            | [] => poll_processes fuel' vm creds pid (wait_count + 1) (S calls)
            end
        end
      else
        Returned (<["message" := entry_str "Program is still running after timeout"]>
                  (<["status" := entry_str "running"]>
                  (<["pid" := entry_int pid]> ∅)))
  end.

(** [tools_status in ('toolsNotInstalled', 'toolsNotRunning')] *)
Definition tools_missing (tools_status : option string) : bool :=
  match tools_status with
  | Some s => String.eqb s "toolsNotInstalled" || String.eqb s "toolsNotRunning"
  | None => false
  end.

Definition execute_program_in_vm (fuel : nat) (vm_name username password : string)
    (program_path program_arguments : string) : M World (gmap string entry) :=
  vm ← find_vm vm_name;
  match vm with
  | None => raise (Exception ("VM " +:+ vm_name +:+ " not found"))
  | Some vm =>
      let tools_status := toolsStatus vm in
      if tools_missing tools_status then
        raise (Exception ("VMware Tools is either not running or not installed. "
                          +:+ "Ensure VMware Tools is running before executing programs."))
      else
        let creds := {| username := username; password := password |} in
        let program_spec :=
          if truthy (Some program_arguments) then
            {| programPath := program_path; arguments := Some program_arguments |}
          else {| programPath := program_path; arguments := None |} in
        match StartProgramInGuest vm creds program_spec with
        | inl fault => raise (MethodFault fault)
        | inr pid =>
            if 0 <? pid then lift (poll_processes fuel vm creds pid 0 0)
            else raise (Exception "Failed to start program in VM")
        end
  end.

End GuestOperations.

End VMwareManager.


(* ===================================================================== *)
(** * tools.py                                                            *)
(* ===================================================================== *)

Module Tools.
Import Py.
Import VMwareManager (World, Config, self, config, api_key, authenticated).

(** An argument of a tool call, as it arrives decoded from JSON, or a
    default of a handler's signature. *)
Inductive value : Type :=
| None_
| bool_ (b : bool)
| int_ (n : Z)
| str_ (s : string)
| list_ (items : list value).

(** The handler methods of [ToolHandlers]. *)
Inductive tool : Type :=
| create_vm | clone_vm | delete_vm | power_on_vm | power_off_vm | list_vms
| get_vm_details | get_vm_performance | get_vm_summary_stats | create_vm_custom
| list_templates | list_datastores | list_datastore_clusters | list_networks
| list_hosts | get_host_details | get_host_performance_metrics
| get_host_hardware_health | get_host_performance | list_performance_counters
| create_snapshot | remove_snapshot | revert_snapshot | list_snapshots
| remove_all_snapshots | execute_program_in_vm | upload_file_to_vm
| upload_file_to_datastore | deploy_ovf | deploy_ova | wait_for_updates
| vm_performance_resource.

(** The parameters of each handler after [self], in order; a parameter
    with [Some d] has the default [d], one with [None] is required. *)
Definition parameters (t : tool) : list (string * option value) :=
  match t with
  | create_vm =>
      [("name", None); ("cpu", None); ("memory", None);
       ("datastore", Some None_); ("network", Some None_)]
  | clone_vm => [("template_name", None); ("new_name", None)]
  | delete_vm | power_on_vm | power_off_vm => [("name", None)]
  | list_vms | list_templates | list_datastores | list_datastore_clusters
  | list_networks | list_hosts | list_performance_counters => []
  | get_vm_details | get_vm_performance | get_vm_summary_stats
  | list_snapshots | remove_all_snapshots | vm_performance_resource =>
      [("vm_name", None)]
  | create_vm_custom =>
      [("name", None); ("cpu", None); ("memory", None);
       ("disk_size_gb", Some (int_ 10)); ("guest_id", Some (str_ "otherGuest"));
       ("datastore", Some None_); ("network", Some None_);
       ("thin_provisioned", Some (bool_ true)); ("annotation", Some None_)]
  | get_host_details | get_host_performance_metrics | get_host_hardware_health
  | get_host_performance => [("host_name", None)]
  | create_snapshot =>
      [("vm_name", None); ("snapshot_name", None); ("description", Some (str_ ""));
       ("memory", Some (bool_ false)); ("quiesce", Some (bool_ false))]
  | remove_snapshot =>
      [("vm_name", None); ("snapshot_name", None); ("remove_children", Some (bool_ true))]
  | revert_snapshot => [("vm_name", None); ("snapshot_name", None)]
  | execute_program_in_vm =>
      [("vm_name", None); ("username", None); ("password", None);
       ("program_path", None); ("program_arguments", Some (str_ ""))]
  | upload_file_to_vm =>
      [("vm_name", None); ("username", None); ("password", None);
       ("local_file_path", None); ("remote_file_path", None)]
  | upload_file_to_datastore =>
      [("datastore_name", None); ("local_file_path", None); ("remote_file_path", None)]
  | deploy_ovf =>
      [("ovf_path", None); ("vmdk_path", None); ("vm_name", Some None_);
       ("datastore_name", Some None_); ("resource_pool_name", Some None_)]
  | deploy_ova =>
      [("ova_path", None); ("vm_name", Some None_);
       ("datastore_name", Some None_); ("resource_pool_name", Some None_)]
  | wait_for_updates =>
      [("object_type", None); ("properties", None);
       ("max_wait_seconds", Some (int_ 30)); ("max_iterations", Some (int_ 1))]
  end.

(** The method of the manager each handler returns the result of.  Every
    handler passes its own arguments on, in the order of its signature. *)
Definition manager_method (t : tool) : string :=
  match t with
  | create_vm => "create_vm" | clone_vm => "clone_vm" | delete_vm => "delete_vm"
  | power_on_vm => "power_on_vm" | power_off_vm => "power_off_vm"
  | list_vms => "list_vms" | get_vm_details => "get_vm_details"
  | get_vm_performance => "get_vm_performance"
  | get_vm_summary_stats => "get_vm_summary_stats"
  | create_vm_custom => "create_vm_custom" | list_templates => "list_templates"
  | list_datastores => "list_datastores"
  | list_datastore_clusters => "list_datastore_clusters"
  | list_networks => "list_networks" | list_hosts => "list_hosts"
  | get_host_details => "get_host_details"
  | get_host_performance_metrics => "get_host_performance_metrics"
  | get_host_hardware_health => "get_host_hardware_health"
  | get_host_performance => "get_host_performance"
  | list_performance_counters => "list_performance_counters"
  | create_snapshot => "create_snapshot" | remove_snapshot => "remove_snapshot"
  | revert_snapshot => "revert_snapshot" | list_snapshots => "list_snapshots"
  | remove_all_snapshots => "remove_all_snapshots"
  | execute_program_in_vm => "execute_program_in_vm"
  | upload_file_to_vm => "upload_file_to_vm"
  | upload_file_to_datastore => "upload_file_to_datastore"
  | deploy_ovf => "deploy_ovf" | deploy_ova => "deploy_ova"
  | wait_for_updates => "wait_for_updates"
  | vm_performance_resource => "get_vm_performance"
  end.

Section ToolHandlers.
Context {result : Type}.

(** The two attributes of a [ToolHandlers] object.  [manager name args]
    is the call of [self.manager.<name>] with the positional arguments
    [args]; the manager's own state is
    in the [World]. *)
Variable manager : string -> list value -> M World result.
Variable config : Config.

Definition _check_auth : M World unit :=
  w ← get;
  if truthy (api_key config) then
    if negb (authenticated (self w))
    then raise (Exception "Unauthorized: API key required.")
    else mret tt
  else mret tt.

(** The body of the handler [t], called with the arguments [args] of its
    parameters. *)
Definition handler (t : tool) (args : list value) : M World result :=
  _check_auth;;
  manager (manager_method t) args.

End ToolHandlers.

End Tools.

(* ===================================================================== *)
(** * mcp_server.py                                                       *)
(* ===================================================================== *)

Module McpServer.
Import Py Tools.
Import VMwareManager (World, Config).

(** [types.TextContent] *)
Record TextContent : Type := { type : string; text : string }.

(** A call of [f] with the dictionary [arguments] unpacked into keyword
    arguments: every key has to be a parameter of [f] and every
    parameter without a default has to be among the keys; the result is
    the list of the arguments in the order of the parameters.  (Python's
    messages also name the function and the offending argument.) *)
Fixpoint bind_parameters (params : list (string * option value))
    (arguments : gmap string value) : option (list value) :=
  match params with
  | [] => Some []
  | (p, d) :: rest =>
      match arguments !! p, d with
      | Some v, _ => cons v <$> bind_parameters rest arguments
      | None, Some d => cons d <$> bind_parameters rest arguments
      | None, None => None
      end
  end.

Definition bind_kwargs (params : list (string * option value))
    (arguments : gmap string value) : outcome (list value) :=
  if bool_decide (map_Forall (fun k _ => k ∈ params.*1) arguments) then
    match bind_parameters params arguments with
    | Some args => Returned args
    | None => Raised (TypeError "missing required positional argument")
    end
  else Raised (TypeError "got an unexpected keyword argument").

(** ** Strings

    [s.split(sep)[0]] for a separator of one character: what comes before
    its first occurrence, all of [s] when there is none. *)
Fixpoint split_first (sep : ascii) (s : string) : string :=
  match s with
  | EmptyString => EmptyString
  | String c rest => if Ascii.eqb c sep then EmptyString else String c (split_first sep rest)
  end.

(** [s.replace(old, new)] for a non-empty [old]: the occurrences of [old]
    are replaced from left to right, the scan going on after each one;
    [skip] is the number of characters of an occurrence still to pass. *)
Fixpoint replace_from (old new : string) (skip : nat) (s : string) : string :=
  match s with
  | EmptyString => EmptyString
  | String c rest =>
      match skip with
      | S skip' => replace_from old new skip' rest
      | O =>
          if String.prefix old s
          then new +:+ replace_from old new (Nat.pred (String.length old)) rest
          else String c (replace_from old new 0 rest)
      end
  end.

Definition replace (old new s : string) : string := replace_from old new 0 s.

(** [types.Resource] *)
Module Resource.
Record t : Type := { name : string; uri : string; description : string; mimeType : string }.
End Resource.

Definition resources : list (string * Resource.t) :=
  [ ("vmStats",
     {| Resource.name := "vmStats";
        Resource.uri := "vmstats://{vm_name}";
        Resource.description := "Get CPU, memory, storage, network usage of a VM";
        Resource.mimeType := "application/json" |}) ].

(** ** The tools advertised

    [types.Tool] and its [inputSchema].  Of a property the JSON type and
    the default are kept; the descriptions of the properties, and the item
    type of an array, have no part in what follows. *)
Module Tool.
Record property : Type := { type : string; default : option value }.
Record schema : Type := { properties : list (string * property); required : list string }.
Record t : Type := { name : string; description : string; inputSchema : schema }.
End Tool.

Definition tools : list (string * Tool.t) :=
  [
    ("create_vm",
     {| Tool.name := "create_vm";
        Tool.description := "Create a new virtual machine";
        Tool.inputSchema :=
          {| Tool.properties :=
            [ ("name", {| Tool.type := "string"; Tool.default := None |});
              ("cpu", {| Tool.type := "integer"; Tool.default := None |});
              ("memory", {| Tool.type := "integer"; Tool.default := None |});
              ("datastore", {| Tool.type := "string"; Tool.default := None |});
              ("network", {| Tool.type := "string"; Tool.default := None |}) ];
             Tool.required := ["name"; "cpu"; "memory"] |} |});
    ("clone_vm",
     {| Tool.name := "clone_vm";
        Tool.description := "Clone a virtual machine from a template or existing VM";
        Tool.inputSchema :=
          {| Tool.properties :=
            [ ("template_name", {| Tool.type := "string"; Tool.default := None |});
              ("new_name", {| Tool.type := "string"; Tool.default := None |}) ];
             Tool.required := ["template_name"; "new_name"] |} |});
    ("delete_vm",
     {| Tool.name := "delete_vm";
        Tool.description := "Delete a virtual machine";
        Tool.inputSchema :=
          {| Tool.properties :=
            [ ("name", {| Tool.type := "string"; Tool.default := None |}) ];
             Tool.required := ["name"] |} |});
    ("power_on_vm",
     {| Tool.name := "power_on_vm";
        Tool.description := "Power on a virtual machine";
        Tool.inputSchema :=
          {| Tool.properties :=
            [ ("name", {| Tool.type := "string"; Tool.default := None |}) ];
             Tool.required := ["name"] |} |});
    ("power_off_vm",
     {| Tool.name := "power_off_vm";
        Tool.description := "Power off a virtual machine";
        Tool.inputSchema :=
          {| Tool.properties :=
            [ ("name", {| Tool.type := "string"; Tool.default := None |}) ];
             Tool.required := ["name"] |} |});
    ("list_vms",
     {| Tool.name := "list_vms";
        Tool.description := "List all virtual machines";
        Tool.inputSchema :=
          {| Tool.properties := [];
             Tool.required := [] |} |});
    ("get_vm_details",
     {| Tool.name := "get_vm_details";
        Tool.description := "Get detailed information about a specific virtual machine";
        Tool.inputSchema :=
          {| Tool.properties :=
            [ ("vm_name", {| Tool.type := "string"; Tool.default := None |}) ];
             Tool.required := ["vm_name"] |} |});
    ("get_vm_performance",
     {| Tool.name := "get_vm_performance";
        Tool.description := "Get performance data for a virtual machine";
        Tool.inputSchema :=
          {| Tool.properties :=
            [ ("vm_name", {| Tool.type := "string"; Tool.default := None |}) ];
             Tool.required := ["vm_name"] |} |});
    ("get_vm_summary_stats",
     {| Tool.name := "get_vm_summary_stats";
        Tool.description := "Get summary statistics for a virtual machine";
        Tool.inputSchema :=
          {| Tool.properties :=
            [ ("vm_name", {| Tool.type := "string"; Tool.default := None |}) ];
             Tool.required := ["vm_name"] |} |});
    ("create_vm_custom",
     {| Tool.name := "create_vm_custom";
        Tool.description := "Create a custom virtual machine with advanced configuration options";
        Tool.inputSchema :=
          {| Tool.properties :=
            [ ("name", {| Tool.type := "string"; Tool.default := None |});
              ("cpu", {| Tool.type := "integer"; Tool.default := None |});
              ("memory", {| Tool.type := "integer"; Tool.default := None |});
              ("disk_size_gb", {| Tool.type := "integer"; Tool.default := Some (int_ 10) |});
              ("guest_id", {| Tool.type := "string"; Tool.default := Some (str_ "otherGuest") |});
              ("datastore", {| Tool.type := "string"; Tool.default := None |});
              ("network", {| Tool.type := "string"; Tool.default := None |});
              ("thin_provisioned", {| Tool.type := "boolean"; Tool.default := Some (bool_ true) |});
              ("annotation", {| Tool.type := "string"; Tool.default := None |}) ];
             Tool.required := ["name"; "cpu"; "memory"] |} |});
    ("list_templates",
     {| Tool.name := "list_templates";
        Tool.description := "List all virtual machine templates";
        Tool.inputSchema :=
          {| Tool.properties := [];
             Tool.required := [] |} |});
    ("list_datastores",
     {| Tool.name := "list_datastores";
        Tool.description := "List all datastores with their details";
        Tool.inputSchema :=
          {| Tool.properties := [];
             Tool.required := [] |} |});
    ("list_datastore_clusters",
     {| Tool.name := "list_datastore_clusters";
        Tool.description := "List all datastore clusters (StoragePods) with their datastores";
        Tool.inputSchema :=
          {| Tool.properties := [];
             Tool.required := [] |} |});
    ("list_networks",
     {| Tool.name := "list_networks";
        Tool.description := "List all networks";
        Tool.inputSchema :=
          {| Tool.properties := [];
             Tool.required := [] |} |});
    ("list_hosts",
     {| Tool.name := "list_hosts";
        Tool.description := "List all ESXi hosts";
        Tool.inputSchema :=
          {| Tool.properties := [];
             Tool.required := [] |} |});
    ("get_host_details",
     {| Tool.name := "get_host_details";
        Tool.description := "Get detailed information about a specific host";
        Tool.inputSchema :=
          {| Tool.properties :=
            [ ("host_name", {| Tool.type := "string"; Tool.default := None |}) ];
             Tool.required := ["host_name"] |} |});
    ("get_host_performance_metrics",
     {| Tool.name := "get_host_performance_metrics";
        Tool.description := "Get performance metrics for a specific host";
        Tool.inputSchema :=
          {| Tool.properties :=
            [ ("host_name", {| Tool.type := "string"; Tool.default := None |}) ];
             Tool.required := ["host_name"] |} |});
    ("get_host_hardware_health",
     {| Tool.name := "get_host_hardware_health";
        Tool.description := "Get hardware health information for a specific host";
        Tool.inputSchema :=
          {| Tool.properties :=
            [ ("host_name", {| Tool.type := "string"; Tool.default := None |}) ];
             Tool.required := ["host_name"] |} |});
    ("get_host_performance",
     {| Tool.name := "get_host_performance";
        Tool.description := "Get detailed performance data for a specific host";
        Tool.inputSchema :=
          {| Tool.properties :=
            [ ("host_name", {| Tool.type := "string"; Tool.default := None |}) ];
             Tool.required := ["host_name"] |} |});
    ("list_performance_counters",
     {| Tool.name := "list_performance_counters";
        Tool.description := "List all available performance counters";
        Tool.inputSchema :=
          {| Tool.properties := [];
             Tool.required := [] |} |});
    ("create_snapshot",
     {| Tool.name := "create_snapshot";
        Tool.description := "Create a snapshot of a virtual machine";
        Tool.inputSchema :=
          {| Tool.properties :=
            [ ("vm_name", {| Tool.type := "string"; Tool.default := None |});
              ("snapshot_name", {| Tool.type := "string"; Tool.default := None |});
              ("description", {| Tool.type := "string"; Tool.default := Some (str_ EmptyString) |});
              ("memory", {| Tool.type := "boolean"; Tool.default := Some (bool_ false) |});
              ("quiesce", {| Tool.type := "boolean"; Tool.default := Some (bool_ false) |}) ];
             Tool.required := ["vm_name"; "snapshot_name"] |} |});
    ("remove_snapshot",
     {| Tool.name := "remove_snapshot";
        Tool.description := "Remove a snapshot from a virtual machine";
        Tool.inputSchema :=
          {| Tool.properties :=
            [ ("vm_name", {| Tool.type := "string"; Tool.default := None |});
              ("snapshot_name", {| Tool.type := "string"; Tool.default := None |});
              ("remove_children", {| Tool.type := "boolean"; Tool.default := Some (bool_ true) |}) ];
             Tool.required := ["vm_name"; "snapshot_name"] |} |});
    ("revert_snapshot",
     {| Tool.name := "revert_snapshot";
        Tool.description := "Revert a virtual machine to a specific snapshot";
        Tool.inputSchema :=
          {| Tool.properties :=
            [ ("vm_name", {| Tool.type := "string"; Tool.default := None |});
              ("snapshot_name", {| Tool.type := "string"; Tool.default := None |}) ];
             Tool.required := ["vm_name"; "snapshot_name"] |} |});
    ("list_snapshots",
     {| Tool.name := "list_snapshots";
        Tool.description := "List all snapshots for a virtual machine";
        Tool.inputSchema :=
          {| Tool.properties :=
            [ ("vm_name", {| Tool.type := "string"; Tool.default := None |}) ];
             Tool.required := ["vm_name"] |} |});
    ("remove_all_snapshots",
     {| Tool.name := "remove_all_snapshots";
        Tool.description := "Remove all snapshots from a virtual machine";
        Tool.inputSchema :=
          {| Tool.properties :=
            [ ("vm_name", {| Tool.type := "string"; Tool.default := None |}) ];
             Tool.required := ["vm_name"] |} |});
    ("execute_program_in_vm",
     {| Tool.name := "execute_program_in_vm";
        Tool.description := "Execute a program inside a VM using VMware Tools";
        Tool.inputSchema :=
          {| Tool.properties :=
            [ ("vm_name", {| Tool.type := "string"; Tool.default := None |});
              ("username", {| Tool.type := "string"; Tool.default := None |});
              ("password", {| Tool.type := "string"; Tool.default := None |});
              ("program_path", {| Tool.type := "string"; Tool.default := None |});
              ("program_arguments", {| Tool.type := "string"; Tool.default := Some (str_ EmptyString) |}) ];
             Tool.required := ["vm_name"; "username"; "password"; "program_path"] |} |});
    ("upload_file_to_vm",
     {| Tool.name := "upload_file_to_vm";
        Tool.description := "Upload a file to a VM using VMware Tools";
        Tool.inputSchema :=
          {| Tool.properties :=
            [ ("vm_name", {| Tool.type := "string"; Tool.default := None |});
              ("username", {| Tool.type := "string"; Tool.default := None |});
              ("password", {| Tool.type := "string"; Tool.default := None |});
              ("local_file_path", {| Tool.type := "string"; Tool.default := None |});
              ("remote_file_path", {| Tool.type := "string"; Tool.default := None |}) ];
             Tool.required := ["vm_name"; "username"; "password"; "local_file_path"; "remote_file_path"] |} |});
    ("upload_file_to_datastore",
     {| Tool.name := "upload_file_to_datastore";
        Tool.description := "Upload a file directly to a datastore";
        Tool.inputSchema :=
          {| Tool.properties :=
            [ ("datastore_name", {| Tool.type := "string"; Tool.default := None |});
              ("local_file_path", {| Tool.type := "string"; Tool.default := None |});
              ("remote_file_path", {| Tool.type := "string"; Tool.default := None |}) ];
             Tool.required := ["datastore_name"; "local_file_path"; "remote_file_path"] |} |});
    ("deploy_ovf",
     {| Tool.name := "deploy_ovf";
        Tool.description := "Deploy a VM from OVF and VMDK files";
        Tool.inputSchema :=
          {| Tool.properties :=
            [ ("ovf_path", {| Tool.type := "string"; Tool.default := None |});
              ("vmdk_path", {| Tool.type := "string"; Tool.default := None |});
              ("vm_name", {| Tool.type := "string"; Tool.default := None |});
              ("datastore_name", {| Tool.type := "string"; Tool.default := None |});
              ("resource_pool_name", {| Tool.type := "string"; Tool.default := None |}) ];
             Tool.required := ["ovf_path"; "vmdk_path"] |} |});
    ("deploy_ova",
     {| Tool.name := "deploy_ova";
        Tool.description := "Deploy a VM from an OVA file";
        Tool.inputSchema :=
          {| Tool.properties :=
            [ ("ova_path", {| Tool.type := "string"; Tool.default := None |});
              ("vm_name", {| Tool.type := "string"; Tool.default := None |});
              ("datastore_name", {| Tool.type := "string"; Tool.default := None |});
              ("resource_pool_name", {| Tool.type := "string"; Tool.default := None |}) ];
             Tool.required := ["ova_path"] |} |});
    ("wait_for_updates",
     {| Tool.name := "wait_for_updates";
        Tool.description := "Wait for property updates on vSphere objects";
        Tool.inputSchema :=
          {| Tool.properties :=
            [ ("object_type", {| Tool.type := "string"; Tool.default := None |});
              ("properties", {| Tool.type := "array"; Tool.default := None |});
              ("max_wait_seconds", {| Tool.type := "integer"; Tool.default := Some (int_ 30) |});
              ("max_iterations", {| Tool.type := "integer"; Tool.default := Some (int_ 1) |}) ];
             Tool.required := ["object_type"; "properties"] |} |}) ].

(** [list(tools.values())] and [list(resources.values())] *)
Definition list_tools_handler : list Tool.t := tools.*2.
Definition list_resources_handler : list Resource.t := resources.*2.

Section register_handlers.
Context {result : Type}.

(** [tool_handlers = ToolHandlers(manager, config)] *)
Variable manager : string -> list value -> M World result.
Variable config : Config.

(** [isinstance(result, (dict, list))], [json.dumps(result, indent=2)]
    and [str(result)]. *)
Variable is_dict_or_list : result -> bool.
Variable json_dumps : result -> string.
Variable str : result -> string.

(** [lambda args: tool_handlers.t] called with [args] unpacked. *)
Definition with_kwargs (t : tool) (args : gmap string value) : M World result :=
  fun w =>
    match bind_kwargs (parameters t) args with
    | Returned bound => handler manager config t bound w
    | Raised e => (Raised e, w)
    | Spinning => (Spinning, w)
    end.

(** [lambda args: tool_handlers.t] called without arguments. *)
Definition without_args (t : tool) (args : gmap string value) : M World result :=
  handler manager config t [].

Definition tool_handler_entries : list (string * (gmap string value -> M World result)) :=
  [ ("create_vm", with_kwargs create_vm);
    ("clone_vm", with_kwargs clone_vm);
    ("delete_vm", with_kwargs delete_vm);
    ("power_on_vm", with_kwargs power_on_vm);
    ("power_off_vm", with_kwargs power_off_vm);
    ("list_vms", without_args list_vms);
    ("get_vm_details", with_kwargs get_vm_details);
    ("get_vm_performance", with_kwargs get_vm_performance);
    ("get_vm_summary_stats", with_kwargs get_vm_summary_stats);
    ("create_vm_custom", with_kwargs create_vm_custom);
    ("list_templates", without_args list_templates);
    ("list_datastores", without_args list_datastores);
    ("list_datastore_clusters", without_args list_datastore_clusters);
    ("list_networks", without_args list_networks);
    ("list_hosts", without_args list_hosts);
    ("get_host_details", with_kwargs get_host_details);
    ("get_host_performance_metrics", with_kwargs get_host_performance_metrics);
    ("get_host_hardware_health", with_kwargs get_host_hardware_health);
    ("get_host_performance", with_kwargs get_host_performance);
    ("list_performance_counters", without_args list_performance_counters);
    ("create_snapshot", with_kwargs create_snapshot);
    ("remove_snapshot", with_kwargs remove_snapshot);
    ("revert_snapshot", with_kwargs revert_snapshot);
    ("list_snapshots", with_kwargs list_snapshots);
    ("remove_all_snapshots", with_kwargs remove_all_snapshots);
    ("execute_program_in_vm", with_kwargs execute_program_in_vm);
    ("upload_file_to_vm", with_kwargs upload_file_to_vm);
    ("upload_file_to_datastore", with_kwargs upload_file_to_datastore);
    ("deploy_ovf", with_kwargs deploy_ovf);
    ("deploy_ova", with_kwargs deploy_ova);
    ("wait_for_updates", with_kwargs wait_for_updates) ].

Definition tool_handler_map : gmap string (gmap string value -> M World result) :=
  list_to_map tool_handler_entries.

Definition call_tool_handler (name : string) (arguments : gmap string value)
  : M World (list TextContent) :=
  match tool_handler_map !! name with
  | None => raise (ValueError ("Unknown tool: " +:+ name))
  | Some handler =>
      result ← handler arguments;
      let text := if is_dict_or_list result then json_dumps result else str result in
      mret [ {| type := "text"; text := text |} ]
  end.

(** The [for] loop of [read_resource_handler] over the items of
    [resources] that are left, and the [raise] after it; [uri] is a [str],
    as annotated. *)
Fixpoint read_resource_items (items : list (string * Resource.t)) (uri : string)
  : M World (list TextContent) :=
  match items with
  | [] => raise (ValueError ("Unknown resource: " +:+ uri))
  | (resource_name, resource) :: items' =>
      if String.prefix (split_first "{"%char (Resource.uri resource)) uri then
        if String.eqb resource_name "vmStats" then
          let vm_name := replace "vmstats://" "" uri in
          result ← handler manager config vm_performance_resource [str_ vm_name];
          mret [ {| type := "text"; text := json_dumps result |} ]
        else read_resource_items items' uri
      else read_resource_items items' uri
  end.

Definition read_resource_handler (uri : string) : M World (list TextContent) :=
  read_resource_items resources uri.

End register_handlers.

End McpServer.

(* ===================================================================== *)
(** * The authenticate operation                                          *)
(* ===================================================================== *)

Module Gateway.
Import Py.
Import VMwareManager (World, Config, api_key, set_authenticated).

(** Modelled from the spec: the authenticate operation.  The sources have
    the flag ([VMwareManager.authenticated], false after [__init__]) and
    the gate that reads it, but no operation that sets it.  By the spec
    (4.5) the operation validates the key the caller supplies against the
    configured key and is the only way to set the flag.  The spec does not
    say how a failed attempt ends; here it raises and leaves the flag as
    it is. *)
Definition authenticate (config : Config) (key : string) : M World string :=
  match if_set (api_key config) with
  | Some api_key =>
      if String.eqb key api_key
      then modify (set_authenticated true);; mret "Authentication successful."
      else raise (Exception "Authentication failed")
  | None => raise (Exception "Authentication failed")
  end.

End Gateway.

(* ===================================================================== *)
(** * Reference definitions and sample data                               *)
(* ===================================================================== *)

Module Spec.
Import Vim.

(** Depth-first pre-order of a snapshot tree, each node with its depth:
    the node itself, then the traversals of its children from left to
    right, one level down. *)
Fixpoint preorder (depth : Z) (t : SnapshotTree) : list (SnapshotTree * Z) :=
  (t, depth) :: List.flat_map (preorder (depth + 1)) (childSnapshotList t).

(** The same for a sequence of roots, all at depth [depth]. *)
Definition preorder_forest (depth : Z) (roots : list SnapshotTree)
  : list (SnapshotTree * Z) :=
  List.flat_map (preorder depth) roots.

Definition named (name : string) (t : SnapshotTree) : bool :=
  String.eqb (Vim.name t) name.

(** The free space of a datastore in whole GB, for an entity that is one. *)
Definition free_space_GB (e : datastoreFolderChild) : option Z :=
  match e with
  | DatastoreFolder_Datastore ds => Some (ds_summary_freeSpace ds / 1024 ^ 3)
  | DatastoreFolder_Other _ => None
  end.

(** An outcome that, if it is not a result, is an [Exception] raised. *)
Definition fails_with_Exception {A} (o : Py.outcome A) : Prop :=
  match o with
  | Py.Returned _ => True
  | Py.Raised (Py.Exception _) => True
  | _ => False
  end.

(** The outcome of a wait that timed out, as a caller can tell it from the
    others: the status is "timeout", the message gives the timeout, the last
    state seen is reported and there is no "error" entry. *)
Definition timed_out (timeout : Z) (d : gmap string (option string)) : Prop :=
  d !! "status" = Some (Some "timeout")
  /\ d !! "message" = Some (Some ("Task timed out after " +:+ Py.str_int timeout +:+ " seconds"))
  /\ is_Some (d !! "task_state")
  /\ d !! "error" = None.

(** A call of one of the ten handlers that change something on the remote
    side, with its arguments. *)
Inductive mutating_call : Type :=
| call_create_vm (name : string) (cpus memory_mb : Z) (datastore network : option string)
| call_create_vm_custom (name : string) (cpus memory_mb disk_size_gb : Z) (guest_id : string)
                        (datastore network : option string) (thin_provisioned : bool)
                        (annotation : option string)
| call_clone_vm (template_name new_name : string)
| call_delete_vm (name : string)
| call_power_on_vm (name : string)
| call_power_off_vm (name : string)
| call_create_snapshot (vm_name snapshot_name description : string) (memory quiesce : bool)
| call_remove_snapshot (vm_name snapshot_name : string) (remove_children : bool)
| call_revert_snapshot (vm_name snapshot_name : string)
| call_remove_all_snapshots (vm_name : string).

Definition run_mutating (fuel : nat) (c : mutating_call)
  : Py.M VMwareManager.World string :=
  match c with
  | call_create_vm name cpus memory_mb datastore network =>
      VMwareManager.create_vm fuel name cpus memory_mb datastore network
  | call_create_vm_custom name cpus memory_mb disk_size_gb guest_id datastore network
                          thin_provisioned annotation =>
      VMwareManager.create_vm_custom fuel name cpus memory_mb disk_size_gb guest_id
                                     datastore network thin_provisioned annotation
  | call_clone_vm template_name new_name =>
      VMwareManager.clone_vm fuel template_name new_name
  | call_delete_vm name => VMwareManager.delete_vm fuel name
  | call_power_on_vm name => VMwareManager.power_on_vm fuel name
  | call_power_off_vm name => VMwareManager.power_off_vm fuel name
  | call_create_snapshot vm_name snapshot_name description memory quiesce =>
      VMwareManager.create_snapshot fuel vm_name snapshot_name description memory quiesce
  | call_remove_snapshot vm_name snapshot_name remove_children =>
      VMwareManager.remove_snapshot fuel vm_name snapshot_name remove_children
  | call_revert_snapshot vm_name snapshot_name =>
      VMwareManager.revert_snapshot fuel vm_name snapshot_name
  | call_remove_all_snapshots vm_name => VMwareManager.remove_all_snapshots fuel vm_name
  end.

(** The remote side after one more request. *)
Definition with_request (request : TaskRequest) (w : VMwareManager.World)
  : VMwareManager.World :=
  VMwareManager.set_remote (set_submitted (fun l => l ++ [request])) w.

(** The record [list_snapshots] gives for a node at a depth. *)
Definition info_of (node : SnapshotTree * Z) : VMwareManager.snap_info :=
  VMwareManager.snap_info_of (fst node) (snd node).

(** The name a mutating call looks a virtual machine up by, with the message
    of the [Exception] it raises when there is none of that name; the two
    create calls look nothing up. *)
Definition vm_lookup (c : mutating_call) : option (string * string) :=
  match c with
  | call_create_vm _ _ _ _ _ | call_create_vm_custom _ _ _ _ _ _ _ _ _ => None
  | call_clone_vm template_name _ =>
      Some (template_name, "Template virtual machine " +:+ template_name +:+ " not found")
  | call_delete_vm name | call_power_on_vm name | call_power_off_vm name =>
      Some (name, "Virtual machine " +:+ name +:+ " not found")
  | call_create_snapshot vm_name _ _ _ _ | call_remove_snapshot vm_name _ _
  | call_revert_snapshot vm_name _ | call_remove_all_snapshots vm_name =>
      Some (vm_name, "VM " +:+ vm_name +:+ " not found")
  end.

(** The text a mutating call returns when its task has succeeded. *)
Definition success_message (c : mutating_call) : string :=
  match c with
  | call_create_vm name _ _ _ _ => "VM '" +:+ name +:+ "' created."
  | call_create_vm_custom name cpus memory_mb disk_size_gb _ _ _ _ _ =>
      "Custom VM '" +:+ name +:+ "' created with " +:+ Py.str_int cpus +:+ " CPUs, "
      +:+ Py.str_int memory_mb +:+ "MB RAM, and " +:+ Py.str_int disk_size_gb +:+ "GB disk."
  | call_clone_vm template_name new_name =>
      "VM '" +:+ new_name +:+ "' cloned from '" +:+ template_name +:+ "'."
  | call_delete_vm name => "VM '" +:+ name +:+ "' deleted."
  | call_power_on_vm name => "VM '" +:+ name +:+ "' powered on."
  | call_power_off_vm name => "VM '" +:+ name +:+ "' powered off."
  | call_create_snapshot vm_name snapshot_name _ _ _ =>
      "Snapshot '" +:+ snapshot_name +:+ "' created successfully for VM '" +:+ vm_name +:+ "'"
  | call_remove_snapshot vm_name snapshot_name _ =>
      "Snapshot '" +:+ snapshot_name +:+ "' removed successfully from VM '" +:+ vm_name +:+ "'"
  | call_revert_snapshot vm_name snapshot_name =>
      "VM '" +:+ vm_name +:+ "' reverted successfully to snapshot '" +:+ snapshot_name +:+ "'"
  | call_remove_all_snapshots vm_name =>
      "All snapshots removed successfully from VM '" +:+ vm_name +:+ "'"
  end.

(** An outcome without its result: returned, raised (and what), or still
    looping. *)
Definition without_result {A} (o : Py.outcome A) : Py.outcome unit :=
  match o with
  | Py.Returned _ => Py.Returned tt
  | Py.Raised e => Py.Raised e
  | Py.Spinning => Py.Spinning
  end.

(** The network adapters among the devices of a specification, each by its
    backing. *)
Definition adapter_backings (specs : list VirtualDeviceSpec) : list (option NicBacking) :=
  omap (fun spec => match device spec with
                    | VirtualVmxnet3 _ _ backing _ _ => Some backing
                    | _ => None
                    end) specs.

(** A reply of [ListProcessesInGuest] after which the wait goes on: no
    process, or a first process without an exit code. *)
Definition still_running (reply : string + list VMwareManager.ProcessInfo) : bool :=
  match reply with
  | inr [] => true
  | inr (process :: _) =>
      match VMwareManager.exitCode process with
      | None => true
      | Some _ => false
      end
  | inl _ => false
  end.

(** Whether [old] occurs in [s]. *)
Fixpoint occurs (old s : string) : bool :=
  String.prefix old s
  || match s with
     | EmptyString => false
     | String _ rest => occurs old rest
     end.

End Spec.

Module Sample.
Import Py Vim VMwareManager.

(** The tree [A -> [B, C -> [D]]]. *)
Definition snap_D : SnapshotTree :=
  SnapshotTreeNode "snapshot-4" "D" "" "2024-01-04 00:00:00" poweredOff [].
Definition snap_C : SnapshotTree :=
  SnapshotTreeNode "snapshot-3" "C" "" "2024-01-03 00:00:00" poweredOff [snap_D].
Definition snap_B : SnapshotTree :=
  SnapshotTreeNode "snapshot-2" "B" "" "2024-01-02 00:00:00" poweredOff [].
Definition snap_A : SnapshotTree :=
  SnapshotTreeNode "snapshot-1" "A" "" "2024-01-01 00:00:00" poweredOff [snap_B; snap_C].

(** A small inventory: one datacenter with one cluster, three datastores
    with 10, 50 and 30 GB free, and one network; two virtual machines, one
    running and without snapshots, one halted with the tree above. *)
Definition GB : Z := 1024 ^ 3.
Definition ds_a : Datastore := {| ds_name := "ds-a"; ds_summary_freeSpace := 10 * GB |}.
Definition ds_b : Datastore := {| ds_name := "ds-b"; ds_summary_freeSpace := 50 * GB |}.
Definition ds_c : Datastore := {| ds_name := "ds-c"; ds_summary_freeSpace := 30 * GB |}.
Definition pool_1 : ResourcePool := {| rp_name := "Resources" |}.
Definition cluster_1 : ComputeResource :=
  {| cr_name := "cluster-1"; cr_isCluster := true; cr_resourcePool := pool_1 |}.
Definition net_1 : Network := {| net_name := "VM Network"; net_class := class_Network |}.
Definition dc_1 : Datacenter :=
  {| dc_name := "dc-1";
     hostFolder_childEntity := [HostFolder_Folder "hosts"; HostFolder_ComputeResource cluster_1];
     datastoreFolder_childEntity :=
       [DatastoreFolder_Datastore ds_a; DatastoreFolder_Other "pod-1";
        DatastoreFolder_Datastore ds_b; DatastoreFolder_Datastore ds_c];
     networkFolder_childEntity := [net_1];
     vmFolder := "group-v1" |}.

Definition vm_web : VirtualMachine :=
  {| vm_name := "web"; vm_runtime_powerState := poweredOn; vm_snapshot := None;
     vm_parent_Folder := Some "group-v1"; vm_resourcePool := Some pool_1 |}.
Definition vm_db : VirtualMachine :=
  {| vm_name := "db"; vm_runtime_powerState := poweredOff; vm_snapshot := Some [snap_A];
     vm_parent_Folder := Some "group-v1"; vm_resourcePool := Some pool_1 |}.

Definition host_idle : HostSystem :=
  {| host_name := "esxi-1";
     host_summary_quickStats :=
       Some {| overallCpuUsage := Some 0; overallMemoryUsage := Some 0; uptime := Some 0 |};
     host_hardware :=
       Some {| cpuInfo := Some {| numCpuCores := 8; hz := 0 |}; memorySize := 0 |} |}.

Definition host_busy : HostSystem :=
  {| host_name := "esxi-2";
     host_summary_quickStats :=
       Some {| overallCpuUsage := Some 1200; overallMemoryUsage := Some 4096;
               uptime := Some 86400 |};
     host_hardware :=
       Some {| cpuInfo := Some {| numCpuCores := 8; hz := 2400000000 |};
               memorySize := 32 * GB |} |}.

(** Exact rational arithmetic, standing in for floats when a sample is run:
    quotient, product, and rounding to [ndigits] decimals (half to even). *)
Definition exact_truediv (a b : Z) : Q := (inject_Z a / inject_Z b)%Q.
Definition exact_mul (x : Q) (n : Z) : Q := (x * inject_Z n)%Q.
Definition exact_round (x : Q) (ndigits : Z) : Q :=
  let scale := 10 ^ ndigits in
  let scaled := (x * inject_Z scale)%Q in
  let below := Qfloor scaled in
  let nearest :=
    match ((scaled - inject_Z below) ?= (1 # 2))%Q with
    | Lt => below
    | Gt => below + 1
    | Eq => if Z.even below then below else below + 1
    end in
  (inject_Z nearest / inject_Z scale)%Q.

(** A task that stays [running] at every read, and one that is seen
    [running] twice and then [success]. *)
Definition task_stuck : Task :=
  {| info_state := fun _ => running; info_result := None; info_error := None |}.
Definition task_done : Task :=
  {| info_state := fun n => if (n <? 2)%nat then running else success;
     info_result := None; info_error := None |}.

Definition remote_with (task_of : TaskRequest -> Task) : Remote :=
  {| rootFolder_childEntity := [RootFolder_Folder "lab"; RootFolder_Datacenter dc_1];
     view_VirtualMachine := [vm_web; vm_db];
     view_HostSystem := [host_idle; host_busy];
     task_of := task_of;
     submitted := [];
     views := 0 |}.

Definition endpoint_1 : Endpoint :=
  {| SmartConnect := fun _ _ _ _ => inr (remote_with (fun _ => task_done)) |}.

Definition config_with (datacenter cluster datastore network api_key : option string)
  : Config :=
  {| vcenter_host := "vcenter.example"; vcenter_user := "admin";
     vcenter_password := "secret"; insecure := false;
     datacenter := datacenter; cluster := cluster; datastore := datastore;
     network := network; api_key := api_key |}.

Definition config_defaults : Config := config_with None None None None None.
Definition config_named : Config :=
  config_with (Some "dc-1") (Some "cluster-1") (Some "ds-c") (Some "VM Network") None.
Definition config_missing_datastore : Config :=
  config_with (Some "dc-1") None (Some "ds-z") None None.

Definition world_with (config : Config) (authenticated : bool)
    (task_of : TaskRequest -> Task) : World :=
  {| self := {| VMwareManager.config := config; datacenter_obj := dc_1;
                resource_pool := pool_1; datastore_obj := ds_b;
                network_obj := None; authenticated := authenticated |};
     remote := remote_with task_of |}.

(** The manager [__init__] builds from [config_named]. *)
Definition world_named : World :=
  {| self := {| VMwareManager.config := config_named; datacenter_obj := dc_1;
                resource_pool := pool_1; datastore_obj := ds_c;
                network_obj := Some net_1; authenticated := false |};
     remote := remote_with (fun _ => task_done) |}.

(** A manager whose methods all return their own name, for running the
    dispatcher. *)
Definition echo_manager (method : string) (args : list Tools.value) : M World string :=
  mret method.

Definition config_key : Config := config_with None None None None (Some "s3cret").

(** A clock that shows 0 when the wait starts and at the first test of the
    loop, and a second more after each sleep. *)
Definition clock_seconds (n : nat) : Q := inject_Z (Z.of_nat (Nat.pred n)).

(** A manager whose tasks never finish, and one whose tasks finish at the
    third read. *)
Definition world_stuck : World := world_with config_defaults false (fun _ => task_stuck).
Definition world_done : World := world_with config_defaults false (fun _ => task_done).

(** A task that is seen [running] once and then [error], with its fault, and
    a manager whose tasks all go that way. *)
Definition task_failed : Task :=
  {| info_state := fun n => if (n <? 1)%nat then running else error;
     info_result := None; info_error := Some "vim.fault.InvalidPowerState" |}.
Definition world_failing : World := world_with config_defaults false (fun _ => task_failed).

(** An endpoint that refuses the login, and one whose inventory is empty. *)
Definition endpoint_refusing : Endpoint :=
  {| SmartConnect := fun _ _ _ _ => inl (MethodFault "vim.fault.InvalidLogin") |}.
Definition remote_empty : Remote :=
  {| rootFolder_childEntity := [RootFolder_Folder "lab"];
     view_VirtualMachine := [];
     view_HostSystem := [];
     task_of := fun _ => task_done;
     submitted := [];
     views := 0 |}.
Definition endpoint_empty : Endpoint :=
  {| SmartConnect := fun _ _ _ _ => inr remote_empty |}.

(** A host that has not reported its counters yet, a host without hardware
    information, and a manager that sees these two. *)
Definition host_unreported : HostSystem :=
  {| host_name := "esxi-3";
     host_summary_quickStats :=
       Some {| overallCpuUsage := None; overallMemoryUsage := None; uptime := None |};
     host_hardware :=
       Some {| cpuInfo := Some {| numCpuCores := 8; hz := 2400000000 |};
               memorySize := 32 * GB |} |}.
Definition host_bare : HostSystem :=
  {| host_name := "esxi-4"; host_summary_quickStats := None; host_hardware := None |}.
Definition world_hosts : World :=
  {| self := self world_done;
     remote := {| rootFolder_childEntity := [RootFolder_Datacenter dc_1];
                  view_VirtualMachine := [vm_web; vm_db];
                  view_HostSystem := [host_unreported; host_bare];
                  task_of := fun _ => task_done;
                  submitted := [];
                  views := 0 |} |}.

(** Guest operations: tools that run everywhere but on "db", a start that
    gives pid 42, and a process that shows its exit code 0 at the third
    listing, or never shows up. *)
Definition tools_of (vm : VirtualMachine) : option string :=
  if String.eqb (vm_name vm) "db" then Some "toolsNotRunning" else Some "toolsOk".
Definition start_42 (vm : VirtualMachine) (creds : NamePasswordAuthentication)
    (spec : ProgramSpec) : string + Z := inr 42.
Definition exits_at_third (n : nat) (vm : VirtualMachine)
    (creds : NamePasswordAuthentication) (pids : list Z) : string + list ProcessInfo :=
  if (n <? 2)%nat then inr [ {| exitCode := None |} ] else inr [ {| exitCode := Some 0 |} ].
Definition never_listed (n : nat) (vm : VirtualMachine)
    (creds : NamePasswordAuthentication) (pids : list Z) : string + list ProcessInfo :=
  inr [].

End Sample.

(* ===================================================================== *)
(** * Statements                                                          *)
(* ===================================================================== *)

(** ** Snapshot navigation *)

Section SnapshotNavigation.
Import Vim VMwareManager Spec.

(** Induction on snapshot trees with the hypothesis for every child. *)
Lemma SnapshotTree_forall_ind (P : SnapshotTree -> Prop) :
  (forall r n d c s children,
      Forall P children -> P (SnapshotTreeNode r n d c s children)) ->
  forall t, P t.
Proof.
  intros step. fix IH 1. intros [r n d c s children]. apply step.
  induction children as [|child children IHchildren]; constructor; auto.
Qed.

(** The recursive call on the children, as in the source. *)
Lemma _find_snapshot_by_name_visit_eq name snapshot :
  _find_snapshot_by_name_visit name snapshot =
  if String.eqb (Vim.name snapshot) name then Some snapshot
  else _find_snapshot_by_name (childSnapshotList snapshot) name.
Proof.
  destruct snapshot as [r n d c s children]; simpl.
  destruct (String.eqb n name); [reflexivity|].
  induction children as [|child children IH]; simpl; [reflexivity|].
  destruct (_find_snapshot_by_name_visit name child); [reflexivity|apply IH].
Qed.

(** The loop of [_find_snapshot_by_name], statement by statement. *)
Lemma _find_snapshot_by_name_cons snapshot rest name :
  _find_snapshot_by_name (snapshot :: rest) name =
  if String.eqb (Vim.name snapshot) name then Some snapshot
  else
    match (if Py.nonempty (childSnapshotList snapshot)
           then _find_snapshot_by_name (childSnapshotList snapshot) name
           else None) with
    | Some result => Some result
    | None => _find_snapshot_by_name rest name
    end.
Proof.
  simpl. rewrite _find_snapshot_by_name_visit_eq.
  destruct (String.eqb (Vim.name snapshot) name); [reflexivity|].
  destruct (childSnapshotList snapshot); reflexivity.
Qed.

Lemma find_app_first {A} (p : A -> bool) (l1 l2 : list A) :
  List.find p (l1 ++ l2) =
  match List.find p l1 with Some x => Some x | None => List.find p l2 end.
Proof.
  induction l1 as [|x l1 IH]; simpl; [reflexivity|].
  destruct (p x); [reflexivity|apply IH].
Qed.

Lemma find_visit_preorder name t :
  forall depth,
    _find_snapshot_by_name_visit name t =
    List.find (named name) (map fst (preorder depth t)).
Proof.
  induction t as [r n d c s children IH] using SnapshotTree_forall_ind.
  intros depth. rewrite _find_snapshot_by_name_visit_eq. simpl.
  unfold named at 1; simpl.
  destruct (String.eqb n name); [reflexivity|].
  induction IH as [|child children Hchild _ IHchildren]; simpl; [reflexivity|].
  rewrite map_app, find_app_first, <- (Hchild (depth + 1)), IHchildren.
  reflexivity.
Qed.

Lemma find_forest_preorder name roots depth :
  _find_snapshot_by_name roots name =
  List.find (named name) (map fst (preorder_forest depth roots)).
Proof.
  induction roots as [|t roots IH]; simpl; [reflexivity|].
  unfold preorder_forest in *; simpl.
  rewrite map_app, find_app_first, <- (find_visit_preorder name t depth), IH.
  reflexivity.
Qed.

(** The recursive call of [_collect_snapshots] on the children. *)
Lemma _collect_snapshots_visit_eq level snapshot result :
  _collect_snapshots_visit level snapshot result =
  _collect_snapshots (childSnapshotList snapshot)
                     (result ++ [snap_info_of snapshot level]) (level + 1).
Proof.
  destruct snapshot as [r n d c s children]; simpl.
  generalize (result ++ [snap_info_of (SnapshotTreeNode r n d c s children) level]).
  induction children as [|child children IH]; intros acc; simpl; [reflexivity|].
  apply IH.
Qed.

Lemma collect_children_preorder children :
  Forall (fun t => forall level result,
              _collect_snapshots_visit level t result =
              result ++ map info_of (preorder level t)) children ->
  forall level result,
    _collect_snapshots children result level =
    result ++ map info_of (List.flat_map (preorder level) children).
Proof.
  induction 1 as [|child children Hchild _ IH]; intros level result; simpl.
  - rewrite app_nil_r. reflexivity.
  - rewrite IH, Hchild, map_app, app_assoc. reflexivity.
Qed.

Lemma collect_visit_preorder t :
  forall level result,
    _collect_snapshots_visit level t result = result ++ map info_of (preorder level t).
Proof.
  induction t as [r n d c s children IH] using SnapshotTree_forall_ind.
  intros level result.
  rewrite _collect_snapshots_visit_eq, (collect_children_preorder _ IH).
  simpl. rewrite <- app_assoc. reflexivity.
Qed.

Lemma collect_forest_preorder roots level result :
  _collect_snapshots roots result level =
  result ++ map info_of (preorder_forest level roots).
Proof.
  apply collect_children_preorder.
  apply Forall_forall. intros t _. apply collect_visit_preorder.
Qed.

End SnapshotNavigation.

(** C5.  Snapshot search returns the first node, in depth-first pre-order,
    whose name is the one searched for (so of several nodes with that name
    the one visited first), and flattening returns the nodes in depth-first
    pre-order, each with its depth under the roots.  For the tree
    [A -> [B, C -> [D]]], searching "D" returns D and flattening gives
    (A,0), (B,1), (C,1), (D,2). *)
Theorem snapshot_search_and_flatten_are_preorder :
  (forall roots name,
      VMwareManager._find_snapshot_by_name roots name =
      List.find (Spec.named name) (map fst (Spec.preorder_forest 0 roots)))
  /\ (forall roots,
      VMwareManager._collect_snapshots roots [] 0 =
      map Spec.info_of (Spec.preorder_forest 0 roots))
  /\ map (fun node => Vim.name (fst node)) (Spec.preorder_forest 0 [Sample.snap_A])
     = ["A"; "B"; "C"; "D"]
  /\ VMwareManager._find_snapshot_by_name [Sample.snap_A] "D" = Some Sample.snap_D
  /\ map (fun i => (VMwareManager.si_name i, VMwareManager.si_level i))
         (VMwareManager._collect_snapshots [Sample.snap_A] [] 0)
     = [("A", 0); ("B", 1); ("C", 1); ("D", 2)].
Proof.
  split; [|split; [|repeat split]].
  - intros roots name. apply find_forest_preorder.
  - intros roots. apply (collect_forest_preorder roots 0 []).
Qed.

(** ** Startup resolution *)

Section Resolution.
Import Py Vim VMwareManager.

Lemma if_set_truthy s : truthy s = true <-> exists name, if_set s = Some name.
Proof.
  destruct s as [s|]; simpl.
  - destruct (String.eqb s ""); simpl; split; eauto; try discriminate.
    intros [? ?]; discriminate.
  - split; [discriminate|intros [? ?]; discriminate].
Qed.

Lemma next_or_None_Some {A B} (select : A -> option B) xs b :
  next_or_None select xs = Some b -> exists x, x ∈ xs /\ select x = Some b.
Proof.
  induction xs as [|x xs IH]; simpl; [discriminate|].
  destruct (select x) as [b'|] eqn:Hx.
  - intros [= <-]. exists x. split; [left|assumption].
  - intros H. destruct (IH H) as (y & Hy & Hsel). exists y. split; [right|]; assumption.
Qed.

Lemma next_or_None_None {A B} (select : A -> option B) xs :
  next_or_None select xs = None <-> forall x, x ∈ xs -> select x = None.
Proof.
  induction xs as [|x xs IH]; simpl.
  - split; [intros _ x Hx; inversion Hx|reflexivity].
  - destruct (select x) as [b|] eqn:Hx.
    + split; [discriminate|]. intros H. rewrite <- Hx. apply H. left.
    + rewrite IH. split.
      * intros H y Hy. apply elem_of_cons in Hy as [->|Hy]; auto.
      * intros H y Hy. apply H. right. assumption.
Qed.

Lemma max_by_spec {A} (key : A -> Z) xs : forall best,
  max_by key best xs ∈ best :: xs
  /\ forall x, x ∈ best :: xs -> key x <= key (max_by key best xs).
Proof.
  induction xs as [|y xs IH]; intros best; simpl.
  - split; [left|]. intros x Hx. apply list_elem_of_singleton in Hx as ->. lia.
  - destruct (IH (if key best <? key y then y else best)) as [Hin Hmax]. split.
    + apply elem_of_cons in Hin as [->|Hin].
      * destruct (key best <? key y); [right; left|left].
      * right; right; assumption.
    + intros x Hx.
      assert (Hstep : key best <= key (if key best <? key y then y else best)
                      /\ key y <= key (if key best <? key y then y else best)).
      { destruct (Z.ltb_spec (key best) (key y)); lia. }
      pose proof (Hmax _ (list_elem_of_here _ _)) as Hcur.
      apply elem_of_cons in Hx as [->|Hx]; [lia|].
      apply elem_of_cons in Hx as [->|Hx]; [lia|].
      apply Hmax. right. assumption.
Qed.

(** What a successful [_connect_vcenter] went through. *)
Lemma _connect_vcenter_Returned config a endpoint w :
  _connect_vcenter config a endpoint = Returned w ->
  connect config endpoint = Returned (remote w)
  /\ resolve_datacenter config (remote w) = Returned (datacenter_obj (self w))
  /\ resolve_resource_pool config (datacenter_obj (self w)) = Returned (resource_pool (self w))
  /\ resolve_datastore config (datacenter_obj (self w)) = Returned (datastore_obj (self w))
  /\ resolve_network config (datacenter_obj (self w)) = Returned (network_obj (self w))
  /\ VMwareManager.config (self w) = config
  /\ authenticated (self w) = a.
Proof.
  unfold _connect_vcenter, mbind, outcome_bind, mret, outcome_ret.
  destruct (connect config endpoint) as [content| |] eqn:Hcon; try discriminate.
  destruct (resolve_datacenter config content) as [dc| |] eqn:Hdc; try discriminate.
  destruct (resolve_resource_pool config dc) as [rp| |] eqn:Hrp; try discriminate.
  destruct (resolve_datastore config dc) as [ds| |] eqn:Hds; try discriminate.
  destruct (resolve_network config dc) as [net| |] eqn:Hnet; try discriminate.
  intros [= <-]; simpl. repeat split; solve [reflexivity | assumption].
Qed.

Lemma select_Datastore_Some cond e ds :
  select_Datastore cond e = Some ds <-> e = DatastoreFolder_Datastore ds /\ cond ds = true.
Proof.
  destruct e as [ds'|n]; simpl.
  - destruct (cond ds') eqn:Hc; split.
    + intros [= <-]. auto.
    + intros [[= <-] _]. reflexivity.
    + discriminate.
    + intros [[= <-] Hc']. congruence.
  - split; [discriminate|intros [? _]; discriminate].
Qed.

Lemma resolve_datastore_default config dc ds :
  if_set (datastore config) = None ->
  resolve_datastore config dc = Returned ds ->
  DatastoreFolder_Datastore ds ∈ datastoreFolder_childEntity dc
  /\ forall ds', DatastoreFolder_Datastore ds' ∈ datastoreFolder_childEntity dc ->
                 ds_summary_freeSpace ds' <= ds_summary_freeSpace ds.
Proof.
  unfold resolve_datastore. intros ->.
  destruct (omap _ _) as [|first rest] eqn:Hall; [discriminate|].
  intros [= <-].
  destruct (max_by_spec ds_summary_freeSpace rest first) as [Hin Hmax].
  rewrite <- Hall in Hin, Hmax. split.
  - apply list_elem_of_omap in Hin as (e & He & Hsel).
    apply select_Datastore_Some in Hsel as [-> _]. assumption.
  - intros ds' Hds'. apply Hmax. apply list_elem_of_omap.
    exists (DatastoreFolder_Datastore ds'). split; [assumption|reflexivity].
Qed.

End Resolution.

(** C7.  When no datastore name is configured, startup binds, of the
    datastores of the datacenter, one whose free space is the maximum; with
    datastores of 10, 50 and 30 GB free it is the one with 50. *)
Theorem default_datastore_has_maximum_free_space :
  (forall config a endpoint w,
      Py.if_set (VMwareManager.datastore config) = None ->
      VMwareManager._connect_vcenter config a endpoint = Py.Returned w ->
      let datastores :=
        Vim.datastoreFolder_childEntity (VMwareManager.datacenter_obj (VMwareManager.self w)) in
      let chosen := VMwareManager.datastore_obj (VMwareManager.self w) in
      Vim.DatastoreFolder_Datastore chosen ∈ datastores
      /\ forall ds, Vim.DatastoreFolder_Datastore ds ∈ datastores ->
                    Vim.ds_summary_freeSpace ds <= Vim.ds_summary_freeSpace chosen)
  /\ (exists w,
      VMwareManager.__init__ Sample.config_defaults Sample.endpoint_1 = Py.Returned w
      /\ omap Spec.free_space_GB
              (Vim.datastoreFolder_childEntity
                 (VMwareManager.datacenter_obj (VMwareManager.self w))) = [10; 50; 30]
      /\ Vim.ds_summary_freeSpace (VMwareManager.datastore_obj (VMwareManager.self w))
         = 50 * Sample.GB).
Proof.
  split.
  - intros config a endpoint w Hunset Hw. simpl.
    apply _connect_vcenter_Returned in Hw as (_ & _ & _ & Hds & _).
    exact (resolve_datastore_default _ _ _ Hunset Hds).
  - eexists. split; [reflexivity|]. split; reflexivity.
Qed.

Lemma default_datastore_has_maximum_free_space_witness :
  Vim.DatastoreFolder_Datastore Sample.ds_b ∈ Vim.datastoreFolder_childEntity Sample.dc_1
  /\ forall ds, Vim.DatastoreFolder_Datastore ds ∈ Vim.datastoreFolder_childEntity Sample.dc_1 ->
                Vim.ds_summary_freeSpace ds <= Vim.ds_summary_freeSpace Sample.ds_b.
Proof.
  exact (proj1 default_datastore_has_maximum_free_space
               Sample.config_defaults false Sample.endpoint_1
               (Sample.world_with Sample.config_defaults false (fun _ => Sample.task_done))
               eq_refl eq_refl).
Defined.

Section ExplicitNames.
Import Py Vim VMwareManager Spec.

Lemma eqb_name_neq (a b : string) : a <> b -> String.eqb a b = false.
Proof. intros H. apply String.eqb_neq. assumption. Qed.

Lemma resolve_datacenter_named config content name :
  if_set (datacenter config) = Some name ->
  (forall dc, resolve_datacenter config content = Returned dc ->
              RootFolder_Datacenter dc ∈ rootFolder_childEntity content /\ dc_name dc = name)
  /\ ((forall dc, RootFolder_Datacenter dc ∈ rootFolder_childEntity content ->
                  dc_name dc <> name) ->
      resolve_datacenter config content =
      Raised (Exception ("Datacenter " +:+ name +:+ " not found"))).
Proof.
  intros Hname. unfold resolve_datacenter. rewrite Hname.
  destruct (next_or_None _ _) as [dc|] eqn:Hnext; simpl.
  - apply next_or_None_Some in Hnext as (e & He & Hsel).
    destruct e as [dc'|n]; simpl in Hsel; [|discriminate].
    destruct (String.eqb (dc_name dc') name) eqn:Heq; [|discriminate].
    injection Hsel as ->. apply String.eqb_eq in Heq. split.
    + intros ? [= <-]. auto.
    + intros Hnone. destruct (Hnone dc He Heq).
  - split; [discriminate|reflexivity].
Qed.

Lemma resolve_resource_pool_named config dc name :
  if_set (cluster config) = Some name ->
  (forall rp, resolve_resource_pool config dc = Returned rp ->
              exists cr, HostFolder_ComputeResource cr ∈ hostFolder_childEntity dc
                         /\ cr_isCluster cr = true /\ cr_name cr = name
                         /\ rp = cr_resourcePool cr)
  /\ ((forall cr, HostFolder_ComputeResource cr ∈ hostFolder_childEntity dc ->
                  cr_isCluster cr = true -> cr_name cr <> name) ->
      resolve_resource_pool config dc =
      Raised (Exception ("Cluster " +:+ name +:+ " not found"))).
Proof.
  intros Hname. unfold resolve_resource_pool. rewrite Hname.
  destruct (next_or_None _ _) as [cr|] eqn:Hnext; simpl.
  - apply next_or_None_Some in Hnext as (e & He & Hsel).
    destruct e as [cr'|n]; simpl in Hsel; [|discriminate].
    destruct (cr_isCluster cr') eqn:Hcl; simpl in Hsel; [|discriminate].
    destruct (String.eqb (cr_name cr') name) eqn:Heq; [|discriminate].
    injection Hsel as ->. apply String.eqb_eq in Heq. split.
    + intros ? [= <-]. exists cr. auto.
    + intros Hnone. destruct (Hnone cr He Hcl Heq).
  - split; [discriminate|reflexivity].
Qed.

Lemma resolve_datastore_named config dc name :
  if_set (datastore config) = Some name ->
  (forall ds, resolve_datastore config dc = Returned ds ->
              DatastoreFolder_Datastore ds ∈ datastoreFolder_childEntity dc
              /\ ds_name ds = name)
  /\ ((forall ds, DatastoreFolder_Datastore ds ∈ datastoreFolder_childEntity dc ->
                  ds_name ds <> name) ->
      resolve_datastore config dc =
      Raised (Exception ("Datastore " +:+ name +:+ " not found"))).
Proof.
  intros Hname. unfold resolve_datastore. rewrite Hname.
  destruct (next_or_None _ _) as [ds|] eqn:Hnext; simpl.
  - apply next_or_None_Some in Hnext as (e & He & Hsel).
    apply select_Datastore_Some in Hsel as [-> Heq]. apply String.eqb_eq in Heq. split.
    + intros ? [= <-]. auto.
    + intros Hnone. destruct (Hnone ds He Heq).
  - split; [discriminate|reflexivity].
Qed.

Lemma resolve_network_named config dc name :
  if_set (network config) = Some name ->
  (forall net_obj, resolve_network config dc = Returned net_obj ->
                   exists net, net_obj = Some net
                               /\ net ∈ networkFolder_childEntity dc /\ net_name net = name)
  /\ ((forall net, net ∈ networkFolder_childEntity dc -> net_name net <> name) ->
      resolve_network config dc =
      Raised (Exception ("Network " +:+ name +:+ " not found"))).
Proof.
  intros Hname. unfold resolve_network. rewrite Hname.
  destruct (next_or_None _ _) as [net|] eqn:Hnext; simpl.
  - apply next_or_None_Some in Hnext as (e & He & Hsel).
    unfold select_named_Network in Hsel.
    destruct (String.eqb (net_name e) name) eqn:Heq; [|discriminate].
    injection Hsel as ->. apply String.eqb_eq in Heq. split.
    + intros ? [= <-]. exists net. auto.
    + intros Hnone. destruct (Hnone net He Heq).
  - split; [discriminate|reflexivity].
Qed.

Lemma resolve_datacenter_fails config content :
  fails_with_Exception (resolve_datacenter config content).
Proof.
  unfold resolve_datacenter.
  destruct (if_set (datacenter config)); simpl;
    repeat (destruct (next_or_None _ _); simpl); exact I.
Qed.

Lemma resolve_resource_pool_fails config dc :
  fails_with_Exception (resolve_resource_pool config dc).
Proof.
  unfold resolve_resource_pool.
  destruct (if_set (cluster config)); simpl;
    repeat (destruct (next_or_None _ _); simpl); exact I.
Qed.

Lemma resolve_datastore_fails config dc :
  fails_with_Exception (resolve_datastore config dc).
Proof.
  unfold resolve_datastore.
  destruct (if_set (datastore config)); simpl.
  - destruct (next_or_None _ _); exact I.
  - destruct (omap _ _); exact I.
Qed.

Lemma resolve_network_fails config dc :
  fails_with_Exception (resolve_network config dc).
Proof.
  unfold resolve_network.
  destruct (if_set (network config)); simpl; [|exact I].
  destruct (next_or_None _ _); exact I.
Qed.

End ExplicitNames.

(** C2.  For a configured name of a datacenter, a cluster, a datastore or a
    network, startup either binds an object of the inventory whose name is
    exactly the configured one, or fails: when it succeeds every configured
    name is the name of the object bound, and when some configured name has
    no object the call raises (an [Exception], the error of a failed
    startup), so that no default takes the place of a name that was given. *)
Theorem explicit_names_bind_exactly_or_fail :
  forall config a endpoint,
  (forall w,
      VMwareManager._connect_vcenter config a endpoint = Py.Returned w ->
      let dc := VMwareManager.datacenter_obj (VMwareManager.self w) in
      (forall name, Py.if_set (VMwareManager.datacenter config) = Some name ->
          Vim.RootFolder_Datacenter dc ∈ Vim.rootFolder_childEntity (VMwareManager.remote w)
          /\ Vim.dc_name dc = name)
      /\ (forall name, Py.if_set (VMwareManager.cluster config) = Some name ->
          exists cr, Vim.HostFolder_ComputeResource cr ∈ Vim.hostFolder_childEntity dc
                     /\ Vim.cr_isCluster cr = true /\ Vim.cr_name cr = name
                     /\ VMwareManager.resource_pool (VMwareManager.self w)
                        = Vim.cr_resourcePool cr)
      /\ (forall name, Py.if_set (VMwareManager.datastore config) = Some name ->
          Vim.DatastoreFolder_Datastore (VMwareManager.datastore_obj (VMwareManager.self w))
            ∈ Vim.datastoreFolder_childEntity dc
          /\ Vim.ds_name (VMwareManager.datastore_obj (VMwareManager.self w)) = name)
      /\ (forall name, Py.if_set (VMwareManager.network config) = Some name ->
          exists net, VMwareManager.network_obj (VMwareManager.self w) = Some net
                      /\ net ∈ Vim.networkFolder_childEntity dc
                      /\ Vim.net_name net = name))
  /\ (forall content,
      VMwareManager.connect config endpoint = Py.Returned content ->
      (exists name, Py.if_set (VMwareManager.datacenter config) = Some name
                    /\ forall dc, Vim.RootFolder_Datacenter dc ∈ Vim.rootFolder_childEntity content ->
                                  Vim.dc_name dc <> name)
      \/ (exists dc, VMwareManager.resolve_datacenter config content = Py.Returned dc
          /\ ((exists name, Py.if_set (VMwareManager.cluster config) = Some name
                /\ forall cr, Vim.HostFolder_ComputeResource cr ∈ Vim.hostFolder_childEntity dc ->
                              Vim.cr_isCluster cr = true -> Vim.cr_name cr <> name)
              \/ (exists name, Py.if_set (VMwareManager.datastore config) = Some name
                /\ forall ds, Vim.DatastoreFolder_Datastore ds ∈ Vim.datastoreFolder_childEntity dc ->
                              Vim.ds_name ds <> name)
              \/ (exists name, Py.if_set (VMwareManager.network config) = Some name
                /\ forall net, net ∈ Vim.networkFolder_childEntity dc ->
                               Vim.net_name net <> name))) ->
      exists msg, VMwareManager._connect_vcenter config a endpoint
                  = Py.Raised (Py.Exception msg)).
Proof.
  intros config a endpoint. split.
  - intros w Hw dc.
    apply _connect_vcenter_Returned in Hw as (_ & Hdc & Hrp & Hds & Hnet & _).
    split; [|split; [|split]].
    + intros name Hname.
      apply (proj1 (resolve_datacenter_named _ _ _ Hname) _ Hdc).
    + intros name Hname.
      destruct (proj1 (resolve_resource_pool_named _ _ _ Hname) _ Hrp)
        as (cr & ? & ? & ? & ?). exists cr. auto.
    + intros name Hname.
      apply (proj1 (resolve_datastore_named _ _ _ Hname) _ Hds).
    + intros name Hname.
      apply (proj1 (resolve_network_named _ _ _ Hname) _ Hnet).
  - intros content Hcon Hmissing.
    unfold VMwareManager._connect_vcenter, mbind, Py.outcome_bind. rewrite Hcon.
    destruct Hmissing as [(name & Hname & Hnone)|(dc & Hdc & Hmissing)].
    { rewrite (proj2 (resolve_datacenter_named _ _ _ Hname) Hnone). eauto. }
    rewrite Hdc.
    pose proof (resolve_resource_pool_fails config dc) as Frp.
    pose proof (resolve_datastore_fails config dc) as Fds.
    pose proof (resolve_network_fails config dc) as Fnet.
    destruct Hmissing as [(name & Hname & Hnone)|[(name & Hname & Hnone)|(name & Hname & Hnone)]].
    + rewrite (proj2 (resolve_resource_pool_named _ _ _ Hname) Hnone). eauto.
    + destruct (VMwareManager.resolve_resource_pool config dc) as [rp|[]|];
        simpl in Frp; try contradiction; eauto.
      rewrite (proj2 (resolve_datastore_named _ _ _ Hname) Hnone). eauto.
    + destruct (VMwareManager.resolve_resource_pool config dc) as [rp|[]|];
        simpl in Frp; try contradiction; eauto.
      destruct (VMwareManager.resolve_datastore config dc) as [ds|[]|];
        simpl in Fds; try contradiction; eauto.
      rewrite (proj2 (resolve_network_named _ _ _ Hname) Hnone). eauto.
Qed.

Lemma explicit_names_bind_exactly_or_fail_witness :
  (Vim.RootFolder_Datacenter Sample.dc_1
     ∈ Vim.rootFolder_childEntity (VMwareManager.remote Sample.world_named)
   /\ Vim.dc_name Sample.dc_1 = "dc-1")
  /\ (Vim.DatastoreFolder_Datastore Sample.ds_c ∈ Vim.datastoreFolder_childEntity Sample.dc_1
      /\ Vim.ds_name Sample.ds_c = "ds-c")
  /\ exists msg,
      VMwareManager._connect_vcenter Sample.config_missing_datastore false Sample.endpoint_1
      = Py.Raised (Py.Exception msg).
Proof.
  pose proof (proj1 (explicit_names_bind_exactly_or_fail
                       Sample.config_named false Sample.endpoint_1)
                    Sample.world_named eq_refl) as (Hdc & _ & Hds & _).
  split; [exact (Hdc "dc-1" eq_refl)|].
  split; [exact (Hds "ds-c" eq_refl)|].
  apply (proj2 (explicit_names_bind_exactly_or_fail
                  Sample.config_missing_datastore false Sample.endpoint_1)
               (Sample.remote_with (fun _ => Sample.task_done)) eq_refl).
  right. exists Sample.dc_1. split; [reflexivity|].
  right; left. exists "ds-z". split; [reflexivity|].
  intros ds Hds'.
  repeat (apply elem_of_cons in Hds' as [Hds'|Hds'];
          [inversion Hds'; subst; discriminate|]).
  inversion Hds'.
Defined.

(** ** The authentication gate *)

Section AuthGate.
Import Py VMwareManager Tools.
Context {result : Type}.
Variable manager : string -> list value -> M World result.
Variable config : Config.

Lemma _check_auth_closed w :
  truthy (api_key config) = true -> authenticated (self w) = false ->
  _check_auth config w = (Raised (Exception "Unauthorized: API key required."), w).
Proof. intros Hkey Hflag. unfold _check_auth, mbind, M_bind, get. simpl. rewrite Hkey, Hflag. reflexivity. Qed.

Lemma _check_auth_open w :
  truthy (api_key config) = false \/ authenticated (self w) = true ->
  _check_auth config w = (Returned tt, w).
Proof.
  intros H. unfold _check_auth, mbind, M_bind, get. simpl.
  destruct (truthy (api_key config)); [|reflexivity].
  destruct H as [H|H]; [discriminate|]. rewrite H. reflexivity.
Qed.

Lemma authenticate_Returned key msg w w' :
  Gateway.authenticate config key w = (Returned msg, w') ->
  w' = set_authenticated true w /\ if_set (api_key config) = Some key.
Proof.
  unfold Gateway.authenticate.
  destruct (if_set (api_key config)) as [k|]; [|discriminate].
  destruct (String.eqb key k) eqn:Heq; [|discriminate].
  apply String.eqb_eq in Heq as ->.
  unfold mbind, M_bind, modify, mret, M_ret. intros [= _ <-]. auto.
Qed.

End AuthGate.



(** ** Dispatch *)

Section Dispatch.
Import Py VMwareManager Tools McpServer.
Context {result : Type}.
Variable manager : string -> list value -> M World result.
Variable config : Config.
Variable is_dict_or_list : result -> bool.
Variable json_dumps : result -> string.
Variable str : result -> string.

Lemma tool_handler_map_registered name :
  is_Some (tool_handler_map manager config !! name)
  <-> name ∈ (tool_handler_entries manager config).*1.
Proof.
  unfold tool_handler_map. split.
  - intros [h Hh]. apply elem_of_list_to_map_2 in Hh.
    apply list_elem_of_fmap. exists (name, h). split; [reflexivity|assumption].
  - intros Hin. destruct (list_to_map (tool_handler_entries manager config) !! name) eqn:Hl.
    + eauto.
    + apply not_elem_of_list_to_map in Hl. contradiction.
Qed.

(** Every registered handler is a method of [ToolHandlers], called with the
    arguments unpacked or without arguments. *)
Lemma tool_handler_map_lookup name h :
  tool_handler_map manager config !! name = Some h ->
  exists t, h = with_kwargs manager config t \/ h = without_args manager config t.
Proof.
  intros Hh. apply elem_of_list_to_map_2 in Hh. unfold tool_handler_entries in Hh.
  repeat (apply elem_of_cons in Hh as [Hh|Hh];
          [injection Hh as _ ->; eexists; (left; reflexivity) || (right; reflexivity)|]).
  inversion Hh.
Qed.

(** Through the dispatcher too, a registered tool called while the gate is
    closed does not reach the manager: it raises the Unauthorized error, or
    a [TypeError] when the arguments do not fit the handler's parameters. *)
Lemma registered_tools_are_gated name h arguments w :
  tool_handler_map manager config !! name = Some h ->
  truthy (api_key config) = true -> authenticated (self w) = false ->
  h arguments w = (Raised (Exception "Unauthorized: API key required."), w)
  \/ exists msg, h arguments w = (Raised (TypeError msg), w).
Proof.
  intros Hh Hkey Hflag. apply tool_handler_map_lookup in Hh as [t [-> | ->]].
  - unfold with_kwargs, bind_kwargs.
    destruct (bool_decide _); [|right; eauto].
    destruct (bind_parameters _ _) as [bound|]; [|right; eauto].
    left. unfold handler, mbind, M_bind.
    rewrite (_check_auth_closed config w Hkey Hflag). reflexivity.
  - left. unfold without_args, handler, mbind, M_bind.
    rewrite (_check_auth_closed config w Hkey Hflag). reflexivity.
Qed.

End Dispatch.

(** C6.  A tool name that is not, character for character, one of the
    registered names makes the dispatcher raise a [ValueError] whose message
    is "Unknown tool: " followed by the name that was asked for, and nothing
    else: no handler runs, the manager and the remote side are as before,
    and the message names no registered handler.  [ValueError] is the class
    the dispatcher raises for this case; the gate and the failed lookups of
    the manager raise plain [Exception]. *)
Theorem unknown_tool_raises_ValueError :
  forall (result : Type)
         (manager : string -> list Tools.value -> Py.M VMwareManager.World result)
         (config : VMwareManager.Config)
         (is_dict_or_list : result -> bool) (json_dumps str : result -> string)
         (name : string) (arguments : gmap string Tools.value) (w : VMwareManager.World),
    name ∉ (McpServer.tool_handler_entries manager config).*1 ->
    McpServer.tool_handler_map manager config !! name = None
    /\ McpServer.call_tool_handler manager config is_dict_or_list json_dumps str
                                   name arguments w
       = (Py.Raised (Py.ValueError ("Unknown tool: " +:+ name)), w).
Proof.
  intros result manager config is_dl dumps str name arguments w Hname.
  assert (Hnone : McpServer.tool_handler_map manager config !! name = None).
  { destruct (McpServer.tool_handler_map manager config !! name) eqn:Hl; [|reflexivity].
    exfalso. apply Hname. apply tool_handler_map_registered. eauto. }
  split; [assumption|].
  unfold McpServer.call_tool_handler. rewrite Hnone. reflexivity.
Qed.

Lemma unknown_tool_raises_ValueError_witness :
  McpServer.call_tool_handler Sample.echo_manager Sample.config_key
                              (fun _ => false) (fun r => r) (fun r => r)
                              "Power_On_VM" ∅
                              (Sample.world_with Sample.config_key false
                                                 (fun _ => Sample.task_done))
  = (Py.Raised (Py.ValueError "Unknown tool: Power_On_VM"),
     Sample.world_with Sample.config_key false (fun _ => Sample.task_done)).
Proof.
  apply (unknown_tool_raises_ValueError string Sample.echo_manager Sample.config_key).
  simpl. intros Hin.
  repeat (apply elem_of_cons in Hin as [Hin|Hin]; [discriminate|]).
  inversion Hin.
Defined.

(** ** Handlers that return without a task *)

Section ShortCircuits.
Import Py Vim VMwareManager.

Lemma views_restored w : set_remote (set_views Nat.pred) (set_remote (set_views S) w) = w.
Proof. destruct w as [s [? ? ? ? ? ?]]. reflexivity. Qed.

(** [find_vm] leaves the remote side as it found it: the view it creates is
    destroyed on every path. *)
Lemma find_vm_eq name w :
  find_vm name w =
  (Returned (next_or_None (fun vm => if String.eqb (vm_name vm) name then Some vm else None)
                          (view_VirtualMachine (remote w))), w).
Proof.
  unfold find_vm, mbind, M_bind, CreateContainerView, Destroy, modify, mret, M_ret.
  simpl. rewrite views_restored. reflexivity.
Qed.

Lemma find_host_eq name w :
  find_host name w =
  (Returned (next_or_None (fun host => if String.eqb (host_name host) name then Some host else None)
                          (view_HostSystem (remote w))), w).
Proof.
  unfold find_host, mbind, M_bind, CreateContainerView, Destroy, modify, mret, M_ret.
  simpl. rewrite views_restored. reflexivity.
Qed.

Lemma find_vm_found name w vm :
  fst (find_vm name w) = Returned (Some vm) -> find_vm name w = (Returned (Some vm), w).
Proof. rewrite find_vm_eq. simpl. intros [= ->]. reflexivity. Qed.

(** Running [k] on the result of [find_vm]. *)
Lemma bind_find_vm {B} name w vm (k : option VirtualMachine -> M World B) :
  fst (find_vm name w) = Returned (Some vm) ->
  (find_vm name ≫= k) w = k (Some vm) w.
Proof.
  intros H. unfold mbind, M_bind. rewrite (find_vm_found _ _ _ H). reflexivity.
Qed.

Lemma PowerState_eqb_eq a b : PowerState_eqb a b = true <-> a = b.
Proof. destruct a, b; simpl; split; congruence. Qed.

Lemma PowerState_eqb_neq a b : PowerState_eqb a b = false <-> a <> b.
Proof. destruct a, b; simpl; split; congruence. Qed.

(** What the three statements after a task is obtained leave behind: the
    request is with the control plane, whatever the wait comes to. *)
Lemma submit_then_wait_state {B} fuel request (k : M World B) w :
  (forall w', snd (k w') = w') ->
  snd ((submit request ≫= fun task => wait_in_handler fuel task ≫= fun _ => k) w)
  = set_remote (set_submitted (fun l => l ++ [request])) w.
Proof.
  intros Hk. unfold mbind, M_bind, submit, wait_in_handler, raise_task_error, spin, raise, mret, M_ret.
  destruct (busy_wait _ _ _) as [reads|]; simpl; [|reflexivity].
  destruct (TaskInfoState_eqb _ _); simpl.
  - destruct (info_error _); reflexivity.
  - specialize (Hk (set_remote (set_submitted (fun l => l ++ [request])) w)).
    destruct (k _) as [[?| |] ?]; simpl in *; assumption.
Qed.

End ShortCircuits.

(** C8.  [power_on_vm] on a virtual machine that is powered on returns its
    message of success and submits nothing: the manager and the remote side
    are exactly as before; so does [power_off_vm] on one that is powered
    off.  In every other power state the same call does hand a power task to
    the control plane. *)
Theorem power_calls_short_circuit :
  forall (fuel : nat) (name : string) (w : VMwareManager.World) (vm : Vim.VirtualMachine),
    fst (VMwareManager.find_vm name w) = Py.Returned (Some vm) ->
    (Vim.vm_runtime_powerState vm = Vim.poweredOn ->
     VMwareManager.power_on_vm fuel name w
     = (Py.Returned ("VM '" +:+ name +:+ "' is already powered on."), w))
    /\ (Vim.vm_runtime_powerState vm = Vim.poweredOff ->
        VMwareManager.power_off_vm fuel name w
        = (Py.Returned ("VM '" +:+ name +:+ "' is already powered off."), w))
    /\ (Vim.vm_runtime_powerState vm <> Vim.poweredOn ->
        snd (VMwareManager.power_on_vm fuel name w)
        = VMwareManager.set_remote
            (Vim.set_submitted (fun l => l ++ [Vim.PowerOnVM_Task vm])) w)
    /\ (Vim.vm_runtime_powerState vm <> Vim.poweredOff ->
        snd (VMwareManager.power_off_vm fuel name w)
        = VMwareManager.set_remote
            (Vim.set_submitted (fun l => l ++ [Vim.PowerOffVM_Task vm])) w).
Proof.
  intros fuel name w vm Hvm.
  unfold VMwareManager.power_on_vm, VMwareManager.power_off_vm.
  rewrite !(bind_find_vm _ _ _ _ Hvm).
  split; [|split; [|split]].
  - intros ->. reflexivity.
  - intros ->. reflexivity.
  - intros Hne. apply PowerState_eqb_neq in Hne. rewrite Hne.
    apply submit_then_wait_state. reflexivity.
  - intros Hne. apply PowerState_eqb_neq in Hne. rewrite Hne.
    apply submit_then_wait_state. reflexivity.
Qed.

Lemma power_calls_short_circuit_witness :
  VMwareManager.power_on_vm 5 "web" Sample.world_stuck
  = (Py.Returned "VM 'web' is already powered on.",
     Sample.world_stuck)
  /\ VMwareManager.power_off_vm 5 "db" Sample.world_stuck
     = (Py.Returned "VM 'db' is already powered off.",
        Sample.world_stuck).
Proof.
  split.
  - exact (proj1 (power_calls_short_circuit 5 "web" Sample.world_stuck Sample.vm_web eq_refl) eq_refl).
  - exact (proj1 (proj2 (power_calls_short_circuit 5 "db" Sample.world_stuck Sample.vm_db eq_refl)) eq_refl).
Defined.

(** C10.  For a virtual machine that exists and has no snapshots,
    [remove_all_snapshots] returns the message that there is nothing to
    remove and [list_snapshots] returns the empty list; neither raises, and
    neither submits a task: the manager and the remote side are exactly as
    before. *)
Theorem no_snapshots_nothing_submitted :
  forall (fuel : nat) (vm_name : string) (w : VMwareManager.World) (vm : Vim.VirtualMachine),
    fst (VMwareManager.find_vm vm_name w) = Py.Returned (Some vm) ->
    Vim.vm_snapshot vm = None ->
    VMwareManager.remove_all_snapshots fuel vm_name w
    = (Py.Returned ("VM '" +:+ vm_name +:+ "' has no snapshots to remove"), w)
    /\ VMwareManager.list_snapshots vm_name w = (Py.Returned [], w).
Proof.
  intros fuel vm_name w vm Hvm Hsnap.
  unfold VMwareManager.remove_all_snapshots, VMwareManager.list_snapshots.
  rewrite !(bind_find_vm _ _ _ _ Hvm), Hsnap. split; reflexivity.
Qed.

Lemma no_snapshots_nothing_submitted_witness :
  VMwareManager.remove_all_snapshots 5 "web" Sample.world_stuck
  = (Py.Returned "VM 'web' has no snapshots to remove",
     Sample.world_stuck)
  /\ VMwareManager.list_snapshots "web" Sample.world_stuck
     = (Py.Returned [],
        Sample.world_stuck).
Proof.
  exact (no_snapshots_nothing_submitted 5 "web" Sample.world_stuck Sample.vm_web eq_refl eq_refl).
Defined.

(** ** Host utilisation *)

Section Utilisation.
Import Py Vim VMwareManager.
Context {float : Type}.
Variable int_truediv : Z -> Z -> float.
Variable float_mul : float -> Z -> float.
Variable round_ndigits : float -> Z -> float.

Lemma bind_find_host {B} name w host (k : option HostSystem -> M World B) :
  fst (find_host name w) = Returned (Some host) ->
  (find_host name ≫= k) w = k (Some host) w.
Proof.
  rewrite find_host_eq. simpl. intros [= H]. unfold mbind, M_bind.
  rewrite find_host_eq, H. reflexivity.
Qed.

(** The expression of a percentage: the division is evaluated only under
    the guard, so it is never a division by zero. *)
Lemma usage_percent_cases usage total :
  (total <= 0 /\ usage_percent int_truediv float_mul round_ndigits usage total
                = Returned (stat_int 0))
  \/ (0 < total /\ exists u, usage = Some u
       /\ usage_percent int_truediv float_mul round_ndigits usage total
          = Returned (stat_float (round_ndigits (float_mul (int_truediv u total) 100) 2)))
  \/ (0 < total /\ usage = None /\ exists msg,
       usage_percent int_truediv float_mul round_ndigits usage total
       = Raised (TypeError msg)).
Proof.
  unfold usage_percent, truediv.
  destruct (Z.ltb_spec 0 total) as [Hpos|Hle].
  - destruct usage as [u|].
    + right; left. split; [assumption|]. exists u. split; [reflexivity|].
      destruct (Z.eqb_spec total 0); [lia|reflexivity].
    + right; right. split; [assumption|]. split; [reflexivity|]. eexists. reflexivity.
  - left. split; [assumption|reflexivity].
Qed.

End Utilisation.

(** C9.  The percentages of [get_host_performance] are
    [round(usage / total * 100, 2)], and are the integer 0 when the total
    (CPU MHz or memory MB) is 0: the division is evaluated only when the
    total is positive, so the call never raises a division by zero, and when
    both totals are 0 it returns whatever the counters are.  (Float
    arithmetic is a parameter, so a NaN is not expressible here; with the
    division out of reach none is produced by it.) *)
Theorem host_utilisation_is_guarded :
  forall (float : Type) (int_truediv : Z -> Z -> float) (float_mul : float -> Z -> float)
         (round_ndigits : float -> Z -> float)
         (host_name : string) (w : VMwareManager.World)
         (host : Vim.HostSystem) (hardware : Vim.HostHardwareInfo),
    fst (VMwareManager.find_host host_name w) = Py.Returned (Some host) ->
    Vim.host_hardware host = Some hardware ->
    let run :=
      VMwareManager.get_host_performance int_truediv float_mul round_ndigits host_name w in
    let total_cpu := VMwareManager.total_cpu_mhz hardware in
    let total_memory := VMwareManager.total_memory_mb hardware in
    (forall msg, fst run <> Py.Raised (Py.ZeroDivisionError msg))
    /\ (total_cpu = 0 -> total_memory = 0 -> exists stats, run = (Py.Returned stats, w))
    /\ (forall stats, fst run = Py.Returned stats ->
        (total_cpu = 0 ->
         stats !! "cpu_usage_percent" = Some (VMwareManager.stat_int 0))
        /\ (total_memory = 0 ->
            stats !! "memory_usage_percent" = Some (VMwareManager.stat_int 0))
        /\ (0 < total_cpu ->
            exists usage, VMwareManager.cpu_usage_mhz host = Some usage
              /\ stats !! "cpu_usage_percent"
                 = Some (VMwareManager.stat_float
                           (round_ndigits (float_mul (int_truediv usage total_cpu) 100) 2)))
        /\ (0 < total_memory ->
            exists usage, VMwareManager.memory_usage_mb host = Some usage
              /\ stats !! "memory_usage_percent"
                 = Some (VMwareManager.stat_float
                           (round_ndigits (float_mul (int_truediv usage total_memory) 100) 2)))).
Proof.
  intros float int_truediv float_mul round_ndigits host_name w host hardware Hhost Hhw.
  cbv zeta. unfold VMwareManager.get_host_performance.
  rewrite (bind_find_host _ _ _ _ Hhost), Hhw.
  unfold mbind, Py.M_bind, VMwareManager.lift, mret, Py.M_ret.
  destruct (usage_percent_cases int_truediv float_mul round_ndigits
              (VMwareManager.cpu_usage_mhz host) (VMwareManager.total_cpu_mhz hardware))
    as [[Hc ->]|[(Hc & uc & Huc & ->)|(Hc & Huc & mc & ->)]];
  destruct (usage_percent_cases int_truediv float_mul round_ndigits
              (VMwareManager.memory_usage_mb host) (VMwareManager.total_memory_mb hardware))
    as [[Hm Em]|[(Hm & um & Hum & Em)|(Hm & Hum & mm & Em)]];
  try rewrite Em; simpl;
  (split; [intros msg; discriminate|]);
  (split; [intros; first [lia | eexists; reflexivity]|]);
  intros stats Hstats; try discriminate; injection Hstats as <-;
  (split; [intros; first [lia | reflexivity]|]);
  (split; [intros; first [lia | reflexivity]|]);
  (split; [intros; first [lia | eexists; split; [eassumption|reflexivity]]|]);
  intros; first [lia | eexists; split; [eassumption|reflexivity]].
Qed.

Lemma host_utilisation_is_guarded_witness :
  exists stats,
    VMwareManager.get_host_performance Sample.exact_truediv Sample.exact_mul
                                       Sample.exact_round "esxi-1" Sample.world_done
    = (Py.Returned stats, Sample.world_done)
    /\ stats !! "cpu_usage_mhz" = Some (VMwareManager.stat_int 0)
    /\ stats !! "cpu_total_mhz" = Some (VMwareManager.stat_int 0)
    /\ stats !! "cpu_usage_percent" = Some (VMwareManager.stat_int 0)
    /\ stats !! "memory_usage_percent" = Some (VMwareManager.stat_int 0).
Proof.
  destruct (host_utilisation_is_guarded
              Q Sample.exact_truediv Sample.exact_mul Sample.exact_round
              "esxi-1" Sample.world_done Sample.host_idle
              {| Vim.cpuInfo := Some {| Vim.numCpuCores := 8; Vim.hz := 0 |};
                 Vim.memorySize := 0 |} eq_refl eq_refl)
    as (_ & Hreturns & Hstats).
  destruct (Hreturns eq_refl eq_refl) as [stats Hrun].
  exists stats. split; [exact Hrun|].
  destruct (Hstats stats (f_equal fst Hrun)) as (Hcpu & Hmem & _).
  injection Hrun as <-.
  split; [reflexivity|]. split; [reflexivity|].
  split; [exact (Hcpu eq_refl)|exact (Hmem eq_refl)].
Defined.

(** A host under load: 1200 of 8 x 2400 MHz is 6.25 percent, 4096 of 32768 MB
    is 12.5 percent. *)
Example host_busy_percentages :
  exists stats,
    VMwareManager.get_host_performance Sample.exact_truediv Sample.exact_mul
                                       Sample.exact_round "esxi-2" Sample.world_done
    = (Py.Returned stats, Sample.world_done)
    /\ stats !! "cpu_usage_percent" = Some (VMwareManager.stat_float (625 # 100))
    /\ stats !! "memory_usage_percent" = Some (VMwareManager.stat_float (1250 # 100)).
Proof. eexists. split; [reflexivity|]. split; reflexivity. Qed.

(** ** [wait_for_task] *)

Section TaskWait.
Import Py Vim VMwareManager Spec.
Variable task : Task.
Variable clock : nat -> Q.
Variable timeout : Z.

(** More iterations do not change a result. *)
Lemma wait_for_task_loop_more fuel : forall start reads ticks d,
  wait_for_task_loop fuel task clock start timeout reads ticks = Returned d ->
  wait_for_task_loop (S fuel) task clock start timeout reads ticks = Returned d.
Proof.
  induction fuel as [|fuel IH]; intros start reads ticks d; [discriminate|].
  intros H. simpl in H. change (wait_for_task_loop (S (S fuel)) task clock start timeout reads ticks)
    with (if terminal (info_state task reads) then
            if TaskInfoState_eqb (info_state task (S reads)) success then
              Returned (<["status" := Some "success"]>
                        (<["message" := Some "Task completed successfully"]>
                        (<["result" := info_result task]> ∅)))
            else
              Returned (<["status" := Some "error"]>
                        (<["message" := Some (default "Unknown error" (info_error task))]>
                        (<["error" := info_error task]> ∅)))
          else if Qlt_le_dec (inject_Z timeout) (clock ticks - start) then
            Returned (<["status" := Some "timeout"]>
                      (<["message" :=
                           Some ("Task timed out after " +:+ str_int timeout +:+ " seconds")]>
                      (<["task_state" :=
                           Some (str_TaskInfoState (info_state task (S reads)))]> ∅)))
          else wait_for_task_loop (S fuel) task clock start timeout (S reads) (S ticks)).
  destruct (terminal (info_state task reads)); [assumption|].
  destruct (Qlt_le_dec _ _); [assumption|]. apply IH. assumption.
Qed.

Lemma wait_for_task_loop_enough fuel fuel' start reads ticks d :
  (fuel <= fuel')%nat ->
  wait_for_task_loop fuel task clock start timeout reads ticks = Returned d ->
  wait_for_task_loop fuel' task clock start timeout reads ticks = Returned d.
Proof.
  induction 1 as [|fuel' _ IH]; [trivial|].
  intros H. apply wait_for_task_loop_more, IH, H.
Qed.

(** If the clock is past the deadline at iteration [reads + m] and the task
    is not terminal at any read made until then, the loop returns the
    timeout dictionary within [m + 1] iterations. *)
Lemma wait_for_task_loop_times_out start m : forall reads,
  (inject_Z timeout < clock (S (reads + m)) - start)%Q ->
  (forall n, (reads <= n)%nat ->
             (forall k, (reads <= k < n)%nat -> (clock (S k) - start <= inject_Z timeout)%Q) ->
             terminal (info_state task n) = false) ->
  exists d, wait_for_task_loop (S m) task clock start timeout reads (S reads) = Returned d
            /\ timed_out timeout d.
Proof.
  induction m as [|m IH]; intros reads Hpast Hrunning.
  - rewrite Nat.add_0_r in Hpast. simpl.
    rewrite (Hrunning reads (Nat.le_refl _)) by (intros k Hk; lia).
    destruct (Qlt_le_dec _ _) as [_|Hle]; [|lra].
    eexists. split; [reflexivity|].
    repeat split; try reflexivity. eexists; reflexivity.
  - cbn [wait_for_task_loop].
    rewrite (Hrunning reads (Nat.le_refl _)) by (intros k Hk; lia).
    destruct (Qlt_le_dec _ _) as [_|Hle].
    + eexists. split; [reflexivity|].
      repeat split; try reflexivity. eexists; reflexivity.
    + apply IH.
      * replace (S reads + m)%nat with (reads + S m)%nat by lia. assumption.
      * intros n Hn Hwithin. apply Hrunning; [lia|].
        intros k Hk. destruct (Nat.eq_dec k reads) as [->|Hne]; [assumption|].
        apply Hwithin. lia.
Qed.

(** Each [time.sleep(1)] lasts at least a second, so the readings grow. *)
Lemma clock_grows :
  (forall n, (clock (S n) + 1 <= clock (S (S n)))%Q) ->
  forall n, (clock 1%nat + inject_Z (Z.of_nat n) <= clock (S n))%Q.
Proof.
  intros Hsleep. induction n as [|n IH].
  - change (inject_Z (Z.of_nat 0)) with 0%Q. lra.
  - rewrite Nat2Z.inj_succ. unfold Z.succ. rewrite inject_Z_plus.
    specialize (Hsleep n). change (inject_Z 1) with 1%Q. lra.
Qed.

Lemma deadline_is_reached :
  (forall n, (clock (S n) + 1 <= clock (S (S n)))%Q) ->
  exists m, (inject_Z timeout < clock (S m) - clock O)%Q.
Proof.
  intros Hsleep.
  set (x := (inject_Z timeout - (clock 1%nat - clock O))%Q).
  exists (Z.to_nat (Qfloor x + 1)).
  pose proof (clock_grows Hsleep (Z.to_nat (Qfloor x + 1))) as Hgrow.
  pose proof (Qlt_floor x) as Hfloor.
  assert (Hnat : (inject_Z (Qfloor x + 1) <= inject_Z (Z.of_nat (Z.to_nat (Qfloor x + 1))))%Q).
  { rewrite <- Zle_Qle. lia. }
  unfold x in *. lra.
Qed.

End TaskWait.

(** C4.  When the task is not in a terminal state at any read
    [wait_for_task] makes up to the one at which it finds the timeout
    exceeded, the call returns (it neither raises nor goes on for ever, the
    sleeps of a second each taking it past any timeout) and what it returns
    is the timeout dictionary: status "timeout", not "error", with no error
    entry. *)
Theorem wait_for_task_times_out :
  forall (task : Vim.Task) (clock : nat -> Q) (timeout : Z),
    (forall n, (clock (S n) + 1 <= clock (S (S n)))%Q) ->
    (forall n,
        (forall k, (k < n)%nat -> (clock (S k) - clock O <= inject_Z timeout)%Q) ->
        VMwareManager.terminal (Vim.info_state task n) = false) ->
    exists fuel d,
      (forall fuel', (fuel <= fuel')%nat ->
                     VMwareManager.wait_for_task fuel' task clock timeout = Py.Returned d)
      /\ Spec.timed_out timeout d
      /\ d !! "status" <> Some (Some "error").
Proof.
  intros task clock timeout Hsleep Hrunning.
  destruct (deadline_is_reached clock timeout Hsleep) as [m Hm].
  destruct (wait_for_task_loop_times_out task clock timeout (clock O) m O) as (d & Hd & Hout).
  - exact Hm.
  - intros n _ Hwithin. apply Hrunning. intros k Hk. apply Hwithin. lia.
  - exists (S m), d. split; [|split; [assumption|]].
    + intros fuel' Hfuel. unfold VMwareManager.wait_for_task.
      apply (wait_for_task_loop_enough task clock timeout (S m)); assumption.
    + destruct Hout as (-> & _). discriminate.
Qed.

Lemma wait_for_task_times_out_witness :
  exists fuel d,
    (forall fuel', (fuel <= fuel')%nat ->
                   VMwareManager.wait_for_task fuel' Sample.task_stuck Sample.clock_seconds 3
                   = Py.Returned d)
    /\ Spec.timed_out 3 d
    /\ d !! "status" <> Some (Some "error").
Proof.
  apply (wait_for_task_times_out Sample.task_stuck Sample.clock_seconds 3).
  - intros n. unfold Sample.clock_seconds. cbn [Nat.pred].
    rewrite (Nat2Z.inj_succ n). unfold Z.succ. rewrite inject_Z_plus.
    change (inject_Z 1) with 1%Q. lra.
  - intros n _. reflexivity.
Defined.

(** The same call, run: with that clock and a timeout of 3 seconds, the
    fifth test of the loop gives up. *)
Example wait_for_task_stuck_run :
  VMwareManager.wait_for_task 4 Sample.task_stuck Sample.clock_seconds 3 = Py.Spinning
  /\ VMwareManager.wait_for_task 5 Sample.task_stuck Sample.clock_seconds 3
     = Py.Returned (<["status" := Some "timeout"]>
                    (<["message" := Some "Task timed out after 3 seconds"]>
                    (<["task_state" := Some "running"]> ∅)))
  /\ VMwareManager.wait_for_task 5 Sample.task_done Sample.clock_seconds 3
     = Py.Returned (<["status" := Some "success"]>
                    (<["message" := Some "Task completed successfully"]>
                    (<["result" := None]> ∅))).
Proof. repeat split; vm_compute; reflexivity. Qed.

(** ** Waiting inside the handlers *)

Section HandlerWait.
Import Py Vim VMwareManager Spec.

Lemma busy_wait_None task fuel : forall reads,
  busy_wait fuel task reads = None
  <-> forall n, (reads <= n < reads + fuel)%nat -> terminal (info_state task n) = false.
Proof.
  induction fuel as [|fuel IH]; intros reads; simpl.
  - split; [intros _ n Hn; lia|reflexivity].
  - destruct (terminal (info_state task reads)) eqn:Hterm.
    + split; [discriminate|]. intros H.
      assert (terminal (info_state task reads) = false) by (apply H; lia). congruence.
    + rewrite IH. split.
      * intros H n Hn. destruct (Nat.eq_dec n reads) as [->|Hne]; [assumption|].
        apply H. lia.
      * intros H n Hn. apply H. lia.
Qed.

(** The end of every mutating handler: the request is submitted, and the
    handler is still in its loop after [fuel] tests exactly when none of the
    first [fuel] reads of the task's state is terminal. *)
Lemma submit_then_wait fuel request (msg : string) w :
  let r := (submit request ≫= fun task =>
            wait_in_handler fuel task ≫= fun _ => (mret msg : M World string)) w in
  snd r = with_request request w
  /\ (fst r = Spinning
      <-> forall n, (n < fuel)%nat ->
                    terminal (info_state (task_of (remote w) request) n) = false).
Proof.
  cbv zeta. split.
  - apply submit_then_wait_state. reflexivity.
  - unfold mbind, M_bind, submit, wait_in_handler, raise_task_error, spin, raise, mret, M_ret.
    pose proof (busy_wait_None (task_of (remote w) request) fuel 0) as Hnone.
    destruct (busy_wait _ _ _) as [reads|]; simpl.
    + assert (Hsome : ~ forall n, (n < fuel)%nat ->
                        terminal (info_state (task_of (remote w) request) n) = false).
      { intros H. assert (Some reads = None) by (apply Hnone; intros n Hn; apply H; lia).
        discriminate. }
      destruct (TaskInfoState_eqb _ _); simpl.
      * destruct (info_error _); simpl; split; try discriminate; intros; contradiction.
      * split; [discriminate|intros; contradiction].
    + split; [|reflexivity]. intros _ n Hn. apply Hnone; [reflexivity|lia].
Qed.

Lemma bind_find_vm_eq {B} name w (k : option VirtualMachine -> M World B) :
  (find_vm name ≫= k) w
  = k (next_or_None (fun vm => if String.eqb (vm_name vm) name then Some vm else None)
                    (view_VirtualMachine (remote w))) w.
Proof. unfold mbind, M_bind. rewrite find_vm_eq. reflexivity. Qed.

(** The first block of the two create functions raises or returns, and
    touches nothing. *)
Lemma datastore_and_network_cases datastore network w :
  (exists e, datastore_and_network datastore network w = (Raised e, w))
  \/ (exists r, datastore_and_network datastore network w = (Returned r, w)).
Proof.
  unfold datastore_and_network, mbind, M_bind, get, raise, mret, M_ret.
  destruct (if_set datastore); simpl.
  - destruct (next_or_None _ _); simpl; [|left; eauto].
    destruct (if_set network); simpl; [|right; eauto].
    destruct (next_or_None _ _); simpl; [right|left]; eauto.
  - destruct (if_set network); simpl; [|right; eauto].
    destruct (next_or_None _ _); simpl; [right|left]; eauto.
Qed.

Lemma bind_datastore_and_network {B} datastore network
    (k : Datastore * option Network -> M World B) w :
  (exists e, (datastore_and_network datastore network ≫= k) w = (Raised e, w))
  \/ (exists r, (datastore_and_network datastore network ≫= k) w = k r w).
Proof.
  unfold mbind, M_bind.
  destruct (datastore_and_network_cases datastore network w) as [[e He]|[r Hr]].
  - left. exists e. rewrite He. reflexivity.
  - right. exists r. rewrite Hr. reflexivity.
Qed.

End HandlerWait.

(** C3, as the code has it.  Each of the ten mutating handlers either ends
    before it has submitted anything (a lookup failed, or there was nothing
    to do), or submits one request and then tests the state of the task over
    and over: after any number of tests it is still in its loop exactly when
    none of the states read so far is [success] or [error].  The wait has no
    timeout and does not go through [wait_for_task]; only the task ends it. *)
Theorem mutating_handlers_wait_on_task_state_alone :
  forall (c : Spec.mutating_call) (fuel : nat) (w : VMwareManager.World),
    (snd (Spec.run_mutating fuel c w) = w
     /\ fst (Spec.run_mutating fuel c w) <> Py.Spinning)
    \/ exists request,
        snd (Spec.run_mutating fuel c w) = Spec.with_request request w
        /\ (fst (Spec.run_mutating fuel c w) = Py.Spinning
            <-> forall n, (n < fuel)%nat ->
                  VMwareManager.terminal
                    (Vim.info_state (Vim.task_of (VMwareManager.remote w) request) n)
                  = false).
Proof.
  intros c fuel w.
  assert (Hnone : forall e : Py.exc,
             (snd (Py.raise (A:=string) e w) = w /\ fst (Py.raise (A:=string) e w) <> Py.Spinning))
    by (intros e; split; [reflexivity|discriminate]).
  destruct c; simpl;
    unfold VMwareManager.create_vm, VMwareManager.create_vm_custom, VMwareManager.clone_vm,
           VMwareManager.delete_vm, VMwareManager.power_on_vm, VMwareManager.power_off_vm,
           VMwareManager.create_snapshot, VMwareManager.remove_snapshot,
           VMwareManager.revert_snapshot, VMwareManager.remove_all_snapshots;
    try rewrite bind_find_vm_eq;
    try (destruct (Py.next_or_None _ (Vim.view_VirtualMachine (VMwareManager.remote w)))
           as [vm|]; [|left; apply Hnone]).
  - (* create_vm *)
    match goal with
    | |- context [(VMwareManager.datastore_and_network ?d ?n ≫= ?k) w] =>
        destruct (bind_datastore_and_network d n k w) as [[e ->]|[[ds net] ->]]
    end.
    + left. split; [reflexivity|discriminate].
    + right. eexists. apply submit_then_wait.
  - (* create_vm_custom *)
    match goal with
    | |- context [(VMwareManager.datastore_and_network ?d ?n ≫= ?k) w] =>
        destruct (bind_datastore_and_network d n k w) as [[e ->]|[[ds net] ->]]
    end.
    + left. split; [reflexivity|discriminate].
    + right. eexists. apply submit_then_wait.
  - (* clone_vm *)
    right. eexists. apply submit_then_wait.
  - (* delete_vm *)
    right. eexists. apply submit_then_wait.
  - (* power_on_vm *)
    destruct (Vim.PowerState_eqb _ _).
    + left. simpl. split; [reflexivity|discriminate].
    + right. eexists. apply submit_then_wait.
  - (* power_off_vm *)
    destruct (Vim.PowerState_eqb _ _).
    + left. simpl. split; [reflexivity|discriminate].
    + right. eexists. apply submit_then_wait.
  - (* create_snapshot *)
    right. eexists. apply submit_then_wait.
  - (* remove_snapshot *)
    destruct (Vim.vm_snapshot vm) as [roots|]; [|left; apply Hnone].
    destruct (VMwareManager._find_snapshot_by_name roots snapshot_name);
      [|left; apply Hnone].
    right. eexists. apply submit_then_wait.
  - (* revert_snapshot *)
    destruct (Vim.vm_snapshot vm) as [roots|]; [|left; apply Hnone].
    destruct (VMwareManager._find_snapshot_by_name roots snapshot_name);
      [|left; apply Hnone].
    right. eexists. apply submit_then_wait.
  - (* remove_all_snapshots *)
    destruct (Vim.vm_snapshot vm) as [roots|].
    + right. eexists. apply submit_then_wait.
    + left. simpl. split; [reflexivity|discriminate].
Qed.

Lemma mutating_handlers_wait_on_task_state_alone_witness :
  fst (Spec.run_mutating 2 (Spec.call_power_on_vm "db") Sample.world_done) = Py.Spinning
  /\ fst (Spec.run_mutating 3 (Spec.call_power_on_vm "db") Sample.world_done) <> Py.Spinning.
Proof.
  split.
  - destruct (mutating_handlers_wait_on_task_state_alone
                (Spec.call_power_on_vm "db") 2 Sample.world_done)
      as [[Hsame _]|(request & _ & Hspin)].
    + apply (f_equal (fun w => length (Vim.submitted (VMwareManager.remote w)))) in Hsame.
      vm_compute in Hsame. discriminate.
    + apply Hspin. intros [|[|n]] Hn; [reflexivity|reflexivity|lia].
  - destruct (mutating_handlers_wait_on_task_state_alone
                (Spec.call_power_on_vm "db") 3 Sample.world_done)
      as [[_ Hends]|(request & _ & Hspin)]; [exact Hends|].
    intros Hs. pose proof (proj1 Hspin Hs 2%nat ltac:(lia)) as Hterm. discriminate.
Defined.

(** C3, as the spec has it, fails: with a task that stays [running],
    [power_on_vm] is still in its loop after any number of tests, while
    [wait_for_task] on the same task returns the timeout outcome. *)
Lemma mutating_handler_has_no_timeout :
  (forall fuel,
      fst (VMwareManager.power_on_vm fuel "db" Sample.world_stuck) = Py.Spinning)
  /\ snd (VMwareManager.power_on_vm 0 "db" Sample.world_stuck)
     = Spec.with_request (Vim.PowerOnVM_Task Sample.vm_db) Sample.world_stuck
  /\ exists d,
      VMwareManager.wait_for_task 302 Sample.task_stuck Sample.clock_seconds
                                  VMwareManager.default_timeout = Py.Returned d
      /\ Spec.timed_out VMwareManager.default_timeout d.
Proof.
  split; [|split].
  - intros fuel. unfold VMwareManager.power_on_vm. rewrite bind_find_vm_eq.
    change (Py.next_or_None _ _) with (Some Sample.vm_db). cbv beta iota.
    change (Vim.PowerState_eqb _ _) with false. cbv iota.
    apply (proj2 (submit_then_wait fuel _ _ _)). intros n _. reflexivity.
  - reflexivity.
  - eexists. split; [vm_compute; reflexivity|].
    repeat split; try reflexivity. eexists; reflexivity.
Qed.

(* ===================================================================== *)
(** * Further statements                                                  *)
(* ===================================================================== *)

(** ** Lookups by name *)

Section Lookups.
Import Py Vim VMwareManager Spec.

(** What [next_or_None] returns is selected from the first element that is
    selected at all. *)
Lemma next_or_None_first {A B} (select : A -> option B) xs b :
  next_or_None select xs = Some b ->
  exists before x after,
    xs = before ++ x :: after /\ select x = Some b
    /\ forall y, y ∈ before -> select y = None.
Proof.
  induction xs as [|x xs IH]; simpl; [discriminate|].
  destruct (select x) as [b'|] eqn:Hx.
  - intros [= <-]. exists [], x, xs. split; [reflexivity|]. split; [assumption|].
    intros y Hy. inversion Hy.
  - intros H. destruct (IH H) as (before & x' & after & -> & Hsel & Hbefore).
    exists (x :: before), x', after. split; [reflexivity|]. split; [assumption|].
    intros y Hy. apply elem_of_cons in Hy as [->|Hy]; auto.
Qed.

Lemma select_by_name_Some {A} (name_of : A -> string) name x y :
  (if String.eqb (name_of x) name then Some x else None) = Some y <->
  x = y /\ name_of x = name.
Proof.
  destruct (String.eqb (name_of x) name) eqn:Heq.
  - apply String.eqb_eq in Heq. split; [intros [= <-]; auto|intros [-> _]; reflexivity].
  - apply String.eqb_neq in Heq. split; [discriminate|intros [_ ?]; contradiction].
Qed.

Lemma select_by_name_None {A} (name_of : A -> string) name x :
  (if String.eqb (name_of x) name then Some x else None) = None <-> name_of x <> name.
Proof.
  destruct (String.eqb (name_of x) name) eqn:Heq.
  - apply String.eqb_eq in Heq. split; [discriminate|intros; contradiction].
  - apply String.eqb_neq in Heq. split; auto.
Qed.

Lemma no_vm_named name w :
  (forall vm, vm ∈ view_VirtualMachine (remote w) -> vm_name vm <> name) ->
  next_or_None (fun vm => if String.eqb (vm_name vm) name then Some vm else None)
               (view_VirtualMachine (remote w)) = None.
Proof.
  intros H. apply next_or_None_None. intros vm Hvm.
  apply select_by_name_None. auto.
Qed.

End Lookups.

(** X1.  [find_vm] returns the first virtual machine of the inventory view
    whose name is the one asked for, and [None] exactly when no virtual
    machine has that name; it never raises, and the view it creates is
    destroyed again, so the remote side is as before. *)
Theorem find_vm_returns_first_of_that_name :
  forall (name : string) (w : VMwareManager.World),
    snd (VMwareManager.find_vm name w) = w
    /\ match fst (VMwareManager.find_vm name w) with
       | Py.Returned (Some vm) =>
           Vim.vm_name vm = name
           /\ exists before after,
               Vim.view_VirtualMachine (VMwareManager.remote w) = before ++ vm :: after
               /\ forall other, other ∈ before -> Vim.vm_name other <> name
       | Py.Returned None =>
           forall vm, vm ∈ Vim.view_VirtualMachine (VMwareManager.remote w) ->
                      Vim.vm_name vm <> name
       | _ => False
       end.
Proof.
  intros name w. rewrite find_vm_eq. split; [reflexivity|]. simpl.
  destruct (Py.next_or_None _ _) as [vm|] eqn:Hfind.
  - apply next_or_None_first in Hfind as (before & x & after & Hview & Hsel & Hbefore).
    apply (select_by_name_Some Vim.vm_name) in Hsel as [-> Hname].
    split; [assumption|]. exists before, after. split; [assumption|].
    intros other Hother. apply (select_by_name_None Vim.vm_name). auto.
  - intros vm Hvm. apply (select_by_name_None Vim.vm_name).
    apply (proj1 (next_or_None_None _ _) Hfind). assumption.
Qed.

(** X2.  When no virtual machine has the name a handler looks up, the
    handler raises an [Exception] that names it, whatever the other
    arguments are, and nothing reaches the control plane: this holds for
    clone, delete, power on and off and the four snapshot operations, and
    for [list_snapshots]. *)
Theorem missing_vm_raises_before_any_request :
  forall (c : Spec.mutating_call) (fuel : nat) (w : VMwareManager.World)
         (name msg : string),
    Spec.vm_lookup c = Some (name, msg) ->
    (forall vm, vm ∈ Vim.view_VirtualMachine (VMwareManager.remote w) ->
                Vim.vm_name vm <> name) ->
    Spec.run_mutating fuel c w = (Py.Raised (Py.Exception msg), w)
    /\ VMwareManager.list_snapshots name w
       = (Py.Raised (Py.Exception ("VM " +:+ name +:+ " not found")), w).
Proof.
  intros c fuel w name msg Hlookup Hnone.
  pose proof (no_vm_named name w Hnone) as Hfind.
  split.
  - destruct c; simpl in Hlookup; try discriminate; injection Hlookup as <- <-; simpl;
      unfold VMwareManager.clone_vm, VMwareManager.delete_vm, VMwareManager.power_on_vm,
             VMwareManager.power_off_vm, VMwareManager.create_snapshot,
             VMwareManager.remove_snapshot, VMwareManager.revert_snapshot,
             VMwareManager.remove_all_snapshots;
      rewrite bind_find_vm_eq, Hfind; reflexivity.
  - unfold VMwareManager.list_snapshots. rewrite bind_find_vm_eq, Hfind. reflexivity.
Qed.

Lemma missing_vm_raises_before_any_request_witness :
  VMwareManager.delete_vm 7 "mail" Sample.world_done
  = (Py.Raised (Py.Exception "Virtual machine mail not found"), Sample.world_done)
  /\ VMwareManager.list_snapshots "mail" Sample.world_done
     = (Py.Raised (Py.Exception "VM mail not found"), Sample.world_done).
Proof.
  apply (missing_vm_raises_before_any_request
           (Spec.call_delete_vm "mail") 7 Sample.world_done "mail"
           "Virtual machine mail not found" eq_refl).
  intros vm Hvm.
  repeat (apply elem_of_cons in Hvm as [->|Hvm]; [discriminate|]).
  inversion Hvm.
Defined.

(** X3.  [remove_snapshot] and [revert_snapshot] act on the same snapshot
    for the same name: the first node of the tree, in depth-first pre-order,
    that carries the name.  That node's snapshot object is the one the
    request is made on; when no node carries the name both raise the
    "not found" [Exception], and when the virtual machine has no snapshot
    tree both raise "has no snapshots"; in the two failing cases nothing is
    submitted. *)
Theorem remove_and_revert_act_on_first_match :
  forall (fuel : nat) (vm_name snapshot_name : string) (remove_children : bool)
         (w : VMwareManager.World) (vm : Vim.VirtualMachine),
    fst (VMwareManager.find_vm vm_name w) = Py.Returned (Some vm) ->
    match Vim.vm_snapshot vm with
    | None =>
        VMwareManager.remove_snapshot fuel vm_name snapshot_name remove_children w
        = (Py.Raised (Py.Exception ("VM " +:+ vm_name +:+ " has no snapshots")), w)
        /\ VMwareManager.revert_snapshot fuel vm_name snapshot_name w
           = (Py.Raised (Py.Exception ("VM " +:+ vm_name +:+ " has no snapshots")), w)
    | Some roots =>
        match List.find (Spec.named snapshot_name)
                        (map fst (Spec.preorder_forest 0 roots)) with
        | Some node =>
            snd (VMwareManager.remove_snapshot fuel vm_name snapshot_name remove_children w)
            = Spec.with_request
                (Vim.RemoveSnapshot_Task (Vim.snapshot node) remove_children) w
            /\ snd (VMwareManager.revert_snapshot fuel vm_name snapshot_name w)
               = Spec.with_request (Vim.RevertToSnapshot_Task (Vim.snapshot node)) w
        | None =>
            VMwareManager.remove_snapshot fuel vm_name snapshot_name remove_children w
            = (Py.Raised (Py.Exception ("Snapshot '" +:+ snapshot_name
                                        +:+ "' not found on VM '" +:+ vm_name +:+ "'")), w)
            /\ VMwareManager.revert_snapshot fuel vm_name snapshot_name w
               = (Py.Raised (Py.Exception ("Snapshot '" +:+ snapshot_name
                                           +:+ "' not found on VM '" +:+ vm_name +:+ "'")), w)
        end
    end.
Proof.
  intros fuel vm_name snapshot_name remove_children w vm Hvm.
  unfold VMwareManager.remove_snapshot, VMwareManager.revert_snapshot.
  rewrite !(bind_find_vm _ _ _ _ Hvm).
  destruct (Vim.vm_snapshot vm) as [roots|]; [|split; reflexivity].
  rewrite <- (find_forest_preorder snapshot_name roots 0).
  destruct (VMwareManager._find_snapshot_by_name roots snapshot_name) as [node|];
    [|split; reflexivity].
  split; apply submit_then_wait_state; reflexivity.
Qed.

Lemma remove_and_revert_act_on_first_match_witness :
  snd (VMwareManager.remove_snapshot 4 "db" "C" true Sample.world_done)
  = Spec.with_request (Vim.RemoveSnapshot_Task "snapshot-3" true) Sample.world_done
  /\ snd (VMwareManager.revert_snapshot 4 "db" "C" Sample.world_done)
     = Spec.with_request (Vim.RevertToSnapshot_Task "snapshot-3") Sample.world_done.
Proof.
  exact (remove_and_revert_act_on_first_match 4 "db" "C" true Sample.world_done
                                              Sample.vm_db eq_refl).
Defined.

(** ** What a handler makes of its task *)

Section HandlerOutcome.
Import Py Vim VMwareManager Spec.

Lemma busy_wait_first task k fuel : forall reads,
  (reads <= k < reads + fuel)%nat ->
  (forall n, (reads <= n < k)%nat -> terminal (info_state task n) = false) ->
  terminal (info_state task k) = true ->
  busy_wait fuel task reads = Some (S k).
Proof.
  induction fuel as [|fuel IH]; intros reads Hk Hbefore Hterm; [lia|]. simpl.
  destruct (Nat.eq_dec reads k) as [->|Hne].
  - rewrite Hterm. reflexivity.
  - rewrite (Hbefore reads) by lia. apply IH; [lia| |assumption].
    intros n Hn. apply Hbefore. lia.
Qed.

Lemma with_request_inj request request' w :
  with_request request w = with_request request' w -> request = request'.
Proof.
  intros H. apply (f_equal (fun w => submitted (remote w))) in H. simpl in H.
  apply app_inj_tail in H as [_ H]. assumption.
Qed.

Lemma with_request_changes request w : with_request request w <> w.
Proof.
  intros H. apply (f_equal (fun w => length (submitted (remote w)))) in H. simpl in H.
  rewrite length_app in H. simpl in H. lia.
Qed.

(** The end of every mutating handler, once the task shows a terminal state
    for the first time at read [k]: the state is read once more, and decides
    between the task's fault and the handler's message. *)
Lemma submit_then_wait_outcome fuel request (msg : string) w k :
  (k < fuel)%nat ->
  (forall n, (n < k)%nat -> terminal (info_state (task_of (remote w) request) n) = false) ->
  terminal (info_state (task_of (remote w) request) k) = true ->
  fst ((submit request ≫= fun task =>
        wait_in_handler fuel task ≫= fun _ => (mret msg : M World string)) w)
  = if TaskInfoState_eqb (info_state (task_of (remote w) request) (S k)) error
    then match info_error (task_of (remote w) request) with
         | Some fault => Raised (MethodFault fault)
         | None => Raised (TypeError "exceptions must derive from BaseException")
         end
    else Returned msg.
Proof.
  intros Hk Hbefore Hterm.
  unfold mbind, M_bind, submit, wait_in_handler, raise_task_error, raise, mret, M_ret.
  rewrite (busy_wait_first _ k fuel 0) by (try assumption; try lia; intros; apply Hbefore; lia).
  destruct (TaskInfoState_eqb _ _); simpl; [|reflexivity].
  destruct (info_error _); reflexivity.
Qed.

(** The same, for a handler whose state afterwards shows which request it
    made. *)
Lemma tail_outcome fuel request' (msg : string) w request k :
  snd ((submit request' ≫= fun task =>
        wait_in_handler fuel task ≫= fun _ => (mret msg : M World string)) w)
  = with_request request w ->
  (k < fuel)%nat ->
  (forall n, (n < k)%nat -> terminal (info_state (task_of (remote w) request) n) = false) ->
  terminal (info_state (task_of (remote w) request) k) = true ->
  fst ((submit request' ≫= fun task =>
        wait_in_handler fuel task ≫= fun _ => (mret msg : M World string)) w)
  = if TaskInfoState_eqb (info_state (task_of (remote w) request) (S k)) error
    then match info_error (task_of (remote w) request) with
         | Some fault => Raised (MethodFault fault)
         | None => Raised (TypeError "exceptions must derive from BaseException")
         end
    else Returned msg.
Proof.
  intros Hsnd. rewrite (proj1 (submit_then_wait fuel request' msg w)) in Hsnd.
  apply with_request_inj in Hsnd as ->. apply submit_then_wait_outcome.
Qed.

End HandlerOutcome.

(** X4.  A mutating handler that has submitted its request reports what the
    task comes to.  Once the task first shows [success] or [error] the
    handler reads the state once more: if that is [error] it raises the
    task's own fault, unchanged (a [TypeError] if the failed task carries no
    fault); otherwise it returns its confirmation text. *)
Theorem mutating_handlers_report_the_task :
  forall (c : Spec.mutating_call) (fuel : nat) (w : VMwareManager.World)
         (request : Vim.TaskRequest) (k : nat),
    snd (Spec.run_mutating fuel c w) = Spec.with_request request w ->
    (k < fuel)%nat ->
    (forall n, (n < k)%nat ->
       VMwareManager.terminal
         (Vim.info_state (Vim.task_of (VMwareManager.remote w) request) n) = false) ->
    VMwareManager.terminal
      (Vim.info_state (Vim.task_of (VMwareManager.remote w) request) k) = true ->
    fst (Spec.run_mutating fuel c w)
    = if Vim.TaskInfoState_eqb
           (Vim.info_state (Vim.task_of (VMwareManager.remote w) request) (S k)) Vim.error
      then match Vim.info_error (Vim.task_of (VMwareManager.remote w) request) with
           | Some fault => Py.Raised (Py.MethodFault fault)
           | None => Py.Raised (Py.TypeError "exceptions must derive from BaseException")
           end
      else Py.Returned (Spec.success_message c).
Proof.
  intros c fuel w request k Hsnd Hk Hbefore Hterm.
  assert (Hsame : forall o : Py.outcome string,
             snd (o, w) = Spec.with_request request w -> False).
  { intros o H. symmetry in H. exact (with_request_changes _ _ H). }
  revert Hsnd.
  destruct c; simpl;
    unfold VMwareManager.create_vm, VMwareManager.create_vm_custom, VMwareManager.clone_vm,
           VMwareManager.delete_vm, VMwareManager.power_on_vm, VMwareManager.power_off_vm,
           VMwareManager.create_snapshot, VMwareManager.remove_snapshot,
           VMwareManager.revert_snapshot, VMwareManager.remove_all_snapshots;
    try rewrite bind_find_vm_eq;
    try (destruct (Py.next_or_None _ (Vim.view_VirtualMachine (VMwareManager.remote w)))
           as [vm|]; [|intros H; destruct (Hsame _ H)]);
    try match goal with
        | |- context [(VMwareManager.datastore_and_network ?d ?n ≫= ?f) w] =>
            destruct (bind_datastore_and_network d n f w) as [[e ->]|[[ds net] ->]];
            [intros H; destruct (Hsame _ H)|]
        end;
    try (destruct (Vim.PowerState_eqb _ _); [intros H; destruct (Hsame _ H)|]);
    try (destruct (Vim.vm_snapshot vm) as [roots|]; [|intros H; destruct (Hsame _ H)]);
    try (destruct (VMwareManager._find_snapshot_by_name roots snapshot_name);
         [|intros H; destruct (Hsame _ H)]);
    try (intros Hsnd; apply (tail_outcome _ _ _ _ _ _ Hsnd); assumption).
Qed.

Lemma mutating_handlers_report_the_task_witness :
  fst (VMwareManager.power_on_vm 5 "db" Sample.world_done)
  = Py.Returned "VM 'db' powered on."
  /\ fst (VMwareManager.power_on_vm 5 "db" Sample.world_failing)
     = Py.Raised (Py.MethodFault "vim.fault.InvalidPowerState").
Proof.
  split.
  - apply (mutating_handlers_report_the_task
             (Spec.call_power_on_vm "db") 5 Sample.world_done
             (Vim.PowerOnVM_Task Sample.vm_db) 2 eq_refl); [lia| |reflexivity].
    intros [|[|n]] Hn; [reflexivity|reflexivity|lia].
  - apply (mutating_handlers_report_the_task
             (Spec.call_power_on_vm "db") 5 Sample.world_failing
             (Vim.PowerOnVM_Task Sample.vm_db) 1 eq_refl); [lia| |reflexivity].
    intros [|n] Hn; [reflexivity|lia].
Defined.

(** ** [wait_for_task] on any task *)

Section TaskWaitOutcomes.
Import Py Vim VMwareManager Spec.
Variable task : Task.
Variable clock : nat -> Q.
Variable timeout : Z.

(** The loop raises nothing, and what it returns carries one of three
    statuses. *)
Lemma wait_for_task_loop_status fuel : forall start reads ticks,
  match wait_for_task_loop fuel task clock start timeout reads ticks with
  | Returned d =>
      d !! "status" = Some (Some "success")
      \/ d !! "status" = Some (Some "error")
      \/ d !! "status" = Some (Some "timeout")
  | Raised _ => False
  | Spinning => True
  end.
Proof.
  induction fuel as [|fuel IH]; intros start reads ticks; simpl; [exact I|].
  destruct (terminal (info_state task reads)).
  - destruct (TaskInfoState_eqb _ _); [left|right; left]; reflexivity.
  - destruct (Qlt_le_dec _ _); [right; right; reflexivity|apply IH].
Qed.

(** Past the deadline the loop is left, whatever the task does. *)
Lemma wait_for_task_loop_returns start m : forall reads,
  (inject_Z timeout < clock (S (reads + m)) - start)%Q ->
  exists d, wait_for_task_loop (S m) task clock start timeout reads (S reads) = Returned d.
Proof.
  induction m as [|m IH]; intros reads Hpast.
  - rewrite Nat.add_0_r in Hpast. simpl.
    destruct (terminal (info_state task reads)).
    + destruct (TaskInfoState_eqb _ _); eexists; reflexivity.
    + destruct (Qlt_le_dec _ _) as [_|Hle]; [eexists; reflexivity|lra].
  - cbn [wait_for_task_loop].
    destruct (terminal (info_state task reads)).
    + destruct (TaskInfoState_eqb _ _); eexists; reflexivity.
    + destruct (Qlt_le_dec _ _) as [_|Hle]; [eexists; reflexivity|].
      apply IH. replace (S reads + m)%nat with (reads + S m)%nat by lia. assumption.
Qed.

(** A task that is terminal at read [k], with every earlier test of the
    loop inside the timeout, is reported from its next read. *)
Lemma wait_for_task_loop_terminal start k : forall reads,
  (forall n, (reads <= n < reads + k)%nat ->
             terminal (info_state task n) = false
             /\ (clock (S n) - start <= inject_Z timeout)%Q) ->
  terminal (info_state task (reads + k)) = true ->
  wait_for_task_loop (S k) task clock start timeout reads (S reads)
  = if TaskInfoState_eqb (info_state task (S (reads + k))) success then
      Returned (<["status" := Some "success"]>
                (<["message" := Some "Task completed successfully"]>
                (<["result" := info_result task]> ∅)))
    else
      Returned (<["status" := Some "error"]>
                (<["message" := Some (default "Unknown error" (info_error task))]>
                (<["error" := info_error task]> ∅))).
Proof.
  induction k as [|k IH]; intros reads Hbefore Hterm.
  - rewrite Nat.add_0_r in *. simpl. rewrite Hterm. reflexivity.
  - cbn [wait_for_task_loop].
    destruct (Hbefore reads) as [-> Hin]; [lia|].
    destruct (Qlt_le_dec _ _) as [Hlt|_]; [lra|].
    replace (reads + S k)%nat with (S reads + k)%nat in * by lia.
    apply IH; [|assumption]. intros n Hn. apply Hbefore. lia.
Qed.

End TaskWaitOutcomes.


(** X6.  [wait_for_task] always comes back: each [time.sleep(1)] taking at
    least a second, for every task and every timeout there is a number of
    polls after which the call has returned, and the result does not depend
    on how much longer it would have been allowed to run. *)
Theorem wait_for_task_always_returns :
  forall (task : Vim.Task) (clock : nat -> Q) (timeout : Z),
    (forall n, (clock (S n) + 1 <= clock (S (S n)))%Q) ->
    exists fuel d,
      forall fuel', (fuel <= fuel')%nat ->
                    VMwareManager.wait_for_task fuel' task clock timeout = Py.Returned d.
Proof.
  intros task clock timeout Hsleep.
  destruct (deadline_is_reached clock timeout Hsleep) as [m Hm].
  destruct (wait_for_task_loop_returns task clock timeout (clock O) m O Hm) as [d Hd].
  exists (S m), d. intros fuel' Hfuel. unfold VMwareManager.wait_for_task.
  apply (wait_for_task_loop_enough task clock timeout (S m)); assumption.
Qed.

Lemma wait_for_task_always_returns_witness :
  exists fuel d,
    forall fuel', (fuel <= fuel')%nat ->
                  VMwareManager.wait_for_task fuel' Sample.task_failed Sample.clock_seconds 60
                  = Py.Returned d.
Proof.
  apply (wait_for_task_always_returns Sample.task_failed Sample.clock_seconds 60).
  intros n. unfold Sample.clock_seconds. cbn [Nat.pred].
  rewrite (Nat2Z.inj_succ n). unfold Z.succ. rewrite inject_Z_plus.
  change (inject_Z 1) with 1%Q. lra.
Defined.



(** ** Startup: defaults and failures *)

Section StartupDefaults.
Import Py Vim VMwareManager Spec.

Lemma select_Datacenter_any e dc :
  select_Datacenter (fun _ => true) e = Some dc <-> e = RootFolder_Datacenter dc.
Proof.
  destruct e as [dc'|n]; simpl; split; try discriminate; intros [= ->]; reflexivity.
Qed.

Lemma select_Datacenter_none e :
  select_Datacenter (fun _ => true) e = None <-> exists name, e = RootFolder_Folder name.
Proof.
  destruct e as [dc'|n]; simpl; split; try discriminate; eauto.
  intros [? ?]; discriminate.
Qed.

Lemma select_ComputeResource_any e cr :
  select_ComputeResource (fun _ => true) e = Some cr <-> e = HostFolder_ComputeResource cr.
Proof.
  destruct e as [cr'|n]; simpl; split; try discriminate; intros [= ->]; reflexivity.
Qed.

Lemma select_ComputeResource_none e :
  select_ComputeResource (fun _ => true) e = None <-> exists name, e = HostFolder_Folder name.
Proof.
  destruct e as [cr'|n]; simpl; split; try discriminate; eauto.
  intros [? ?]; discriminate.
Qed.

(** Python's [max]: the result splits the list into items with a strictly
    smaller key before it and items with a key not greater after it. *)
Lemma max_by_first {A} (key : A -> Z) xs : forall best,
  exists before after,
    best :: xs = before ++ max_by key best xs :: after
    /\ (forall y, y ∈ before -> key y < key (max_by key best xs))
    /\ (forall y, y ∈ after -> key y <= key (max_by key best xs)).
Proof.
  induction xs as [|y xs IH]; intros best.
  - exists [], []. simpl. split; [reflexivity|]. split; intros y Hy; inversion Hy.
  - simpl. destruct (Z.ltb_spec (key best) (key y)) as [Hlt|Hle].
    + destruct (IH y) as (before & after & Hsplit & Hbefore & Hafter).
      exists (best :: before), after. split; [simpl; rewrite <- Hsplit; reflexivity|].
      split; [|assumption].
      intros z Hz. apply elem_of_cons in Hz as [->|Hz]; [|auto].
      pose proof (proj2 (max_by_spec key xs y) y (list_elem_of_here _ _)). lia.
    + destruct (IH best) as (before & after & Hsplit & Hbefore & Hafter).
      destruct before as [|b before]; simpl in Hsplit.
      * injection Hsplit as Hbest Hxs. exists [], (y :: xs).
        split; [simpl; rewrite <- Hbest; reflexivity|].
        split; [intros z Hz; inversion Hz|].
        intros z Hz. apply elem_of_cons in Hz as [->|Hz].
        -- rewrite <- Hbest. assumption.
        -- apply Hafter. rewrite <- Hxs. assumption.
      * injection Hsplit as Hb Hxs. subst b. exists (best :: y :: before), after.
        split; [simpl; rewrite <- Hxs; reflexivity|]. split; [|assumption].
        pose proof (Hbefore best (list_elem_of_here _ _)) as Hbest.
        intros z Hz. apply elem_of_cons in Hz as [->|Hz]; [assumption|].
        apply elem_of_cons in Hz as [->|Hz]; [lia|].
        apply Hbefore. right. assumption.
Qed.

End StartupDefaults.

(** X8.  An unnamed target defaults to the first one found: with no
    datacenter configured the manager binds the first datacenter of the
    root folder, with no cluster configured the resource pool of the first
    compute resource of the datacenter's host folder (a cluster or a
    standalone host), only folders coming before either; with no network
    configured no network is bound, and that is not an error. *)
Theorem unnamed_targets_default_to_first_found :
  forall (config : VMwareManager.Config) (a : bool) (endpoint : Vim.Endpoint)
         (w : VMwareManager.World),
    VMwareManager._connect_vcenter config a endpoint = Py.Returned w ->
    let dc := VMwareManager.datacenter_obj (VMwareManager.self w) in
    (Py.if_set (VMwareManager.datacenter config) = None ->
     exists before after,
       Vim.rootFolder_childEntity (VMwareManager.remote w)
       = before ++ Vim.RootFolder_Datacenter dc :: after
       /\ forall e, e ∈ before -> exists name, e = Vim.RootFolder_Folder name)
    /\ (Py.if_set (VMwareManager.cluster config) = None ->
        exists cr before after,
          Vim.hostFolder_childEntity dc = before ++ Vim.HostFolder_ComputeResource cr :: after
          /\ VMwareManager.resource_pool (VMwareManager.self w) = Vim.cr_resourcePool cr
          /\ forall e, e ∈ before -> exists name, e = Vim.HostFolder_Folder name)
    /\ (Py.if_set (VMwareManager.network config) = None ->
        VMwareManager.network_obj (VMwareManager.self w) = None).
Proof.
  intros config a endpoint w Hw dc.
  apply _connect_vcenter_Returned in Hw as (_ & Hdc & Hrp & _ & Hnet & _).
  fold dc in Hdc, Hrp, Hnet. split; [|split].
  - intros Hunset. unfold VMwareManager.resolve_datacenter in Hdc. rewrite Hunset in Hdc.
    simpl in Hdc.
    destruct (Py.next_or_None _ _) as [dc'|] eqn:Hnext; [|discriminate].
    injection Hdc as ->.
    apply next_or_None_first in Hnext as (before & x & after & Hsplit & Hsel & Hbefore).
    apply select_Datacenter_any in Hsel as ->.
    exists before, after. split; [assumption|].
    intros e He. apply select_Datacenter_none. auto.
  - intros Hunset. unfold VMwareManager.resolve_resource_pool in Hrp. rewrite Hunset in Hrp.
    simpl in Hrp.
    destruct (Py.next_or_None _ _) as [cr|] eqn:Hnext; [|discriminate].
    injection Hrp as Hrp.
    apply next_or_None_first in Hnext as (before & x & after & Hsplit & Hsel & Hbefore).
    apply select_ComputeResource_any in Hsel as ->.
    exists cr, before, after. split; [assumption|]. split; [auto|].
    intros e He. apply select_ComputeResource_none. auto.
  - intros Hunset. unfold VMwareManager.resolve_network in Hnet. rewrite Hunset in Hnet.
    injection Hnet as <-. reflexivity.
Qed.

Lemma unnamed_targets_default_to_first_found_witness :
  (exists before after,
      Vim.rootFolder_childEntity
        (VMwareManager.remote
           (Sample.world_with Sample.config_defaults false (fun _ => Sample.task_done)))
      = before ++ Vim.RootFolder_Datacenter Sample.dc_1 :: after
      /\ forall e, e ∈ before -> exists name, e = Vim.RootFolder_Folder name)
  /\ VMwareManager.network_obj
       (VMwareManager.self
          (Sample.world_with Sample.config_defaults false (fun _ => Sample.task_done)))
     = None.
Proof.
  destruct (unnamed_targets_default_to_first_found
              Sample.config_defaults false Sample.endpoint_1
              (Sample.world_with Sample.config_defaults false (fun _ => Sample.task_done))
              eq_refl) as (Hdc & _ & Hnet).
  split; [exact (Hdc eq_refl)|exact (Hnet eq_refl)].
Defined.

(** X9.  Among datastores with the same, largest free space the default is
    the first one: every datastore of the folder before the one bound has
    strictly less free space, every one after it has no more. *)
Theorem default_datastore_is_first_of_the_largest :
  forall (config : VMwareManager.Config) (a : bool) (endpoint : Vim.Endpoint)
         (w : VMwareManager.World),
    Py.if_set (VMwareManager.datastore config) = None ->
    VMwareManager._connect_vcenter config a endpoint = Py.Returned w ->
    let chosen := VMwareManager.datastore_obj (VMwareManager.self w) in
    exists before after,
      omap (VMwareManager.select_Datastore (fun _ => true))
           (Vim.datastoreFolder_childEntity
              (VMwareManager.datacenter_obj (VMwareManager.self w)))
      = before ++ chosen :: after
      /\ (forall ds, ds ∈ before ->
                     Vim.ds_summary_freeSpace ds < Vim.ds_summary_freeSpace chosen)
      /\ (forall ds, ds ∈ after ->
                     Vim.ds_summary_freeSpace ds <= Vim.ds_summary_freeSpace chosen).
Proof.
  intros config a endpoint w Hunset Hw chosen.
  apply _connect_vcenter_Returned in Hw as (_ & _ & _ & Hds & _).
  unfold VMwareManager.resolve_datastore in Hds. rewrite Hunset in Hds.
  destruct (omap _ _) as [|first rest]; [discriminate|].
  injection Hds as Hds. fold chosen in Hds. rewrite <- Hds.
  apply max_by_first.
Qed.

Lemma default_datastore_is_first_of_the_largest_witness :
  exists before after,
    [Sample.ds_a; Sample.ds_b; Sample.ds_c] = before ++ Sample.ds_b :: after
    /\ (forall ds, ds ∈ before ->
                   Vim.ds_summary_freeSpace ds < Vim.ds_summary_freeSpace Sample.ds_b)
    /\ (forall ds, ds ∈ after ->
                   Vim.ds_summary_freeSpace ds <= Vim.ds_summary_freeSpace Sample.ds_b).
Proof.
  exact (default_datastore_is_first_of_the_largest
           Sample.config_defaults false Sample.endpoint_1
           (Sample.world_with Sample.config_defaults false (fun _ => Sample.task_done))
           eq_refl eq_refl).
Defined.

(** X10.  Startup fails, and no manager comes to exist, when the session
    cannot be opened (the exception of the connection attempt is raised as
    it is) and when a required target has no candidate at all: no datacenter
    in the root folder, no compute resource in the datacenter's host
    folder, no datastore in its datastore folder. *)
Theorem startup_fails_without_session_or_candidates :
  forall (config : VMwareManager.Config) (a : bool) (endpoint : Vim.Endpoint),
    (forall e, VMwareManager.connect config endpoint = Py.Raised e ->
               VMwareManager._connect_vcenter config a endpoint = Py.Raised e)
    /\ (forall content,
        VMwareManager.connect config endpoint = Py.Returned content ->
        (Py.if_set (VMwareManager.datacenter config) = None ->
         (forall dc, Vim.RootFolder_Datacenter dc ∉ Vim.rootFolder_childEntity content) ->
         VMwareManager._connect_vcenter config a endpoint
         = Py.Raised (Py.Exception "No datacenter object found"))
        /\ (forall dc,
            VMwareManager.resolve_datacenter config content = Py.Returned dc ->
            (Py.if_set (VMwareManager.cluster config) = None ->
             (forall cr, Vim.HostFolder_ComputeResource cr ∉ Vim.hostFolder_childEntity dc) ->
             VMwareManager._connect_vcenter config a endpoint
             = Py.Raised (Py.Exception "No compute resource (cluster or host) found"))
            /\ (forall rp,
                VMwareManager.resolve_resource_pool config dc = Py.Returned rp ->
                Py.if_set (VMwareManager.datastore config) = None ->
                (forall ds, Vim.DatastoreFolder_Datastore ds
                              ∉ Vim.datastoreFolder_childEntity dc) ->
                VMwareManager._connect_vcenter config a endpoint
                = Py.Raised (Py.Exception "No available datastore found in the datacenter")))).
Proof.
  intros config a endpoint. split.
  - intros e He. unfold VMwareManager._connect_vcenter, mbind, Py.outcome_bind.
    rewrite He. reflexivity.
  - intros content Hcon. split.
    + intros Hunset Hnone.
      unfold VMwareManager._connect_vcenter, mbind, Py.outcome_bind. rewrite Hcon.
      unfold VMwareManager.resolve_datacenter. rewrite Hunset. simpl.
      assert (Hn : Py.next_or_None (VMwareManager.select_Datacenter (fun _ => true))
                                   (Vim.rootFolder_childEntity content) = None).
      { apply next_or_None_None. intros e He.
        destruct e as [dc|n]; [destruct (Hnone dc He)|reflexivity]. }
      rewrite Hn. reflexivity.
    + intros dc Hdc. split.
      * intros Hunset Hnone.
        unfold VMwareManager._connect_vcenter, mbind, Py.outcome_bind. rewrite Hcon, Hdc.
        unfold VMwareManager.resolve_resource_pool. rewrite Hunset. simpl.
        assert (Hn : Py.next_or_None (VMwareManager.select_ComputeResource (fun _ => true))
                                     (Vim.hostFolder_childEntity dc) = None).
        { apply next_or_None_None. intros e He.
          destruct e as [cr|n]; [destruct (Hnone cr He)|reflexivity]. }
        rewrite Hn. reflexivity.
      * intros rp Hrp Hunset Hnone.
        unfold VMwareManager._connect_vcenter, mbind, Py.outcome_bind.
        rewrite Hcon, Hdc, Hrp.
        unfold VMwareManager.resolve_datastore. rewrite Hunset.
        assert (Hn : omap (VMwareManager.select_Datastore (fun _ => true))
                          (Vim.datastoreFolder_childEntity dc) = []).
        { destruct (omap _ _) as [|ds rest] eqn:Hall; [reflexivity|].
          assert (Hin : ds ∈ omap (VMwareManager.select_Datastore (fun _ => true))
                                  (Vim.datastoreFolder_childEntity dc))
            by (rewrite Hall; left).
          apply list_elem_of_omap in Hin as (e & He & Hsel).
          apply select_Datastore_Some in Hsel as [-> _]. destruct (Hnone ds He). }
        rewrite Hn. reflexivity.
Qed.

Lemma startup_fails_without_session_or_candidates_witness :
  VMwareManager._connect_vcenter Sample.config_defaults false Sample.endpoint_refusing
  = Py.Raised (Py.MethodFault "vim.fault.InvalidLogin")
  /\ VMwareManager._connect_vcenter Sample.config_defaults false Sample.endpoint_empty
     = Py.Raised (Py.Exception "No datacenter object found").
Proof.
  split.
  - exact (proj1 (startup_fails_without_session_or_candidates
                    Sample.config_defaults false Sample.endpoint_refusing) _ eq_refl).
  - apply (proj1 (proj2 (startup_fails_without_session_or_candidates
                           Sample.config_defaults false Sample.endpoint_empty)
                        Sample.remote_empty eq_refl)); [reflexivity|].
    intros dc Hdc. apply list_elem_of_singleton in Hdc. discriminate.
Defined.

(** ** The gate at startup and without a key *)

(** X11.  Startup leaves the authentication flag false, so a manager that
    has just been built with an API key configured rejects every handler of
    [ToolHandlers]: each raises the Unauthorized error and reaches neither
    the manager's method nor the remote side. *)
Theorem every_tool_is_rejected_after_startup_with_a_key :
  forall (result : Type)
         (manager : string -> list Tools.value -> Py.M VMwareManager.World result)
         (config : VMwareManager.Config) (endpoint : Vim.Endpoint)
         (w : VMwareManager.World) (t : Tools.tool) (args : list Tools.value),
    VMwareManager.__init__ config endpoint = Py.Returned w ->
    Py.truthy (VMwareManager.api_key config) = true ->
    VMwareManager.authenticated (VMwareManager.self w) = false
    /\ Tools.handler manager config t args w
       = (Py.Raised (Py.Exception "Unauthorized: API key required."), w).
Proof.
  intros result manager config endpoint w t args Hinit Hkey.
  apply _connect_vcenter_Returned in Hinit as (_ & _ & _ & _ & _ & _ & Hflag).
  split; [assumption|].
  unfold Tools.handler, mbind, Py.M_bind.
  rewrite (_check_auth_closed config w Hkey Hflag). reflexivity.
Qed.

Lemma every_tool_is_rejected_after_startup_with_a_key_witness :
  Tools.handler Sample.echo_manager Sample.config_key Tools.delete_vm [Tools.str_ "web"]
                (Sample.world_with Sample.config_key false (fun _ => Sample.task_done))
  = (Py.Raised (Py.Exception "Unauthorized: API key required."),
     Sample.world_with Sample.config_key false (fun _ => Sample.task_done)).
Proof.
  exact (proj2 (every_tool_is_rejected_after_startup_with_a_key
                  string Sample.echo_manager Sample.config_key Sample.endpoint_1
                  (Sample.world_with Sample.config_key false (fun _ => Sample.task_done))
                  Tools.delete_vm [Tools.str_ "web"] eq_refl eq_refl)).
Defined.

(** X12.  Without an API key there is no gate: when the configured key is
    absent, or is the empty string, every handler is the manager's method,
    whatever the authentication flag is. *)
Theorem no_key_means_no_gate :
  forall (result : Type)
         (manager : string -> list Tools.value -> Py.M VMwareManager.World result)
         (config : VMwareManager.Config) (t : Tools.tool) (args : list Tools.value)
         (w : VMwareManager.World),
    VMwareManager.api_key config = None \/ VMwareManager.api_key config = Some "" ->
    Tools.handler manager config t args w = manager (Tools.manager_method t) args w.
Proof.
  intros result manager config t args w Hkey.
  unfold Tools.handler, mbind, Py.M_bind.
  rewrite _check_auth_open; [reflexivity|].
  left. destruct Hkey as [-> | ->]; reflexivity.
Qed.

Lemma no_key_means_no_gate_witness :
  Tools.handler Sample.echo_manager
                (Sample.config_with None None None None (Some ""))
                Tools.delete_vm [Tools.str_ "web"] Sample.world_done
  = (Py.Returned "delete_vm", Sample.world_done).
Proof.
  exact (no_key_means_no_gate string Sample.echo_manager
                              (Sample.config_with None None None None (Some ""))
                              Tools.delete_vm [Tools.str_ "web"] Sample.world_done
                              (or_intror eq_refl)).
Defined.

(** ** Creating a virtual machine *)

Section CreateVm.
Import Py Vim VMwareManager Spec.

Lemma bind_M_eq {A B} (m : M World A) (k : A -> M World B) w :
  (m ≫= k) w
  = match m w with
    | (Returned a, w') => k a w'
    | (Raised e, w') => (Raised e, w')
    | (Spinning, w') => (Spinning, w')
    end.
Proof. reflexivity. Qed.

(** The message of a handler has no part in what it submits or in how its
    wait ends. *)
Lemma tail_message_irrelevant fuel request (msg msg' : string) w :
  let run := fun m : string =>
    (submit request ≫= fun task =>
     wait_in_handler fuel task ≫= fun _ => (mret m : M World string)) w in
  snd (run msg) = snd (run msg')
  /\ without_result (fst (run msg)) = without_result (fst (run msg')).
Proof.
  cbv zeta. unfold mbind, M_bind, submit, wait_in_handler, raise_task_error, spin, raise,
    mret, M_ret.
  destruct (busy_wait _ _ _); simpl; [|split; reflexivity].
  destruct (TaskInfoState_eqb _ _); simpl; [|split; reflexivity].
  destruct (info_error _); split; reflexivity.
Qed.

(** What the first block of the create functions returns. *)
Lemma datastore_and_network_Returned datastore network w ds net w' :
  datastore_and_network datastore network w = (Returned (ds, net), w') ->
  w' = w
  /\ match if_set datastore with
     | Some name =>
         ds_name ds = name
         /\ DatastoreFolder_Datastore ds ∈ datastoreFolder_childEntity (datacenter_obj (self w))
     | None => ds = datastore_obj (self w)
     end
  /\ match if_set network with
     | Some name =>
         exists x, net = Some x /\ net_name x = name
                   /\ x ∈ networkFolder_childEntity (datacenter_obj (self w))
     | None => net = network_obj (self w)
     end.
Proof.
  unfold datastore_and_network, mbind, M_bind, get, raise, mret, M_ret.
  assert (Hnet : forall d : Datastore,
    match
      match if_set network with
      | Some network0 =>
          match next_or_None (select_named_Network network0)
                  (networkFolder_childEntity (datacenter_obj (self w))) with
          | Some net0 => fun s : World => (Returned (Some net0), s)
          | None => fun s : World =>
              (Raised (Exception ("Specified network " +:+ network0 +:+ " not found")), s)
          end
      | None => fun s : World => (Returned (network_obj (self w)), s)
      end w
    with
    | (Returned a, s') => (Returned (d, a), s')
    | (Raised e, s') => (Raised e, s')
    | (Spinning, s') => (Spinning, s')
    end = (Returned (ds, net), w') ->
    d = ds /\ w' = w
    /\ match if_set network with
       | Some name =>
           exists x, net = Some x /\ net_name x = name
                     /\ x ∈ networkFolder_childEntity (datacenter_obj (self w))
       | None => net = network_obj (self w)
       end).
  { intros d. destruct (if_set network) as [n|].
    - destruct (next_or_None _ _) as [x|] eqn:Hx; [|discriminate].
      intros [= -> <- <-]. split; [reflexivity|]. split; [reflexivity|].
      apply next_or_None_Some in Hx as (y & Hy & Hsel). unfold select_named_Network in Hsel.
      apply (select_by_name_Some net_name) in Hsel as [-> Hname]. eauto.
    - intros [= -> <- <-]. auto. }
  simpl. destruct (if_set datastore) as [n|]; simpl.
  - destruct (next_or_None _ _) as [d|] eqn:Hd; simpl; [|discriminate].
    intros H. apply Hnet in H as (-> & -> & H). split; [reflexivity|]. split; [|assumption].
    apply next_or_None_Some in Hd as (e & He & Hsel).
    apply select_Datastore_Some in Hsel as [-> Heq]. apply String.eqb_eq in Heq. auto.
  - intros H. apply Hnet in H as (-> & -> & H). auto.
Qed.

Lemma datastore_and_network_missing_datastore datastore network w name :
  if_set datastore = Some name ->
  (forall ds, DatastoreFolder_Datastore ds ∈ datastoreFolder_childEntity (datacenter_obj (self w)) ->
              ds_name ds <> name) ->
  datastore_and_network datastore network w
  = (Raised (Exception ("Specified datastore " +:+ name +:+ " not found")), w).
Proof.
  intros Hname Hnone. unfold datastore_and_network, mbind, M_bind, get, raise. simpl.
  rewrite Hname.
  assert (Hn : next_or_None (select_Datastore (fun ds => String.eqb (ds_name ds) name))
                            (datastoreFolder_childEntity (datacenter_obj (self w))) = None).
  { apply next_or_None_None. intros e He. destruct e as [ds|other]; [|reflexivity].
    simpl. rewrite (proj2 (String.eqb_neq _ _) (Hnone ds He)). reflexivity. }
  rewrite Hn. reflexivity.
Qed.

End CreateVm.

(** X13.  [create_vm] is [create_vm_custom] with a 10 GB thin disk, guest
    "otherGuest" and no annotation: for the same name, CPUs, memory,
    datastore and network the two leave the manager and the remote side in
    the same state (the same request, if any, has been submitted) and end
    the same way (both return, both raise the same exception, or both are
    still waiting); only the text returned differs. *)
Theorem create_vm_is_create_vm_custom_with_defaults :
  forall (fuel : nat) (name : string) (cpus memory_mb : Z)
         (datastore network : option string) (w : VMwareManager.World),
    snd (VMwareManager.create_vm fuel name cpus memory_mb datastore network w)
    = snd (VMwareManager.create_vm_custom fuel name cpus memory_mb 10 "otherGuest"
                                          datastore network true None w)
    /\ Spec.without_result
         (fst (VMwareManager.create_vm fuel name cpus memory_mb datastore network w))
       = Spec.without_result
           (fst (VMwareManager.create_vm_custom fuel name cpus memory_mb 10 "otherGuest"
                                                datastore network true None w)).
Proof.
  intros fuel name cpus memory_mb datastore network w.
  unfold VMwareManager.create_vm, VMwareManager.create_vm_custom.
  rewrite !bind_M_eq.
  destruct (datastore_and_network_cases datastore network w) as [[e He]|[[ds net] Hr]].
  - rewrite He. split; reflexivity.
  - rewrite Hr. apply tail_message_irrelevant.
Qed.

(** X14.  A datastore or a network named in the call wins over the
    manager's own.  [create_vm_custom] raises, and submits nothing, when the
    datacenter has no datastore of the name given; and whenever it does
    submit a request, that is a [CreateVM_Task] in the datacenter's VM
    folder and the manager's resource pool whose disk lies on the datastore
    of the name given (the manager's default when none is given) and whose
    adapter is for the network of the name given (the manager's network,
    possibly none, when none is given). *)
Theorem create_vm_custom_uses_the_targets_of_the_call :
  forall (fuel : nat) (name : string) (cpus memory_mb disk_size_gb : Z)
         (guest_id : string) (datastore network : option string)
         (thin_provisioned : bool) (annotation : option string)
         (w : VMwareManager.World),
    let dc := VMwareManager.datacenter_obj (VMwareManager.self w) in
    let run := VMwareManager.create_vm_custom fuel name cpus memory_mb disk_size_gb guest_id
                 datastore network thin_provisioned annotation w in
    (forall wanted,
        Py.if_set datastore = Some wanted ->
        (forall ds, Vim.DatastoreFolder_Datastore ds ∈ Vim.datastoreFolder_childEntity dc ->
                    Vim.ds_name ds <> wanted) ->
        run = (Py.Raised (Py.Exception ("Specified datastore " +:+ wanted +:+ " not found")), w))
    /\ (forall request,
        snd run = Spec.with_request request w ->
        exists ds net,
          request
          = Vim.CreateVM_Task
              (Vim.vmFolder dc)
              {| Vim.cs_name := name; Vim.cs_memoryMB := memory_mb; Vim.cs_numCPUs := cpus;
                 Vim.cs_guestId := guest_id; Vim.cs_annotation := Py.if_set annotation;
                 Vim.cs_deviceChange :=
                   VMwareManager.device_specs disk_size_gb thin_provisioned ds net |}
              (VMwareManager.resource_pool (VMwareManager.self w))
          /\ match Py.if_set datastore with
             | Some wanted =>
                 Vim.ds_name ds = wanted
                 /\ Vim.DatastoreFolder_Datastore ds ∈ Vim.datastoreFolder_childEntity dc
             | None => ds = VMwareManager.datastore_obj (VMwareManager.self w)
             end
          /\ match Py.if_set network with
             | Some wanted =>
                 exists x, net = Some x /\ Vim.net_name x = wanted
                           /\ x ∈ Vim.networkFolder_childEntity dc
             | None => net = VMwareManager.network_obj (VMwareManager.self w)
             end).
Proof.
  intros fuel name cpus memory_mb disk_size_gb guest_id datastore network
         thin_provisioned annotation w dc run.
  subst run. unfold VMwareManager.create_vm_custom. rewrite bind_M_eq. split.
  - intros wanted Hwanted Hnone.
    rewrite (datastore_and_network_missing_datastore _ _ _ _ Hwanted Hnone). reflexivity.
  - intros request.
    destruct (VMwareManager.datastore_and_network datastore network w)
      as [[[ds net]|e|] w'] eqn:Hblock.
    + apply datastore_and_network_Returned in Hblock as (-> & Hds & Hnet).
      intros Hsnd. exists ds, net. split; [|split; assumption].
      match type of Hsnd with
      | ?lhs = _ =>
          assert (Hst : lhs = Spec.with_request
                                (Vim.CreateVM_Task
                                   (Vim.vmFolder dc)
                                   {| Vim.cs_name := name; Vim.cs_memoryMB := memory_mb;
                                      Vim.cs_numCPUs := cpus; Vim.cs_guestId := guest_id;
                                      Vim.cs_annotation := Py.if_set annotation;
                                      Vim.cs_deviceChange :=
                                        VMwareManager.device_specs
                                          disk_size_gb thin_provisioned ds net |}
                                   (VMwareManager.resource_pool (VMwareManager.self w))) w)
            by (apply submit_then_wait_state; reflexivity)
      end.
      rewrite Hst in Hsnd. apply with_request_inj in Hsnd. symmetry. exact Hsnd.
    + destruct (datastore_and_network_cases datastore network w) as [[e' He]|[r Hr]];
        rewrite Hblock in *; [|discriminate].
      injection He as _ ->. simpl. intros H. symmetry in H.
      destruct (with_request_changes _ _ H).
    + destruct (datastore_and_network_cases datastore network w) as [[e' He]|[r Hr]];
        rewrite Hblock in *; discriminate.
Qed.

Lemma create_vm_custom_uses_the_targets_of_the_call_witness :
  VMwareManager.create_vm_custom 5 "new" 2 2048 20 "ubuntu64Guest" (Some "ds-z") None
                                 true None Sample.world_done
  = (Py.Raised (Py.Exception "Specified datastore ds-z not found"), Sample.world_done)
  /\ exists ds net,
      Vim.CreateVM_Task
        "group-v1"
        {| Vim.cs_name := "new"; Vim.cs_memoryMB := 2048; Vim.cs_numCPUs := 2;
           Vim.cs_guestId := "ubuntu64Guest"; Vim.cs_annotation := None;
           Vim.cs_deviceChange := VMwareManager.device_specs 20 true Sample.ds_a None |}
        Sample.pool_1
      = Vim.CreateVM_Task
          "group-v1"
          {| Vim.cs_name := "new"; Vim.cs_memoryMB := 2048; Vim.cs_numCPUs := 2;
             Vim.cs_guestId := "ubuntu64Guest"; Vim.cs_annotation := None;
             Vim.cs_deviceChange := VMwareManager.device_specs 20 true ds net |}
          Sample.pool_1
      /\ (Vim.ds_name ds = "ds-a"
          /\ Vim.DatastoreFolder_Datastore ds ∈ Vim.datastoreFolder_childEntity Sample.dc_1)
      /\ net = None.
Proof.
  split.
  - apply (proj1 (create_vm_custom_uses_the_targets_of_the_call
                    5 "new" 2 2048 20 "ubuntu64Guest" (Some "ds-z") None true None
                    Sample.world_done) "ds-z" eq_refl).
    intros ds Hds.
    repeat (apply elem_of_cons in Hds as [Hds|Hds];
            [inversion Hds; subst; discriminate|]).
    inversion Hds.
  - exact (proj2 (create_vm_custom_uses_the_targets_of_the_call
                    5 "new" 2 2048 20 "ubuntu64Guest" (Some "ds-a") None true None
                    Sample.world_done)
                 (Vim.CreateVM_Task
                    "group-v1"
                    {| Vim.cs_name := "new"; Vim.cs_memoryMB := 2048; Vim.cs_numCPUs := 2;
                       Vim.cs_guestId := "ubuntu64Guest"; Vim.cs_annotation := None;
                       Vim.cs_deviceChange :=
                         VMwareManager.device_specs 20 true Sample.ds_a None |}
                    Sample.pool_1)
                 eq_refl).
Defined.

(** X15.  The device list of a new virtual machine has one SCSI controller
    and one disk, and exactly one network adapter when there is a network
    object and none otherwise.  The adapter of a standard network and of a
    distributed portgroup alike is backed by [NetworkBackingInfo] for the
    object and its name, the portgroup being a [vim.Network] too; an object
    of any other class gets an adapter without backing.  A distributed port
    backing is never built. *)
Theorem adapter_backing_is_never_a_distributed_port :
  forall (disk_size_gb : Z) (thin_provisioned : bool) (datastore_obj : Vim.Datastore)
         (network_obj : option Vim.Network),
    let specs :=
      VMwareManager.device_specs disk_size_gb thin_provisioned datastore_obj network_obj in
    Spec.adapter_backings specs
    = match network_obj with
      | None => []
      | Some net =>
          [ match Vim.net_class net with
            | Vim.class_Other => None
            | _ => Some (Vim.NetworkBackingInfo net (Vim.net_name net))
            end ]
      end
    /\ length specs = (2 + length (Spec.adapter_backings specs))%nat
    /\ forall key uuid,
         Some (Vim.DistributedVirtualPortBackingInfo key uuid)
           ∉ Spec.adapter_backings specs.
Proof.
  intros disk_size_gb thin_provisioned datastore_obj network_obj specs. subst specs.
  destruct network_obj as [[n [|key0 uuid0|]]|]; simpl;
    (split; [reflexivity|]); (split; [reflexivity|]);
    intros key uuid Hin;
    repeat (apply elem_of_cons in Hin as [Hin|Hin]; [discriminate|]);
    inversion Hin.
Qed.

(** ** Dispatch of a registered tool *)

Section Routing.
Import Py VMwareManager Tools McpServer.
Context {result : Type}.
Variable manager : string -> list value -> M World result.
Variable config : Config.

(** Every registered name is the name of the manager's method its handler
    ends in; the handlers without parameters are the ones registered without
    arguments. *)
Lemma tool_handler_map_routes name h :
  tool_handler_map manager config !! name = Some h ->
  exists t, manager_method t = name
            /\ ((parameters t = [] /\ h = without_args manager config t)
                \/ (parameters t <> [] /\ h = with_kwargs manager config t)).
Proof.
  intros Hh. apply elem_of_list_to_map_2 in Hh. unfold tool_handler_entries in Hh.
  repeat (apply elem_of_cons in Hh as [Hh|Hh];
          [injection Hh as -> ->;
           match goal with
           | |- context [with_kwargs _ _ ?t] =>
               exists t; split; [reflexivity|right; split; [discriminate|reflexivity]]
           | |- context [without_args _ _ ?t] =>
               exists t; split; [reflexivity|left; split; reflexivity]
           end|]).
  inversion Hh.
Qed.

Lemma bind_parameters_Some params arguments : forall args,
  bind_parameters params arguments = Some args ->
  length args = length params
  /\ (forall p, (p, None) ∈ params -> is_Some (arguments !! p))
  /\ forall i p d, params !! i = Some (p, d) ->
       args !! i = match arguments !! p with Some v => Some v | None => d end.
Proof.
  induction params as [|[p d] params IH]; intros args; simpl.
  - intros [= <-]. split; [reflexivity|]. split; [intros p Hp; inversion Hp|].
    intros i p d Hi. destruct i; discriminate.
  - destruct (arguments !! p) as [v|] eqn:Hp.
    + destruct (bind_parameters params arguments) as [rest|]; simpl; [|discriminate].
      intros [= <-]. destruct (IH rest eq_refl) as (Hlen & Hreq & Hnth).
      split; [simpl; congruence|]. split.
      * intros q Hq. apply elem_of_cons in Hq as [[= -> <-]|Hq]; [eauto|auto].
      * intros [|i] q d' Hi; simpl in Hi.
        -- injection Hi as -> ->. simpl. rewrite Hp. reflexivity.
        -- simpl. apply Hnth. assumption.
    + destruct d as [d|]; [|discriminate].
      destruct (bind_parameters params arguments) as [rest|]; simpl; [|discriminate].
      intros [= <-]. destruct (IH rest eq_refl) as (Hlen & Hreq & Hnth).
      split; [simpl; congruence|]. split.
      * intros q Hq. apply elem_of_cons in Hq as [[= -> ?]|Hq]; auto.
      * intros [|i] q d' Hi; simpl in Hi.
        -- injection Hi as -> <-. simpl. rewrite Hp. reflexivity.
        -- simpl. apply Hnth. assumption.
Qed.

Lemma bind_parameters_None params arguments :
  bind_parameters params arguments = None ->
  exists p, (p, None) ∈ params /\ arguments !! p = None.
Proof.
  induction params as [|[p d] params IH]; simpl; [discriminate|].
  destruct (arguments !! p) as [v|] eqn:Hp.
  - destruct (bind_parameters params arguments); simpl; [discriminate|].
    intros _. destruct (IH eq_refl) as (q & Hq & Hnone). exists q. split; [right|]; assumption.
  - destruct d as [d|].
    + destruct (bind_parameters params arguments); simpl; [discriminate|].
      intros _. destruct (IH eq_refl) as (q & Hq & Hnone). exists q. split; [right|]; assumption.
    + intros _. exists p. split; [left|assumption].
Qed.

Lemma bind_parameters_missing params arguments p :
  (p, None) ∈ params -> arguments !! p = None -> bind_parameters params arguments = None.
Proof.
  intros Hp Hnone. destruct (bind_parameters params arguments) as [args|] eqn:Hb; [|reflexivity].
  apply bind_parameters_Some in Hb as (_ & Hreq & _).
  destruct (Hreq p Hp) as [v Hv]. congruence.
Qed.

End Routing.

(** X16.  A dictionary of arguments is bound to a handler's parameters by
    name.  The call is accepted exactly when every key is a parameter and
    every parameter without a default is a key; then the handler gets one
    argument per parameter, in the order of its signature: the value given
    under the parameter's name, or the parameter's default.  Otherwise a
    [TypeError] is raised. *)
Theorem keyword_arguments_are_bound_by_name :
  forall (params : list (string * option Tools.value))
         (arguments : gmap string Tools.value),
    match McpServer.bind_kwargs params arguments with
    | Py.Returned args =>
        (forall k, is_Some (arguments !! k) -> k ∈ params.*1)
        /\ (forall p, (p, None) ∈ params -> is_Some (arguments !! p))
        /\ length args = length params
        /\ forall i p d, params !! i = Some (p, d) ->
             args !! i = match arguments !! p with Some v => Some v | None => d end
    | Py.Raised e =>
        (exists msg, e = Py.TypeError msg)
        /\ ((exists k, is_Some (arguments !! k) /\ k ∉ params.*1)
            \/ exists p, (p, None) ∈ params /\ arguments !! p = None)
    | Py.Spinning => False
    end.
Proof.
  intros params arguments. unfold McpServer.bind_kwargs.
  destruct (bool_decide _) eqn:Hkeys.
  - apply bool_decide_eq_true in Hkeys.
    destruct (McpServer.bind_parameters params arguments) as [args|] eqn:Hbind.
    + apply bind_parameters_Some in Hbind as (Hlen & Hreq & Hnth).
      split; [|auto]. intros k [v Hk]. exact (Hkeys k v Hk).
    + split; [eauto|]. right. apply bind_parameters_None. assumption.
  - apply bool_decide_eq_false in Hkeys. split; [eauto|]. left.
    apply map_not_Forall in Hkeys; [|apply _].
    destruct Hkeys as (k & v & Hk & Hnot). exists k. split; [eauto|assumption].
Qed.

(** X17.  Arguments are checked before the gate.  A tool registered with
    its arguments unpacked raises a [TypeError] when the arguments hold a
    key that is no parameter of the handler, or lack a required one; this
    happens before authentication is looked at, so the caller gets the
    [TypeError] whether authenticated or not, and the manager is not
    reached.  A tool registered without arguments (the listing tools) drops
    whatever arguments it is sent. *)
Theorem malformed_arguments_fail_before_the_gate :
  forall (result : Type)
         (manager : string -> list Tools.value -> Py.M VMwareManager.World result)
         (config : VMwareManager.Config)
         (is_dict_or_list : result -> bool) (json_dumps str : result -> string)
         (name : string) (t : Tools.tool) (arguments : gmap string Tools.value)
         (w : VMwareManager.World),
    (McpServer.tool_handler_map manager config !! name
     = Some (McpServer.with_kwargs manager config t) ->
     (exists k, is_Some (arguments !! k) /\ k ∉ (Tools.parameters t).*1)
     \/ (exists p, (p, None) ∈ Tools.parameters t /\ arguments !! p = None) ->
     exists msg,
       McpServer.call_tool_handler manager config is_dict_or_list json_dumps str
                                   name arguments w
       = (Py.Raised (Py.TypeError msg), w))
    /\ (McpServer.tool_handler_map manager config !! name
        = Some (McpServer.without_args manager config t) ->
        McpServer.call_tool_handler manager config is_dict_or_list json_dumps str
                                    name arguments w
        = McpServer.call_tool_handler manager config is_dict_or_list json_dumps str
                                      name ∅ w).
Proof.
  intros result manager config is_dl dumps str name t arguments w. split.
  - intros Hh Hbad. unfold McpServer.call_tool_handler. rewrite Hh.
    unfold mbind, Py.M_bind, McpServer.with_kwargs, McpServer.bind_kwargs.
    destruct Hbad as [(k & [v Hk] & Hnot)|(p & Hp & Hnone)].
    + rewrite bool_decide_eq_false_2; [eauto|].
      intros Hall. apply Hnot. exact (Hall k v Hk).
    + destruct (bool_decide _); [|eauto].
      rewrite (bind_parameters_missing _ _ _ Hp Hnone). eauto.
  - intros Hh. unfold McpServer.call_tool_handler. rewrite Hh. reflexivity.
Qed.

Lemma malformed_arguments_fail_before_the_gate_witness :
  (exists msg,
      McpServer.call_tool_handler Sample.echo_manager Sample.config_key
                                  (fun _ => false) (fun r => r) (fun r => r)
                                  "delete_vm" {["vm" := Tools.str_ "web"]}
                                  (Sample.world_with Sample.config_key false
                                                     (fun _ => Sample.task_done))
      = (Py.Raised (Py.TypeError msg),
         Sample.world_with Sample.config_key false (fun _ => Sample.task_done)))
  /\ McpServer.call_tool_handler Sample.echo_manager Sample.config_defaults
                                 (fun _ => false) (fun r => r) (fun r => r)
                                 "list_vms" {["vm" := Tools.str_ "web"]} Sample.world_done
     = McpServer.call_tool_handler Sample.echo_manager Sample.config_defaults
                                   (fun _ => false) (fun r => r) (fun r => r)
                                   "list_vms" ∅ Sample.world_done.
Proof.
  split.
  - apply (proj1 (malformed_arguments_fail_before_the_gate
                    string Sample.echo_manager Sample.config_key
                    (fun _ => false) (fun r => r) (fun r => r)
                    "delete_vm" Tools.delete_vm {["vm" := Tools.str_ "web"]} _) eq_refl).
    left. exists "vm". split; [eexists; reflexivity|].
    simpl. intros Hin. apply list_elem_of_singleton in Hin. discriminate.
  - exact (proj2 (malformed_arguments_fail_before_the_gate
                    string Sample.echo_manager Sample.config_defaults
                    (fun _ => false) (fun r => r) (fun r => r)
                    "list_vms" Tools.list_vms {["vm" := Tools.str_ "web"]} _) eq_refl).
Defined.



(** ** [get_host_performance]: what it returns and how it fails *)

Section HostPerformance.
Import Py Vim VMwareManager.

Lemma no_host_named name w :
  (forall host, host ∈ view_HostSystem (remote w) -> host_name host <> name) ->
  next_or_None (fun host => if String.eqb (host_name host) name then Some host else None)
               (view_HostSystem (remote w)) = None.
Proof.
  intros H. apply next_or_None_None. intros host Hhost.
  apply select_by_name_None. auto.
Qed.

End HostPerformance.

(** X19.  [get_host_performance] on a name no host carries raises the
    [Exception] "Host ... not found".  On a host without hardware
    information it returns the three counters and nothing else (no totals,
    no percentages); the counters are the integer 0 when the host has no
    quick statistics.  Neither changes anything. *)
Theorem host_performance_without_host_or_hardware :
  forall (float : Type) (int_truediv : Z -> Z -> float) (float_mul : float -> Z -> float)
         (round_ndigits : float -> Z -> float)
         (host_name : string) (w : VMwareManager.World),
    let run :=
      VMwareManager.get_host_performance int_truediv float_mul round_ndigits host_name w in
    let counters := ["cpu_usage_mhz"; "memory_usage_mb"; "uptime_seconds"] in
    ((forall host, host ∈ Vim.view_HostSystem (VMwareManager.remote w) ->
                   Vim.host_name host <> host_name) ->
     run = (Py.Raised (Py.Exception ("Host " +:+ host_name +:+ " not found")), w))
    /\ (forall host,
          fst (VMwareManager.find_host host_name w) = Py.Returned (Some host) ->
          Vim.host_hardware host = None ->
          exists stats,
            run = (Py.Returned stats, w)
            /\ (forall k, is_Some (stats !! k) <-> k ∈ counters)
            /\ (Vim.host_summary_quickStats host = None ->
                forall k, k ∈ counters -> stats !! k = Some (VMwareManager.stat_int 0))).
Proof.
  intros float int_truediv float_mul round_ndigits host_name w. cbv zeta. split.
  - intros Hnone. unfold VMwareManager.get_host_performance, mbind, Py.M_bind.
    rewrite find_host_eq, (no_host_named _ _ Hnone). reflexivity.
  - intros host Hhost Hhw. unfold VMwareManager.get_host_performance.
    rewrite (bind_find_host _ _ _ _ Hhost), Hhw.
    eexists. split; [reflexivity|]. split.
    + intros k. rewrite !elem_of_cons, elem_of_nil. split.
      * intros Hk.
        destruct (decide (k = "uptime_seconds")) as [->|H1]; [tauto|].
        destruct (decide (k = "memory_usage_mb")) as [->|H2]; [tauto|].
        destruct (decide (k = "cpu_usage_mhz")) as [->|H3]; [tauto|].
        rewrite !lookup_insert_ne, lookup_empty in Hk by congruence.
        destruct Hk as [? Hk]. discriminate Hk.
      * intros [->|[->|[->|[]]]]; eexists; reflexivity.
    + intros Hqs k. rewrite !elem_of_cons, elem_of_nil.
      unfold VMwareManager.uptime_seconds, VMwareManager.memory_usage_mb,
             VMwareManager.cpu_usage_mhz. rewrite Hqs.
      intros [->|[->|[->|[]]]]; reflexivity.
Qed.

Lemma host_performance_without_host_or_hardware_witness :
  VMwareManager.get_host_performance Sample.exact_truediv Sample.exact_mul Sample.exact_round
                                     "esxi-9" Sample.world_hosts
  = (Py.Raised (Py.Exception "Host esxi-9 not found"), Sample.world_hosts)
  /\ exists stats,
       VMwareManager.get_host_performance Sample.exact_truediv Sample.exact_mul
                                          Sample.exact_round "esxi-4" Sample.world_hosts
       = (Py.Returned stats, Sample.world_hosts)
       /\ stats !! "cpu_usage_mhz" = Some (VMwareManager.stat_int 0)
       /\ stats !! "cpu_usage_percent" = None.
Proof.
  pose proof (host_performance_without_host_or_hardware
                Q Sample.exact_truediv Sample.exact_mul Sample.exact_round) as H.
  split.
  - apply (proj1 (H "esxi-9" Sample.world_hosts)).
    intros host Hhost.
    repeat (apply elem_of_cons in Hhost as [->|Hhost]; [discriminate|]).
    inversion Hhost.
  - destruct (proj2 (H "esxi-4" Sample.world_hosts) Sample.host_bare eq_refl eq_refl)
      as (stats & Hrun & Hkeys & Hzero).
    exists stats. split; [assumption|]. split.
    + apply (Hzero eq_refl). left.
    + destruct (stats !! "cpu_usage_percent") eqn:Hk; [|reflexivity].
      assert (Hin : "cpu_usage_percent" ∈ ["cpu_usage_mhz"; "memory_usage_mb"; "uptime_seconds"])
        by (apply Hkeys; eauto).
      repeat (apply elem_of_cons in Hin as [Hin|Hin]; [discriminate|]).
      inversion Hin.
Defined.

(** X20.  On a host with hardware information [get_host_performance] fails
    in one way only: with a [TypeError], when a counter that has to be
    divided (CPU or memory usage, with a positive total) is unset, that is
    [None], on the host.  In every other case it returns, with the three
    counters and both totals as they are on the host.  It changes nothing
    either way. *)
Theorem host_performance_fails_only_on_an_unset_counter :
  forall (float : Type) (int_truediv : Z -> Z -> float) (float_mul : float -> Z -> float)
         (round_ndigits : float -> Z -> float)
         (host_name : string) (w : VMwareManager.World)
         (host : Vim.HostSystem) (hardware : Vim.HostHardwareInfo),
    fst (VMwareManager.find_host host_name w) = Py.Returned (Some host) ->
    Vim.host_hardware host = Some hardware ->
    let run :=
      VMwareManager.get_host_performance int_truediv float_mul round_ndigits host_name w in
    let total_cpu := VMwareManager.total_cpu_mhz hardware in
    let total_memory := VMwareManager.total_memory_mb hardware in
    let unset :=
      (0 < total_cpu /\ VMwareManager.cpu_usage_mhz host = None)
      \/ (0 < total_memory /\ VMwareManager.memory_usage_mb host = None) in
    snd run = w
    /\ (unset -> exists msg, fst run = Py.Raised (Py.TypeError msg))
    /\ (~ unset ->
        exists stats,
          fst run = Py.Returned stats
          /\ stats !! "cpu_usage_mhz"
             = Some (VMwareManager.stat_of (VMwareManager.cpu_usage_mhz host))
          /\ stats !! "memory_usage_mb"
             = Some (VMwareManager.stat_of (VMwareManager.memory_usage_mb host))
          /\ stats !! "uptime_seconds"
             = Some (VMwareManager.stat_of (VMwareManager.uptime_seconds host))
          /\ stats !! "cpu_total_mhz" = Some (VMwareManager.stat_int total_cpu)
          /\ stats !! "memory_total_mb" = Some (VMwareManager.stat_int total_memory)).
Proof.
  intros float int_truediv float_mul round_ndigits host_name w host hardware Hhost Hhw.
  cbv zeta. unfold VMwareManager.get_host_performance.
  rewrite (bind_find_host _ _ _ _ Hhost), Hhw.
  unfold mbind, Py.M_bind, VMwareManager.lift, mret, Py.M_ret.
  destruct (usage_percent_cases int_truediv float_mul round_ndigits
              (VMwareManager.cpu_usage_mhz host) (VMwareManager.total_cpu_mhz hardware))
    as [[Hc ->]|[(Hc & uc & Huc & ->)|(Hc & Huc & mc & ->)]];
  destruct (usage_percent_cases int_truediv float_mul round_ndigits
              (VMwareManager.memory_usage_mb host) (VMwareManager.total_memory_mb hardware))
    as [[Hm Em]|[(Hm & um & Hum & Em)|(Hm & Hum & mm & Em)]];
  try rewrite Em; simpl;
  (split; [reflexivity|]);
  (split;
   [intros [[? ?]|[? ?]]; first [lia | congruence | eexists; reflexivity]
   |intros Hset;
    first [exfalso; apply Hset; solve [left; split; assumption | right; split; assumption]
          |eexists; repeat split; reflexivity]]).
Qed.

Lemma host_performance_fails_only_on_an_unset_counter_witness :
  (exists msg,
      fst (VMwareManager.get_host_performance Sample.exact_truediv Sample.exact_mul
                                              Sample.exact_round "esxi-3" Sample.world_hosts)
      = Py.Raised (Py.TypeError msg))
  /\ snd (VMwareManager.get_host_performance Sample.exact_truediv Sample.exact_mul
                                             Sample.exact_round "esxi-3" Sample.world_hosts)
     = Sample.world_hosts.
Proof.
  pose proof (host_performance_fails_only_on_an_unset_counter
                Q Sample.exact_truediv Sample.exact_mul Sample.exact_round
                "esxi-3" Sample.world_hosts Sample.host_unreported
                {| Vim.cpuInfo := Some {| Vim.numCpuCores := 8; Vim.hz := 2400000000 |};
                   Vim.memorySize := 32 * Sample.GB |}
                eq_refl eq_refl) as (Hstate & Hfail & _).
  split; [|exact Hstate].
  apply Hfail. left. split; reflexivity.
Defined.

(** ** Listings and lookups *)

Section Listings.
Import Py Vim VMwareManager.

Lemma append_each {A} (name_of : A -> string) xs : forall acc,
  fold_left (fun names x => names ++ [name_of x]) xs acc = acc ++ (name_of <$> xs).
Proof.
  induction xs as [|x xs IH]; intros acc; simpl.
  - rewrite app_nil_r. reflexivity.
  - rewrite IH, <- app_assoc. reflexivity.
Qed.

Lemma named_is_found {A} (name_of : A -> string) name xs :
  name ∈ name_of <$> xs
  <-> exists x, next_or_None (fun x => if String.eqb (name_of x) name then Some x else None) xs
                = Some x.
Proof.
  split.
  - intros Hin. apply list_elem_of_fmap in Hin as (x & -> & Hx).
    destruct (next_or_None _ xs) as [y|] eqn:Hfind; [eauto|].
    apply (proj1 (next_or_None_None _ _)) with (x := x) in Hfind; [|assumption].
    apply select_by_name_None in Hfind. contradiction.
  - intros [x Hfind]. apply next_or_None_Some in Hfind as (y & Hy & Hsel).
    apply select_by_name_Some in Hsel as [-> <-].
    apply list_elem_of_fmap. eauto.
Qed.

End Listings.

(** X21.  The listings and the lookups see the same inventory.
    [list_vms] returns the names of the virtual machines of the view, one
    per machine and in the view's order, so a name two machines share is
    listed twice; [list_hosts] does the same for hosts.  A name is in the
    listing exactly when [find_vm] (for hosts [find_host]) finds an object
    under it.  Both listings destroy their view and leave everything as it
    was. *)
Theorem listings_agree_with_lookups :
  forall (w : VMwareManager.World),
    VMwareManager.list_vms w
    = (Py.Returned (Vim.vm_name <$> Vim.view_VirtualMachine (VMwareManager.remote w)), w)
    /\ VMwareManager.list_hosts w
       = (Py.Returned (Vim.host_name <$> Vim.view_HostSystem (VMwareManager.remote w)), w)
    /\ (forall name names,
          fst (VMwareManager.list_vms w) = Py.Returned names ->
          (name ∈ names
           <-> exists vm, VMwareManager.find_vm name w = (Py.Returned (Some vm), w)))
    /\ (forall name hosts,
          fst (VMwareManager.list_hosts w) = Py.Returned hosts ->
          (name ∈ hosts
           <-> exists host, VMwareManager.find_host name w = (Py.Returned (Some host), w))).
Proof.
  intros w.
  assert (Hvms : VMwareManager.list_vms w
                 = (Py.Returned (Vim.vm_name <$> Vim.view_VirtualMachine (VMwareManager.remote w)),
                    w)).
  { unfold VMwareManager.list_vms, mbind, Py.M_bind, VMwareManager.CreateContainerView,
           VMwareManager.Destroy, Py.modify, mret, Py.M_ret.
    simpl. rewrite views_restored, append_each. reflexivity. }
  assert (Hhosts : VMwareManager.list_hosts w
                   = (Py.Returned (Vim.host_name <$> Vim.view_HostSystem (VMwareManager.remote w)),
                      w)).
  { unfold VMwareManager.list_hosts, mbind, Py.M_bind, VMwareManager.CreateContainerView,
           VMwareManager.Destroy, Py.modify, mret, Py.M_ret.
    simpl. rewrite views_restored, append_each. reflexivity. }
  split; [assumption|]. split; [assumption|]. split.
  - intros name names. rewrite Hvms. intros [= <-].
    rewrite named_is_found. split; intros [vm Hvm]; exists vm.
    + rewrite find_vm_eq, Hvm. reflexivity.
    + rewrite find_vm_eq in Hvm. congruence.
  - intros name hosts. rewrite Hhosts. intros [= <-].
    rewrite named_is_found. split; intros [host Hhost]; exists host.
    + rewrite find_host_eq, Hhost. reflexivity.
    + rewrite find_host_eq in Hhost. congruence.
Qed.

(** X22.  [get_host_performance_metrics] gives the three counters of
    [get_host_performance] and nothing else.  It raises the [Exception]
    "Host ... not found" for a name no host carries, and returns for every
    host that is found, also where [get_host_performance] fails on an
    unset counter: the entry is then [None].  Wherever
    [get_host_performance] returns, its three counters are the ones of the
    metrics. *)
Theorem host_metrics_are_the_counters_of_host_performance :
  forall (float : Type) (int_truediv : Z -> Z -> float) (float_mul : float -> Z -> float)
         (round_ndigits : float -> Z -> float)
         (host_name : string) (w : VMwareManager.World),
    let counters := ["cpu_usage_mhz"; "memory_usage_mb"; "uptime_seconds"] in
    ((forall host, host ∈ Vim.view_HostSystem (VMwareManager.remote w) ->
                   Vim.host_name host <> host_name) ->
     VMwareManager.get_host_performance_metrics host_name w
     = (Py.Raised (Py.Exception ("Host " +:+ host_name +:+ " not found")), w))
    /\ (forall host,
          fst (VMwareManager.find_host host_name w) = Py.Returned (Some host) ->
          exists metrics,
            VMwareManager.get_host_performance_metrics host_name w = (Py.Returned metrics, w)
            /\ (forall k, is_Some (metrics !! k) <-> k ∈ counters)
            /\ forall stats,
                 fst (VMwareManager.get_host_performance int_truediv float_mul round_ndigits
                                                         host_name w)
                 = Py.Returned stats ->
                 forall k, k ∈ counters ->
                   stats !! k = VMwareManager.stat_of (float := float) <$> metrics !! k).
Proof.
  intros float int_truediv float_mul round_ndigits host_name w. cbv zeta. split.
  - intros Hnone. unfold VMwareManager.get_host_performance_metrics, mbind, Py.M_bind.
    rewrite find_host_eq, (no_host_named _ _ Hnone). reflexivity.
  - intros host Hhost. unfold VMwareManager.get_host_performance_metrics.
    rewrite (bind_find_host _ _ _ _ Hhost).
    eexists. split; [reflexivity|]. split.
    + intros k. rewrite !elem_of_cons, elem_of_nil. split.
      * intros Hk.
        destruct (decide (k = "uptime_seconds")) as [->|H1]; [tauto|].
        destruct (decide (k = "memory_usage_mb")) as [->|H2]; [tauto|].
        destruct (decide (k = "cpu_usage_mhz")) as [->|H3]; [tauto|].
        rewrite !lookup_insert_ne, lookup_empty in Hk by congruence.
        destruct Hk as [? Hk]. discriminate Hk.
      * intros [->|[->|[->|[]]]]; eexists; reflexivity.
    + intros stats. unfold VMwareManager.get_host_performance.
      rewrite (bind_find_host _ _ _ _ Hhost).
      destruct (Vim.host_hardware host) as [hardware|].
      * unfold mbind, Py.M_bind, VMwareManager.lift, mret, Py.M_ret.
        destruct (usage_percent_cases int_truediv float_mul round_ndigits
                    (VMwareManager.cpu_usage_mhz host) (VMwareManager.total_cpu_mhz hardware))
          as [[Hc ->]|[(Hc & uc & Huc & ->)|(Hc & Huc & mc & ->)]];
        destruct (usage_percent_cases int_truediv float_mul round_ndigits
                    (VMwareManager.memory_usage_mb host)
                    (VMwareManager.total_memory_mb hardware))
          as [[Hm Em]|[(Hm & um & Hum & Em)|(Hm & Hum & mm & Em)]];
        try rewrite Em; simpl; intros Hstats; try discriminate Hstats;
        injection Hstats as <-; intros k; rewrite !elem_of_cons, elem_of_nil;
        intros [->|[->|[->|[]]]]; reflexivity.
      * simpl. intros [= <-] k. rewrite !elem_of_cons, elem_of_nil.
        intros [->|[->|[->|[]]]]; reflexivity.
Qed.

Lemma host_metrics_are_the_counters_of_host_performance_witness :
  VMwareManager.get_host_performance_metrics "esxi-9" Sample.world_hosts
  = (Py.Raised (Py.Exception "Host esxi-9 not found"), Sample.world_hosts)
  /\ exists metrics,
       VMwareManager.get_host_performance_metrics "esxi-3" Sample.world_hosts
       = (Py.Returned metrics, Sample.world_hosts)
       /\ is_Some (metrics !! "cpu_usage_mhz").
Proof.
  pose proof (host_metrics_are_the_counters_of_host_performance
                Q Sample.exact_truediv Sample.exact_mul Sample.exact_round) as H.
  split.
  - apply (proj1 (H "esxi-9" Sample.world_hosts)).
    intros host Hhost.
    repeat (apply elem_of_cons in Hhost as [->|Hhost]; [discriminate|]).
    inversion Hhost.
  - destruct (proj2 (H "esxi-3" Sample.world_hosts) Sample.host_unreported eq_refl)
      as (metrics & Hrun & Hkeys & _).
    exists metrics. split; [assumption|]. apply Hkeys. left.
Defined.

(** ** [execute_program_in_vm]: the bounded wait *)

Section ProgramRuns.
Import Py Vim VMwareManager.
Variable ListProcessesInGuest :
  nat -> VirtualMachine -> NamePasswordAuthentication -> list Z -> string + list ProcessInfo.
Variables (vm : VirtualMachine) (creds : NamePasswordAuthentication) (pid : Z).

(** Listings after which the wait goes on are passed one by one. *)
Lemma poll_processes_skip n : forall fuel wait_count calls,
  (forall i, (i < n)%nat ->
             Spec.still_running (ListProcessesInGuest (calls + i)%nat vm creds [pid]) = true) ->
  wait_count + Z.of_nat n <= max_wait ->
  poll_processes ListProcessesInGuest (n + fuel) vm creds pid wait_count calls
  = poll_processes ListProcessesInGuest fuel vm creds pid
                   (wait_count + Z.of_nat n) (calls + n)%nat.
Proof.
  induction n as [|n IH]; intros fuel wait_count calls Hrun Hle.
  - simpl. rewrite Z.add_0_r, Nat.add_0_r. reflexivity.
  - change (S n + fuel)%nat with (S (n + fuel)). cbn [poll_processes].
    assert (Hlt : (wait_count <? max_wait) = true) by (apply Z.ltb_lt; lia).
    rewrite Hlt.
    pose proof (Hrun 0%nat ltac:(lia)) as H0. rewrite Nat.add_0_r in H0.
    assert (Hnext : poll_processes ListProcessesInGuest (n + fuel) vm creds pid
                                   (wait_count + 1) (S calls)
                    = poll_processes ListProcessesInGuest fuel vm creds pid
                                     (wait_count + Z.of_nat (S n)) (calls + S n)%nat).
    { rewrite IH.
      - f_equal; lia.
      - intros i Hi. replace (S calls + i)%nat with (calls + S i)%nat by lia.
        apply Hrun. lia.
      - lia. }
    unfold Spec.still_running in H0.
    destruct (ListProcessesInGuest calls vm creds [pid]) as [fault|[|process rest]];
      [discriminate|assumption|].
    destruct (exitCode process); [discriminate|assumption].
Qed.

(** The loop is left within [max_wait] tests that pass and one that fails. *)
Lemma poll_processes_leaves fuel : forall wait_count calls,
  (Z.to_nat (max_wait - wait_count) < fuel)%nat ->
  poll_processes ListProcessesInGuest fuel vm creds pid wait_count calls <> Spinning.
Proof.
  induction fuel as [|fuel IH]; intros wait_count calls Hfuel; [lia|].
  cbn [poll_processes].
  destruct (Z.ltb_spec wait_count max_wait) as [Hlt|Hge]; [|discriminate].
  assert (Hnext : poll_processes ListProcessesInGuest fuel vm creds pid
                                 (wait_count + 1) (S calls) <> Spinning)
    by (apply IH; lia).
  destruct (ListProcessesInGuest calls vm creds [pid]) as [fault|[|process rest]];
    [discriminate|assumption|].
  destruct (exitCode process); [discriminate|assumption].
Qed.

Lemma poll_processes_S fuel wait_count calls :
  poll_processes ListProcessesInGuest (S fuel) vm creds pid wait_count calls
  = if wait_count <? max_wait then
      match ListProcessesInGuest calls vm creds [pid] with
      | inl fault => Raised (MethodFault fault)
      | inr [] =>
          poll_processes ListProcessesInGuest fuel vm creds pid (wait_count + 1) (S calls)
      | inr (process :: _) =>
          match exitCode process with
          | Some exit_code =>
              Returned (<["success" := entry_bool (exit_code =? 0)]>
                        (<["status" := entry_str "completed"]>
                        (<["exit_code" := entry_int exit_code]>
                        (<["pid" := entry_int pid]> ∅))))
          | None =>
              poll_processes ListProcessesInGuest fuel vm creds pid (wait_count + 1) (S calls)
          end
      end
    else
      Returned (<["message" := entry_str "Program is still running after timeout"]>
                (<["status" := entry_str "running"]>
                (<["pid" := entry_int pid]> ∅))).
Proof. reflexivity. Qed.

Lemma poll_processes_more fuel : forall wait_count calls,
  poll_processes ListProcessesInGuest fuel vm creds pid wait_count calls <> Spinning ->
  poll_processes ListProcessesInGuest (S fuel) vm creds pid wait_count calls
  = poll_processes ListProcessesInGuest fuel vm creds pid wait_count calls.
Proof.
  induction fuel as [|fuel IH]; intros wait_count calls Hleft; [contradiction Hleft; reflexivity|].
  rewrite (poll_processes_S (S fuel)).
  rewrite (poll_processes_S fuel wait_count calls) in Hleft |- *.
  destruct (wait_count <? max_wait); [|reflexivity].
  destruct (ListProcessesInGuest calls vm creds [pid]) as [fault|[|process rest]];
    [reflexivity|apply IH; assumption|].
  destruct (exitCode process); [reflexivity|apply IH; assumption].
Qed.

Lemma poll_processes_enough fuel fuel' wait_count calls :
  (fuel <= fuel')%nat ->
  poll_processes ListProcessesInGuest fuel vm creds pid wait_count calls <> Spinning ->
  poll_processes ListProcessesInGuest fuel' vm creds pid wait_count calls
  = poll_processes ListProcessesInGuest fuel vm creds pid wait_count calls.
Proof.
  intros Hle Hleft. induction Hle as [|fuel' Hle IH]; [reflexivity|].
  rewrite poll_processes_more; [assumption|]. rewrite IH. assumption.
Qed.

End ProgramRuns.

Section ProgramListings.
Import Py Vim VMwareManager.

(** The loop looks at the replies to its first [max_wait] listings only. *)
Lemma poll_processes_listings L L' vm creds pid fuel : forall wait_count calls,
  (forall i, wait_count + Z.of_nat i < max_wait ->
             L' (calls + i)%nat vm creds [pid] = L (calls + i)%nat vm creds [pid]) ->
  poll_processes L' fuel vm creds pid wait_count calls
  = poll_processes L fuel vm creds pid wait_count calls.
Proof.
  induction fuel as [|fuel IH]; intros wait_count calls Hsame; [reflexivity|].
  cbn [poll_processes].
  destruct (Z.ltb_spec wait_count max_wait) as [Hlt|Hge]; [|reflexivity].
  pose proof (Hsame 0%nat ltac:(lia)) as H0. rewrite Nat.add_0_r in H0. rewrite H0.
  assert (Hnext : poll_processes L' fuel vm creds pid (wait_count + 1) (S calls)
                  = poll_processes L fuel vm creds pid (wait_count + 1) (S calls)).
  { apply IH. intros i Hi. replace (S calls + i)%nat with (calls + S i)%nat by lia.
    apply Hsame. lia. }
  rewrite Hnext. reflexivity.
Qed.

Lemma program_spec_arguments program_path program_arguments :
  (if truthy (Some program_arguments)
   then {| programPath := program_path; arguments := Some program_arguments |}
   else {| programPath := program_path; arguments := None |})
  = {| programPath := program_path; arguments := if_set (Some program_arguments) |}.
Proof. simpl. destruct (String.eqb program_arguments ""); reflexivity. Qed.

End ProgramListings.

Section ProgramStart.
Import Py Vim VMwareManager.
Variable toolsStatus : VirtualMachine -> option string.
Variable StartProgramInGuest :
  VirtualMachine -> NamePasswordAuthentication -> ProgramSpec -> string + Z.
Variable ListProcessesInGuest :
  nat -> VirtualMachine -> NamePasswordAuthentication -> list Z -> string + list ProcessInfo.

(** With the virtual machine found, its tools present and the program
    started, the call is the wait for the program. *)
Lemma execute_program_polls fuel vm_name username password program_path program_arguments
      w vm pid :
  fst (find_vm vm_name w) = Returned (Some vm) ->
  tools_missing (toolsStatus vm) = false ->
  StartProgramInGuest vm {| username := username; password := password |}
                      {| programPath := program_path;
                         arguments := if_set (Some program_arguments) |} = inr pid ->
  0 < pid ->
  execute_program_in_vm toolsStatus StartProgramInGuest ListProcessesInGuest fuel
                        vm_name username password program_path program_arguments w
  = (poll_processes ListProcessesInGuest fuel vm
                    {| username := username; password := password |} pid 0 0, w).
Proof.
  intros Hvm Htools Hstart Hpid. unfold execute_program_in_vm.
  rewrite (bind_find_vm _ _ _ _ Hvm). cbv zeta.
  rewrite Htools, program_spec_arguments, Hstart.
  rewrite (proj2 (Z.ltb_lt 0 pid) Hpid). reflexivity.
Qed.

(** The call as a whole: its result, and the state it leaves unchanged. *)
Lemma execute_program_eq fuel vm_name username password program_path program_arguments w :
  execute_program_in_vm toolsStatus StartProgramInGuest ListProcessesInGuest fuel
                        vm_name username password program_path program_arguments w
  = (match next_or_None (fun vm => if String.eqb (Vim.vm_name vm) vm_name then Some vm else None)
                        (view_VirtualMachine (remote w)) with
     | None => Raised (Exception ("VM " +:+ vm_name +:+ " not found"))
     | Some vm =>
         if tools_missing (toolsStatus vm) then
           Raised (Exception ("VMware Tools is either not running or not installed. "
                              +:+ "Ensure VMware Tools is running before executing programs."))
         else
           match StartProgramInGuest vm {| username := username; password := password |}
                                     {| programPath := program_path;
                                        arguments := if_set (Some program_arguments) |} with
           | inl fault => Raised (MethodFault fault)
           | inr pid =>
               if 0 <? pid then
                 poll_processes ListProcessesInGuest fuel vm
                                {| username := username; password := password |} pid 0 0
               else Raised (Exception "Failed to start program in VM")
           end
     end, w).
Proof.
  unfold execute_program_in_vm. rewrite bind_find_vm_eq.
  destruct (next_or_None _ _) as [vm|]; [|reflexivity]. cbv zeta.
  destruct (tools_missing (toolsStatus vm)); [reflexivity|].
  rewrite program_spec_arguments.
  destruct (StartProgramInGuest vm _ _) as [fault|pid]; [reflexivity|].
  destruct (0 <? pid); reflexivity.
Qed.

End ProgramStart.

(** X23.  The wait of [execute_program_in_vm] is bounded.  Whatever the
    guest answers, the call ends (it returns or raises) within 30 listings
    of the process and 31 tests of its loop: run with room for more, it
    ends the same way, it leaves everything as it was, and replies of
    [ListProcessesInGuest] after the thirtieth have no part in the
    result. *)
Theorem program_wait_is_bounded :
  forall (toolsStatus : Vim.VirtualMachine -> option string)
         (StartProgramInGuest :
            Vim.VirtualMachine -> VMwareManager.NamePasswordAuthentication
            -> VMwareManager.ProgramSpec -> string + Z)
         (ListProcessesInGuest :
            nat -> Vim.VirtualMachine -> VMwareManager.NamePasswordAuthentication
            -> list Z -> string + list VMwareManager.ProcessInfo)
         (fuel : nat)
         (vm_name username password program_path program_arguments : string)
         (w : VMwareManager.World),
    (31 <= fuel)%nat ->
    let run L n :=
      VMwareManager.execute_program_in_vm toolsStatus StartProgramInGuest L n vm_name
                                          username password program_path
                                          program_arguments w in
    fst (run ListProcessesInGuest fuel) <> Py.Spinning
    /\ snd (run ListProcessesInGuest fuel) = w
    /\ run ListProcessesInGuest fuel = run ListProcessesInGuest 31%nat
    /\ forall L',
         (forall n vm creds pids,
             (n < 30)%nat -> L' n vm creds pids = ListProcessesInGuest n vm creds pids) ->
         run L' fuel = run ListProcessesInGuest fuel.
Proof.
  intros toolsStatus Start L fuel vm_name username password program_path program_arguments
         w Hfuel.
  cbv beta zeta.
  pose proof (fun L n => execute_program_eq toolsStatus Start L n vm_name username password
                                            program_path program_arguments w) as Heq.
  rewrite !Heq. simpl fst. simpl snd.
  assert (Hleaves : forall vm creds pid n, (31 <= n)%nat ->
            VMwareManager.poll_processes L n vm creds pid 0 0 <> Py.Spinning).
  { intros vm creds pid n Hn. apply poll_processes_leaves.
    unfold VMwareManager.max_wait. lia. }
  split; [|split; [reflexivity|split]].
  - destruct (Py.next_or_None _ _) as [vm|]; [|discriminate].
    destruct (VMwareManager.tools_missing _); [discriminate|].
    destruct (Start vm _ _) as [fault|pid]; [discriminate|].
    destruct (0 <? pid); [|discriminate]. apply Hleaves. assumption.
  - f_equal.
    destruct (Py.next_or_None _ _) as [vm|]; [|reflexivity].
    destruct (VMwareManager.tools_missing _); [reflexivity|].
    destruct (Start vm _ _) as [fault|pid]; [reflexivity|].
    destruct (0 <? pid); [|reflexivity].
    apply poll_processes_enough; [assumption|]. apply Hleaves. lia.
  - intros L' Hsame. rewrite Heq. f_equal.
    destruct (Py.next_or_None _ _) as [vm|]; [|reflexivity].
    destruct (VMwareManager.tools_missing _); [reflexivity|].
    destruct (Start vm _ _) as [fault|pid]; [reflexivity|].
    destruct (0 <? pid); [|reflexivity].
    apply poll_processes_listings.
    intros i Hi. apply Hsame. unfold VMwareManager.max_wait in Hi. lia.
Qed.

Lemma program_wait_is_bounded_witness :
  fst (VMwareManager.execute_program_in_vm Sample.tools_of Sample.start_42
                                           Sample.never_listed 40 "web" "root" "pw"
                                           "/bin/true" "" Sample.world_done)
  <> Py.Spinning.
Proof.
  exact (proj1 (program_wait_is_bounded Sample.tools_of Sample.start_42 Sample.never_listed
                                        40 "web" "root" "pw" "/bin/true" ""
                                        Sample.world_done ltac:(lia))).
Defined.

(** X24.  What [execute_program_in_vm] reports about a program it has
    started.  The program is started with the credentials and path of the
    call, and with the arguments only when they are not empty.  The first
    of the thirty listings that shows a first process with an exit code
    ends the wait: the result has the pid, that exit code, the status
    "completed" and [success] true exactly for exit code 0.  If none of
    the thirty does, the result has the pid and the status "running".  A
    fault of a listing is raised as it is. *)
Theorem program_result_is_the_first_exit_code :
  forall (toolsStatus : Vim.VirtualMachine -> option string)
         (StartProgramInGuest :
            Vim.VirtualMachine -> VMwareManager.NamePasswordAuthentication
            -> VMwareManager.ProgramSpec -> string + Z)
         (ListProcessesInGuest :
            nat -> Vim.VirtualMachine -> VMwareManager.NamePasswordAuthentication
            -> list Z -> string + list VMwareManager.ProcessInfo)
         (fuel : nat)
         (vm_name username password program_path program_arguments : string)
         (w : VMwareManager.World) (vm : Vim.VirtualMachine) (pid : Z),
    let creds :=
      {| VMwareManager.username := username; VMwareManager.password := password |} in
    fst (VMwareManager.find_vm vm_name w) = Py.Returned (Some vm) ->
    VMwareManager.tools_missing (toolsStatus vm) = false ->
    StartProgramInGuest vm creds
                        {| VMwareManager.programPath := program_path;
                           VMwareManager.arguments := Py.if_set (Some program_arguments) |}
    = inr pid ->
    0 < pid ->
    (31 <= fuel)%nat ->
    let reply n := ListProcessesInGuest n vm creds [pid] in
    let run :=
      VMwareManager.execute_program_in_vm toolsStatus StartProgramInGuest
                                          ListProcessesInGuest fuel vm_name username
                                          password program_path program_arguments w in
    (forall n process rest exit_code,
        (n < 30)%nat ->
        (forall i, (i < n)%nat -> Spec.still_running (reply i) = true) ->
        reply n = inr (process :: rest) ->
        VMwareManager.exitCode process = Some exit_code ->
        run = (Py.Returned
                 (<["success" := VMwareManager.entry_bool (exit_code =? 0)]>
                  (<["status" := VMwareManager.entry_str "completed"]>
                  (<["exit_code" := VMwareManager.entry_int exit_code]>
                  (<["pid" := VMwareManager.entry_int pid]> ∅)))), w))
    /\ ((forall i, (i < 30)%nat -> Spec.still_running (reply i) = true) ->
        run = (Py.Returned
                 (<["message" := VMwareManager.entry_str
                                   "Program is still running after timeout"]>
                  (<["status" := VMwareManager.entry_str "running"]>
                  (<["pid" := VMwareManager.entry_int pid]> ∅))), w))
    /\ (forall n fault,
          (n < 30)%nat ->
          (forall i, (i < n)%nat -> Spec.still_running (reply i) = true) ->
          reply n = inl fault ->
          run = (Py.Raised (Py.MethodFault fault), w)).
Proof.
  intros toolsStatus Start L fuel vm_name username password program_path program_arguments
         w vm pid creds Hvm Htools Hstart Hpid Hfuel reply run.
  subst run. rewrite (execute_program_polls _ _ _ _ _ _ _ _ _ _ _ _ Hvm Htools Hstart Hpid).
  fold creds.
  assert (Hskip : forall n, (n <= 30)%nat ->
            (forall i, (i < n)%nat -> Spec.still_running (reply i) = true) ->
            VMwareManager.poll_processes L fuel vm creds pid 0 0
            = VMwareManager.poll_processes L (S (fuel - S n)) vm creds pid (Z.of_nat n) n).
  { intros n Hn Hrun. replace fuel with (n + S (fuel - S n))%nat at 1 by lia.
    rewrite poll_processes_skip.
    - reflexivity.
    - intros i Hi. apply Hrun. assumption.
    - unfold VMwareManager.max_wait. lia. }
  split; [|split].
  - intros n process rest exit_code Hn Hrun Hreply Hexit.
    rewrite (Hskip n ltac:(lia) Hrun), poll_processes_S.
    rewrite (proj2 (Z.ltb_lt _ _)) by (unfold VMwareManager.max_wait; lia).
    fold (reply n). rewrite Hreply, Hexit. reflexivity.
  - intros Hrun.
    rewrite (Hskip 30%nat ltac:(lia) Hrun), poll_processes_S. reflexivity.
  - intros n fault Hn Hrun Hreply.
    rewrite (Hskip n ltac:(lia) Hrun), poll_processes_S.
    rewrite (proj2 (Z.ltb_lt _ _)) by (unfold VMwareManager.max_wait; lia).
    fold (reply n). rewrite Hreply. reflexivity.
Qed.

Lemma program_result_is_the_first_exit_code_witness :
  VMwareManager.execute_program_in_vm Sample.tools_of Sample.start_42 Sample.exits_at_third
                                      31 "web" "root" "pw" "/bin/true" "" Sample.world_done
  = (Py.Returned
       (<["success" := VMwareManager.entry_bool true]>
        (<["status" := VMwareManager.entry_str "completed"]>
        (<["exit_code" := VMwareManager.entry_int 0]>
        (<["pid" := VMwareManager.entry_int 42]> ∅)))), Sample.world_done).
Proof.
  apply (proj1 (program_result_is_the_first_exit_code
                  Sample.tools_of Sample.start_42 Sample.exits_at_third 31
                  "web" "root" "pw" "/bin/true" "" Sample.world_done Sample.vm_web 42
                  eq_refl eq_refl eq_refl ltac:(lia) ltac:(lia))
               2%nat {| VMwareManager.exitCode := Some 0 |} [] 0 ltac:(lia)).
  - intros i Hi. destruct i as [|[|i]]; [reflexivity|reflexivity|lia].
  - reflexivity.
  - reflexivity.
Defined.

(** X25.  When [execute_program_in_vm] starts nothing.  A name no virtual
    machine carries raises "VM ... not found"; tools reported as not
    installed or not running raise the tools [Exception]; in both cases
    the result is the same whatever the guest operations would answer.
    With the tools present, a fault of the start is raised as it is, and a
    pid that is not positive raises "Failed to start program in VM"
    without a listing being asked for.  An unset tools status does not
    stop the call. *)
Theorem program_is_not_started_without_vm_or_tools :
  forall (toolsStatus : Vim.VirtualMachine -> option string)
         (StartProgramInGuest :
            Vim.VirtualMachine -> VMwareManager.NamePasswordAuthentication
            -> VMwareManager.ProgramSpec -> string + Z)
         (ListProcessesInGuest :
            nat -> Vim.VirtualMachine -> VMwareManager.NamePasswordAuthentication
            -> list Z -> string + list VMwareManager.ProcessInfo)
         (fuel : nat)
         (vm_name username password program_path program_arguments : string)
         (w : VMwareManager.World),
    let run :=
      VMwareManager.execute_program_in_vm toolsStatus StartProgramInGuest
                                          ListProcessesInGuest fuel vm_name username
                                          password program_path program_arguments w in
    ((forall vm, vm ∈ Vim.view_VirtualMachine (VMwareManager.remote w) ->
                 Vim.vm_name vm <> vm_name) ->
     run = (Py.Raised (Py.Exception ("VM " +:+ vm_name +:+ " not found")), w))
    /\ (forall vm,
          fst (VMwareManager.find_vm vm_name w) = Py.Returned (Some vm) ->
          (toolsStatus vm = Some "toolsNotInstalled"
           \/ toolsStatus vm = Some "toolsNotRunning" ->
           run = (Py.Raised
                    (Py.Exception
                       "VMware Tools is either not running or not installed. Ensure VMware Tools is running before executing programs."),
                  w))
          /\ (toolsStatus vm = None \/ toolsStatus vm = Some "toolsOk"
              \/ toolsStatus vm = Some "toolsOld" ->
              match StartProgramInGuest
                      vm
                      {| VMwareManager.username := username;
                         VMwareManager.password := password |}
                      {| VMwareManager.programPath := program_path;
                         VMwareManager.arguments := Py.if_set (Some program_arguments) |}
              with
              | inl fault => run = (Py.Raised (Py.MethodFault fault), w)
              | inr pid =>
                  pid <= 0 ->
                  run = (Py.Raised (Py.Exception "Failed to start program in VM"), w)
              end)).
Proof.
  intros toolsStatus Start L fuel vm_name username password program_path program_arguments
         w run.
  subst run. unfold VMwareManager.execute_program_in_vm. split.
  - intros Hnone. rewrite bind_find_vm_eq, (no_vm_named _ _ Hnone). reflexivity.
  - intros vm Hvm. rewrite (bind_find_vm _ _ _ _ Hvm). cbv zeta. split.
    + intros [-> | ->]; reflexivity.
    + intros Hstatus.
      assert (Htools : VMwareManager.tools_missing (toolsStatus vm) = false)
        by (destruct Hstatus as [-> |[-> | ->]]; reflexivity).
      rewrite Htools, program_spec_arguments.
      destruct (Start vm _ _) as [fault|pid]; [reflexivity|].
      intros Hpid. rewrite (proj2 (Z.ltb_ge 0 pid) Hpid). reflexivity.
Qed.

Lemma program_is_not_started_without_vm_or_tools_witness :
  VMwareManager.execute_program_in_vm Sample.tools_of Sample.start_42 Sample.exits_at_third
                                      31 "mail" "root" "pw" "/bin/true" "" Sample.world_done
  = (Py.Raised (Py.Exception "VM mail not found"), Sample.world_done).
Proof.
  apply (proj1 (program_is_not_started_without_vm_or_tools
                  Sample.tools_of Sample.start_42 Sample.exits_at_third 31
                  "mail" "root" "pw" "/bin/true" "" Sample.world_done)).
  intros vm Hvm.
  repeat (apply elem_of_cons in Hvm as [->|Hvm]; [discriminate|]).
  inversion Hvm.
Defined.

(** ** Reading a resource *)

Section Resources.
Import Py VMwareManager Tools McpServer.

Lemma prefix_app p s : String.prefix p (p +:+ s) = true.
Proof.
  induction p as [|c p IH]; simpl; [destruct s; reflexivity|].
  destruct (ascii_dec c c) as [_|Hne]; [assumption|contradiction].
Qed.

Lemma replace_from_skip old new p s :
  replace_from old new (String.length p) (p +:+ s) = replace_from old new 0 s.
Proof. induction p as [|c p IH]; simpl; [reflexivity|assumption]. Qed.

(** A leading occurrence is replaced, and the scan goes on after it. *)
Lemma replace_leading old new s :
  old <> "" -> replace old new (old +:+ s) = new +:+ replace old new s.
Proof.
  intros Hold. unfold replace. destruct old as [|c old]; [contradiction|].
  change (String c old +:+ s) with (String c (old +:+ s)).
  cbn [replace_from].
  change (String c (old +:+ s)) with (String c old +:+ s).
  rewrite prefix_app. cbn [String.length Nat.pred].
  rewrite replace_from_skip. reflexivity.
Qed.

Lemma replace_absent old new s : Spec.occurs old s = false -> replace old new s = s.
Proof.
  unfold replace. induction s as [|c s IH]; [reflexivity|].
  cbn [Spec.occurs replace_from]. intros Hocc.
  apply orb_false_iff in Hocc as [Hhere Hrest].
  rewrite Hhere, (IH Hrest). reflexivity.
Qed.

Context {result : Type}.
Variable manager : string -> list value -> M World result.
Variable config : Config.
Variable json_dumps : result -> string.

(** The loop over the one resource there is. *)
Lemma read_resource_handler_eq uri :
  read_resource_handler manager config json_dumps uri
  = if String.prefix "vmstats://" uri then
      result ← handler manager config vm_performance_resource
                       [str_ (replace "vmstats://" "" uri)];
      mret [ {| type := "text"; text := json_dumps result |} ]
    else raise (ValueError ("Unknown resource: " +:+ uri)).
Proof.
  unfold read_resource_handler, resources. cbn [read_resource_items].
  change (split_first _ _) with "vmstats://".
  change (String.eqb "vmStats" "vmStats") with true. cbv iota.
  destruct (String.prefix "vmstats://" uri); reflexivity.
Qed.

End Resources.





(** ** The tools advertised and the handlers registered *)

Section Advertised.
Import Py VMwareManager Tools McpServer.
Context {result : Type}.
Variable manager : string -> list value -> M World result.
Variable config : Config.

(** Each entry of [tools] against the entry of [tool_handler_map] under
    the same key and the signature of the handler it calls. *)
Lemma tools_entry_agrees key tool :
  (key, tool) ∈ tools ->
  Tool.name tool = key
  /\ exists t,
       (tool_handler_map manager config !! key = Some (with_kwargs manager config t)
        \/ (tool_handler_map manager config !! key = Some (without_args manager config t)
            /\ parameters t = []))
       /\ manager_method t = key
       /\ (Tool.properties (Tool.inputSchema tool)).*1 = (parameters t).*1
       /\ Tool.required (Tool.inputSchema tool)
          = (filter (fun p => p.2 = None) (parameters t)).*1
       /\ forall p prop d,
            (p, prop) ∈ Tool.properties (Tool.inputSchema tool) ->
            Tool.default prop = Some d -> (p, Some d) ∈ parameters t.
Proof.
  intros Hin. unfold tools in Hin.
  repeat (apply elem_of_cons in Hin as [Hin|Hin];
    [injection Hin as -> ->; split; [reflexivity|]; eexists; split;
       [first [left; reflexivity | right; split; reflexivity]|];
     split; [reflexivity|]; split; [reflexivity|]; split; [reflexivity|];
     intros p prop d Hp Hd; simpl in Hp;
     repeat (apply elem_of_cons in Hp as [Hp|Hp];
             [injection Hp as -> ->;
              first [discriminate Hd
                    | injection Hd as <-; simpl; solve [repeat constructor]]|]);
     inversion Hp |]).
  inversion Hin.
Qed.

Lemma bind_kwargs_accepts params (arguments : gmap string value) :
  (forall k, is_Some (arguments !! k) -> k ∈ params.*1) ->
  (forall p, (p, None) ∈ params -> is_Some (arguments !! p)) ->
  exists bound, bind_kwargs params arguments = Returned bound.
Proof.
  intros Hkeys Hreq. unfold bind_kwargs.
  rewrite bool_decide_eq_true_2 by (intros k v Hk; apply Hkeys; eauto).
  destruct (bind_parameters params arguments) as [bound|] eqn:Hbind; [eauto|].
  apply bind_parameters_None in Hbind as (p & Hp & Hnone).
  destruct (Hreq p Hp) as [v Hv]. congruence.
Qed.

End Advertised.

(** X28.  What is advertised is what is registered.  [list_tools_handler]
    lists the tools under the names, and in the order, of the entries of
    [tool_handler_map], each tool under its own name.  The schema of a tool
    is the signature of the handler its entry calls: the properties are
    the parameters, in order; the required properties are the parameters
    without a default; a default the schema states is the default of the
    signature.  The tools without properties are the ones called without
    arguments. *)
Theorem listed_tools_match_their_handlers :
  forall (result : Type)
         (manager : string -> list Tools.value -> Py.M VMwareManager.World result)
         (config : VMwareManager.Config),
    McpServer.Tool.name <$> McpServer.list_tools_handler
    = (McpServer.tool_handler_entries manager config).*1
    /\ forall tool, tool ∈ McpServer.list_tools_handler ->
         exists t,
           (McpServer.tool_handler_map manager config !! McpServer.Tool.name tool
            = Some (McpServer.with_kwargs manager config t)
            \/ (McpServer.tool_handler_map manager config !! McpServer.Tool.name tool
                = Some (McpServer.without_args manager config t)
                /\ Tools.parameters t = []))
           /\ Tools.manager_method t = McpServer.Tool.name tool
           /\ (McpServer.Tool.properties (McpServer.Tool.inputSchema tool)).*1
              = (Tools.parameters t).*1
           /\ McpServer.Tool.required (McpServer.Tool.inputSchema tool)
              = (filter (fun p => p.2 = None) (Tools.parameters t)).*1
           /\ forall p prop d,
                (p, prop) ∈ McpServer.Tool.properties (McpServer.Tool.inputSchema tool) ->
                McpServer.Tool.default prop = Some d -> (p, Some d) ∈ Tools.parameters t.
Proof.
  intros result manager config. split; [reflexivity|].
  intros tool Htool. unfold McpServer.list_tools_handler in Htool.
  apply list_elem_of_fmap in Htool as ([key tool'] & -> & Hin).
  destruct (tools_entry_agrees manager config key tool' Hin) as (Hname & t & Hrest).
  simpl. rewrite Hname. exists t. exact Hrest.
Qed.


